(** * PulseAssignment review scraper: model and verified properties

    The program ([code.py]) fetches paginated review listings from G2,
    Capterra and a generic SaaS review site, extracts [Review] records
    from the HTML, keeps those whose date lies in a window and writes the
    result as JSON.

    The development is a shallow embedding.  Python [str] values are
    modelled by [string] (the ASCII fragment of Unicode), Python [int]
    by [Z], exceptions by a sum type, and the libraries the program
    calls ([datetime.strptime], [requests], [bs4], [float], [json]) are
    either modelled directly from their documented behaviour or taken as
    an interface with a small executable instance. *)

From Stdlib Require Import Ascii String ZArith Lia List Bool.
From stdpp Require Import base option list gmap strings pretty.

Local Open Scope Z_scope.

(* ================================================================== *)
(** * Python [str] methods on the ASCII fragment *)
(* ================================================================== *)

Module PyStr.

(** [str.isspace] on one ASCII character: TAB..CR, FS..US and SPACE.
    The regular expression class [\s] agrees with it on [str]
    patterns. *)
Definition isspace (c : ascii) : bool :=
  let n := N_of_ascii c in
  ((9 <=? n) && (n <=? 13) || (28 <=? n) && (n <=? 32))%N.

(** Decimal value of an ASCII digit ([\d], [str.isdigit]). *)
Definition digit_val (c : ascii) : option Z :=
  let n := N_of_ascii c in
  if ((48 <=? n) && (n <=? 57))%N then Some (Z.of_N n - 48) else None.

Definition isdigit (c : ascii) : bool :=
  match digit_val c with Some _ => true | None => false end.

Definition isupper (c : ascii) : bool :=
  let n := N_of_ascii c in ((65 <=? n) && (n <=? 90))%N.

(** [str.lower], one character. *)
Definition lower_char (c : ascii) : ascii :=
  if isupper c then ascii_of_N (N_of_ascii c + 32) else c.

(** [str.lower]. *)
Fixpoint lower (s : string) : string :=
  match s with
  | EmptyString => EmptyString
  | String c s' => String (lower_char c) (lower s')
  end.

Fixpoint lstrip (s : string) : string :=
  match s with
  | EmptyString => EmptyString
  | String c s' => if isspace c then lstrip s' else s
  end.

Fixpoint rstrip (s : string) : string :=
  match s with
  | EmptyString => EmptyString
  | String c s' =>
      match rstrip s' with
      | EmptyString => if isspace c then EmptyString else String c EmptyString
      | r => String c r
      end
  end.

(** [str.strip()] with no argument. *)
Definition strip (s : string) : string := rstrip (lstrip s).

(** [str.replace(old, new)] for one-character [old] and [new]. *)
Fixpoint replace (old new : ascii) (s : string) : string :=
  match s with
  | EmptyString => EmptyString
  | String c s' =>
      String (if Ascii.eqb c old then new else c) (replace old new s')
  end.

(** The longest prefix whose characters satisfy [p], and the rest. *)
Fixpoint span (p : ascii -> bool) (s : string) : string * string :=
  match s with
  | String c s' =>
      if p c then let '(a, b) := span p s' in (String c a, b)
      else (EmptyString, s)
  | EmptyString => (EmptyString, EmptyString)
  end.

(** [list.index(x)] on a list of strings; [None] is [ValueError]. *)
Fixpoint index (x : string) (l : list string) : option Z :=
  match l with
  | [] => None
  | y :: l' => if String.eqb x y then Some 0 else Z.succ <$> index x l'
  end.

Fixpoint digits_value (acc : Z) (s : string) : option Z :=
  match s with
  | EmptyString => Some acc
  | String c s' =>
      match digit_val c with
      | Some d => digits_value (10 * acc + d) s'
      | None => None
      end
  end.

(** [c in s] for one character. *)
Fixpoint contains (c : ascii) (s : string) : bool :=
  match s with
  | EmptyString => false
  | String c' s' => Ascii.eqb c c' || contains c s'
  end.

Definition hexdigit (n : N) : ascii :=
  if (n <? 10)%N then ascii_of_N (48 + n) else ascii_of_N (87 + n).

(** What [repr] writes for one character of a [str] between the quotes
    [quote]: the quote and the backslash behind a backslash, a
    backslash and [t], [n] or [r] for TAB, LF and CR, a backslash and
    [xhh] for the other characters that are not printable. *)
Definition repr_char (quote c : ascii) : string :=
  let n := N_of_ascii c in
  let backslash := "092"%char in
  if Ascii.eqb c quote || Ascii.eqb c backslash
  then String backslash (String c EmptyString)
  else if (n =? 9)%N then String backslash "t"
  else if (n =? 10)%N then String backslash "n"
  else if (n =? 13)%N then String backslash "r"
  else if ((n <? 32) || (n =? 127) || (128 <=? n) && (n <=? 160)
           || (n =? 173))%N
  then String backslash
         (String "x" (String (hexdigit (n / 16))
                        (String (hexdigit (n mod 16)) EmptyString)))
  else String c EmptyString.

Fixpoint repr_chars (quote : ascii) (s : string) : string :=
  match s with
  | EmptyString => EmptyString
  | String c s' => repr_char quote c +:+ repr_chars quote s'
  end.

(** [repr(s)] of a [str]: in single quotes, unless the text holds a
    single quote and no double quote. *)
Definition repr (s : string) : string :=
  let quote :=
    if contains "'" s && negb (contains "034" s) then "034"%char
    else "'"%char in
  String quote (repr_chars quote s +:+ String quote EmptyString).

(** [int(s)] for an unsigned decimal literal, surrounding white space
    allowed; [None] is [ValueError]. *)
Definition int (s : string) : option Z :=
  match strip s with
  | EmptyString => None
  | t => digits_value 0 t
  end.

End PyStr.

(* ================================================================== *)
(** * Calendar dates ([datetime.date]) *)
(* ================================================================== *)

Module Datetime.

Record date := Date { year : Z; month : Z; day : Z }.

Definition is_leap (y : Z) : bool :=
  (y mod 4 =? 0) && (negb (y mod 100 =? 0) || (y mod 400 =? 0)).

Definition days_in_month (y m : Z) : Z :=
  if m =? 2 then (if is_leap y then 29 else 28)
  else if (m =? 4) || (m =? 6) || (m =? 9) || (m =? 11) then 30
  else 31.

(** The constructor [date(year, month, day)]; [None] is the
    [ValueError] it raises for a date that does not exist. *)
Definition make_date (y m d : Z) : option date :=
  if (1 <=? y) && (y <=? 9999) && (1 <=? m) && (m <=? 12)
     && (1 <=? d) && (d <=? days_in_month y m)
  then Some (Date y m d) else None.

(** [a <= b] on dates, as a test: lexicographic on (year, month, day). *)
Definition leb (a b : date) : bool :=
  (year a <? year b)
  || (year a =? year b)
     && ((month a <? month b)
         || (month a =? month b) && (day a <=? day b)).

(** The calendar order, as a proposition. *)
Definition le (a b : date) : Prop :=
  year a < year b
  \/ year a = year b
     /\ (month a < month b \/ month a = month b /\ day a <= day b).

End Datetime.

(* ================================================================== *)
(** * [datetime.strptime] for the directives the program uses *)
(* ================================================================== *)

(** CPython's [_strptime] turns a format into a regular expression
    (compiled with [IGNORECASE]), takes the first match the backtracking
    engine finds at the start of the text, rejects it when text remains,
    converts the named groups and builds the date.  The model keeps this
    structure: a matcher returns every way to match a prefix, in the
    order the engine would try them, so the head of the list is the
    engine's match. *)

Module Strptime.
Import PyStr Datetime.

Definition matcher (A : Type) : Type := string -> list (A * string).

Definition re_ret {A} (a : A) : matcher A := fun s => [(a, s)].

Definition re_fail {A} : matcher A := fun _ => [].

Definition re_bind {A B} (m : matcher A) (k : A -> matcher B) : matcher B :=
  fun s => flat_map (fun ar => k (fst ar) (snd ar)) (m s).

(** [r1|r2]: every match of [r1] is tried before any of [r2]. *)
Definition re_alt {A} (m1 m2 : matcher A) : matcher A :=
  fun s => m1 s ++ m2 s.

(** [r1 r2], the matched text being the concatenation. *)
Definition re_seq (m1 m2 : matcher string) : matcher string :=
  re_bind m1 (fun t1 => re_bind m2 (fun t2 => re_ret (t1 +:+ t2))).

(** One character satisfying [p]. *)
Definition re_char (p : ascii -> bool) : matcher string :=
  fun s =>
    match s with
    | String c r => if p c then [(String c EmptyString, r)] else []
    | EmptyString => []
    end.

(** A literal character under [IGNORECASE]. *)
Definition re_lit (c : ascii) : matcher string :=
  re_char (fun x => Ascii.eqb (lower_char x) (lower_char c)).

(** A literal word under [IGNORECASE]. *)
Fixpoint re_word (w : string) : matcher string :=
  match w with
  | EmptyString => re_ret EmptyString
  | String c w' => re_seq (re_lit c) (re_word w')
  end.

(** The class [[lo-hi]] of digits. *)
Definition re_range (lo hi : Z) : matcher string :=
  re_char (fun x =>
    match digit_val x with
    | Some d => (lo <=? d) && (d <=? hi)
    | None => false
    end).

(** [\d] *)
Definition re_digit : matcher string := re_char isdigit.

(** [\s*], greedy: the longest run first. *)
Fixpoint re_space_star (s : string) : list (unit * string) :=
  match s with
  | String c r => if isspace c then re_space_star r ++ [(tt, s)] else [(tt, s)]
  | EmptyString => [(tt, EmptyString)]
  end.

(** [\s+], greedy. *)
Definition re_space_plus : matcher unit :=
  fun s =>
    match s with
    | String c r => if isspace c then re_space_star r else []
    | EmptyString => []
    end.

(** [LocaleTime.f_month] and [a_month] of the C locale, lower-cased,
    with the empty entry at index 0. *)
Definition f_month : list string :=
  [""; "january"; "february"; "march"; "april"; "may"; "june"; "july";
   "august"; "september"; "october"; "november"; "december"].

Definition a_month : list string :=
  [""; "jan"; "feb"; "mar"; "apr"; "may"; "jun"; "jul";
   "aug"; "sep"; "oct"; "nov"; "dec"].

(** [sorted(to_convert, key=len, reverse=True)]: stable, longest first. *)
Fixpoint insert_by_len (x : string) (l : list string) : list string :=
  match l with
  | [] => [x]
  | y :: l' =>
      if (String.length x <? String.length y)%nat
      then y :: insert_by_len x l' else x :: l
  end.

Definition sort_by_len (l : list string) : list string :=
  foldr insert_by_len [] l.

(** [TimeRE.__seqToRE]: the alternation of the words, longest first. *)
Definition seqToRE (to_convert : list string) : matcher string :=
  foldr (fun w r => re_alt (re_word w) r) re_fail (sort_by_len to_convert).

(** [%d]: [3[0-1]|[1-2]\d|0[1-9]|[1-9]| [1-9]] *)
Definition re_d : matcher string :=
  re_alt (re_seq (re_range 3 3) (re_range 0 1))
 (re_alt (re_seq (re_range 1 2) re_digit)
 (re_alt (re_seq (re_range 0 0) (re_range 1 9))
 (re_alt (re_range 1 9)
         (re_seq (re_char (Ascii.eqb " ")) (re_range 1 9))))).

(** [%m]: [1[0-2]|0[1-9]|[1-9]] *)
Definition re_m : matcher string :=
  re_alt (re_seq (re_range 1 1) (re_range 0 2))
 (re_alt (re_seq (re_range 0 0) (re_range 1 9))
         (re_range 1 9)).

(** [%Y]: [\d\d\d\d] *)
Definition re_Y : matcher string :=
  re_seq re_digit (re_seq re_digit (re_seq re_digit re_digit)).

(** The regular expression of a directive.  The program uses only
    these five; any other directive is outside the model and matches
    nothing. *)
Definition directive (c : ascii) : matcher string :=
  if Ascii.eqb c "d" then re_d
  else if Ascii.eqb c "m" then re_m
  else if Ascii.eqb c "Y" then re_Y
  else if Ascii.eqb c "B" then seqToRE (tl f_month)
  else if Ascii.eqb c "b" then seqToRE (tl a_month)
  else re_fail.

(** The groups of a match: directive letter and matched text. *)
Definition found_dict : Type := list (ascii * string).

(** [TimeRE.pattern]: a run of white space in the format becomes
    [\s+], a directive its regular expression, any other character
    itself. *)
Fixpoint pattern (format : string) : matcher found_dict :=
  match format with
  | EmptyString => re_ret []
  | String c format' =>
      if Ascii.eqb c "%" then
        match format' with
        | String dir format'' =>
            re_bind (directive dir) (fun txt =>
            re_bind (pattern format'') (fun found =>
            re_ret ((dir, txt) :: found)))
        | EmptyString => re_fail
        end
      else if isspace c then
        match format' with
        | String c' _ =>
            if isspace c' then pattern format'
            else re_bind re_space_plus (fun _ => pattern format')
        | EmptyString => re_bind re_space_plus (fun _ => pattern format')
        end
      else re_bind (re_lit c) (fun _ => pattern format')
  end.

(** Conversion of one group; the triple is (year, month, day). *)
Definition convert (ymd : Z * Z * Z) (group : ascii * string)
  : option (Z * Z * Z) :=
  let '(y, m, d) := ymd in
  let '(key, txt) := group in
  if Ascii.eqb key "Y" then y' ← int txt; Some (y', m, d)
  else if Ascii.eqb key "m" then m' ← int txt; Some (y, m', d)
  else if Ascii.eqb key "B" then m' ← index (lower txt) f_month; Some (y, m', d)
  else if Ascii.eqb key "b" then m' ← index (lower txt) a_month; Some (y, m', d)
  else if Ascii.eqb key "d" then d' ← int txt; Some (y, m, d')
  else Some ymd.

Fixpoint convert_all (ymd : Z * Z * Z) (found : found_dict)
  : option (Z * Z * Z) :=
  match found with
  | [] => Some ymd
  | g :: found' => ymd' ← convert ymd g; convert_all ymd' found'
  end.

(** [datetime.strptime(data_string, format).date()]; [None] stands for
    the [ValueError] raised when the text does not match, when text
    remains after the match, or when the date does not exist. *)
Definition strptime (data_string format : string) : option date :=
  match pattern format data_string with
  | [] => None
  | (found, rest) :: _ =>
      match rest with
      | EmptyString =>
          '(y, m, d) ← convert_all (1900, 1, 1) found;
          make_date y m d
      | String _ _ => None
      end
  end.

End Strptime.

(* ================================================================== *)
(** * The date filter *)
(* ================================================================== *)

(** The formats [in_range] tries, in order. *)
Definition date_formats : list string := ["%B %d, %Y"; "%b %d, %Y"; "%Y-%m-%d"].

(** The [for fmt in ...: try ... except ValueError: continue] loop. *)
Fixpoint in_range_loop (fmts : list string) (date_str : string)
    (start_d end_d : Datetime.date) : bool :=
  match fmts with
  | [] => true
  | fmt :: fmts' =>
      match Strptime.strptime (PyStr.strip date_str) fmt with
      | Some d => Datetime.leb start_d d && Datetime.leb d end_d
      | None => in_range_loop fmts' date_str start_d end_d
      end
  end.

Definition in_range (date_str : string) (start_d end_d : Datetime.date) : bool :=
  in_range_loop date_formats date_str start_d end_d.

(* ================================================================== *)
(** * Exceptions, effects and the libraries behind the extractors *)
(* ================================================================== *)

(** The exceptions that can reach the program. *)
Inductive exn : Type :=
| ValueError (msg : string)
| AttributeError (msg : string)
| TypeError (msg : string)
| KeyError (key : string)
| RequestException (msg : string)
| ParserRejectedMarkup (msg : string)
| OSError (msg : string).

(** A Python computation either returns or raises. *)
Inductive result (A : Type) : Type :=
| Ok (a : A)
| Raise (e : exn).
Arguments Ok {A} a.
Arguments Raise {A} e.

Definition result_bind {A B} (r : result A) (k : A -> result B) : result B :=
  match r with
  | Ok a => k a
  | Raise e => Raise e
  end.

Notation "x <-! r ; k" := (result_bind r (fun x => k))
  (at level 100, r at next level, right associativity, only parsing).

(** What the program does to the outside world, in order. *)
Inductive event : Type :=
| Print (line : string)
| Get (url : string) (timeout : Z)
| Sleep (seconds : Z)
| WriteFile (name content : string).

Definition trace : Type := list event.

(** [requests.Response]: the status code and the body. *)
Record response := Response { status_code : Z; text : string }.

(** The part of [bs4] the extractors call.  [BeautifulSoup markup] is
    [BeautifulSoup(markup, "html.parser")], which returns the document
    or raises when the parser rejects the markup.  [select] and
    [select_one] take a CSS selector; [find] takes a tag name and, optionally, one
    attribute filter; [get_text sep el] is [el.get_text(sep, strip=True)];
    [tag_get el key] is [el.get(key)], which is [None] for a missing
    attribute and otherwise agrees with [el[key]]. *)
Class BS4 : Type := {
  Tag : Type;
  BeautifulSoup : string -> result Tag;
  select : Tag -> string -> list Tag;
  select_one : Tag -> string -> option Tag;
  find : Tag -> string -> option (string * string) -> option Tag;
  get_text : string -> Tag -> string;
  tag_get : Tag -> string -> option string;
}.

(** Python floats: the type, the literal [0.0], the conversion
    [float(s)] ([None] is [ValueError]), what [json] writes for a
    float, and the comparison [x == y]. *)
Class PyFloat : Type := {
  float : Type;
  float_zero : float;
  float_of_str : string -> option float;
  float_repr : float -> string;
  float_eqb : float -> float -> bool;
}.

(* ================================================================== *)
(** * Data model *)
(* ================================================================== *)

Section Scraper.
Context `{bs4 : BS4} `{pyfloat : PyFloat}.

(** The network as the program sees it: what [requests.get(url,
    timeout=20)] does for each URL, a response or an exception
    (time-out, connection failure). *)
Variable requests_get : string -> result response.

Record Review := {
  title : string;
  date : string;
  rating : float;
  reviewer_name : string;
  review_text : string;
  source : string;
  company : string;
}.

(** The state of a loop that has not finished is [None]: the model
    runs a [while True] loop for a given number of iterations. *)
Definition running {A} : option (result A) * trace := (None, []).

(* ---------------------------------------------------------------- *)
(** ** G2 *)

Definition build_g2_url (product_slug : string) (page : Z) : string :=
  "https://www.g2.com/products/" +:+ product_slug +:+ "/reviews?page="
    +:+ pretty page.

Definition g2_slug_map : gmap string string := {[ "pulse" := "pulse" ]}.

(** The body of [for card in cards] in [scrape_g2]. *)
Definition g2_card (company : string) (start_d end_d : Datetime.date)
    (all_reviews : list Review) (card : Tag) : list Review :=
  let title :=
    match select_one card "h3" with
    | Some title_el => get_text "" title_el | None => "" end in
  let date_txt :=
    match find card "time" None with
    | Some date_el => get_text "" date_el | None => "" end in
  let rating :=
    match find card "meta" (Some ("itemprop", "ratingValue")) with
    | Some rating_el =>
        match tag_get rating_el "content" with
        | Some content =>
            if String.eqb content "" then float_zero
            else match float_of_str content with
                 | Some x => x
                 | None => float_zero
                 end
        | None => float_zero
        end
    | None => float_zero
    end in
  let reviewer_name :=
    match select_one card "a.link--header-color" with
    | Some user_el => get_text "" user_el | None => "" end in
  let review_text :=
    match find card "div" (Some ("itemprop", "reviewBody")) with
    | Some body_el => get_text " " body_el | None => "" end in
  if negb (in_range date_txt start_d end_d) then all_reviews
  else all_reviews ++
         [{| title := title; date := date_txt; rating := rating;
             reviewer_name := reviewer_name; review_text := review_text;
             source := "g2"; company := company |}].

(** The [while True] loop of [scrape_g2], run for at most [fuel]
    iterations. *)
Fixpoint g2_loop (fuel : nat) (slug company : string) (start_d end_d : Datetime.date)
    (page : Z) (all_reviews : list Review)
  : option (result (list Review)) * trace :=
  match fuel with
  | O => running
  | S fuel' =>
      let url := build_g2_url slug page in
      let io := [Print ("[G2] Fetching page " +:+ pretty page +:+ ": " +:+ url);
                 Get url 20] in
      match requests_get url with
      | Raise e => (Some (Raise e), io)
      | Ok resp =>
          if negb (status_code resp =? 200) then (Some (Ok all_reviews), io)
          else
            match BeautifulSoup (text resp) with
            | Raise e => (Some (Raise e), io)
            | Ok soup =>
                match select soup ".paper.paper--white.paper--box" with
                | [] => (Some (Ok all_reviews), io)
                | cards =>
                    let all_reviews' :=
                      foldl (g2_card company start_d end_d) all_reviews cards in
                    let '(r, io') :=
                      g2_loop fuel' slug company start_d end_d (page + 1)
                              all_reviews' in
                    (r, io ++ Sleep 1 :: io')
                end
            end
      end
  end.

Definition scrape_g2 (fuel : nat) (company : string) (start_d end_d : Datetime.date)
  : option (result (list Review)) * trace :=
  let key := PyStr.lower company in
  match g2_slug_map !! key with
  | None =>
      (Some (Raise (ValueError
         ("No G2 slug configured for '" +:+ company +:+ "'. "
          +:+ "Update slug_map in scrape_g2()."))), [])
  | Some slug => g2_loop fuel slug company start_d end_d 1 []
  end.

(* ---------------------------------------------------------------- *)
(** ** Capterra *)

Definition build_capterra_url (product_path : string) (page : Z) : string :=
  let base := "https://www.capterra.com/p/" +:+ product_path +:+ "/reviews/" in
  if page =? 1 then base else base +:+ "?page=" +:+ pretty page.

Definition capterra_slug_map : gmap string string :=
  {[ "pulse" := "12345/Pulse" ]}.

(** The body of [for card in cards] in [scrape_capterra]. *)
Definition capterra_card (company : string) (start_d end_d : Datetime.date)
    (all_reviews : list Review) (card : Tag) : list Review :=
  let title :=
    match select_one card "h3.review-card__title" with
    | Some title_el => get_text "" title_el | None => "" end in
  let date_txt :=
    match select_one card "span.review-card__date" with
    | Some date_el => get_text "" date_el | None => "" end in
  let rating :=
    match select_one card "span.star-rating__rating" with
    | Some rating_el =>
        match float_of_str (get_text "" rating_el) with
        | Some x => x
        | None => float_zero
        end
    | None => float_zero
    end in
  let reviewer_name :=
    match select_one card "span.review-card__reviewer-name" with
    | Some user_el => get_text "" user_el | None => "" end in
  let review_text :=
    match select_one card "p.review-card__review-text" with
    | Some body_el => get_text " " body_el | None => "" end in
  if negb (in_range date_txt start_d end_d) then all_reviews
  else all_reviews ++
         [{| title := title; date := date_txt; rating := rating;
             reviewer_name := reviewer_name; review_text := review_text;
             source := "capterra"; company := company |}].

Fixpoint capterra_loop (fuel : nat) (path company : string)
    (start_d end_d : Datetime.date) (page : Z) (all_reviews : list Review)
  : option (result (list Review)) * trace :=
  match fuel with
  | O => running
  | S fuel' =>
      let url := build_capterra_url path page in
      let io := [Print ("[Capterra] Fetching page " +:+ pretty page +:+ ": "
                        +:+ url);
                 Get url 20] in
      match requests_get url with
      | Raise e => (Some (Raise e), io)
      | Ok resp =>
          if negb (status_code resp =? 200) then (Some (Ok all_reviews), io)
          else
            match BeautifulSoup (text resp) with
            | Raise e => (Some (Raise e), io)
            | Ok soup =>
                match select soup "section.review-card" with
                | [] => (Some (Ok all_reviews), io)
                | cards =>
                    let all_reviews' :=
                      foldl (capterra_card company start_d end_d) all_reviews
                            cards in
                    let '(r, io') :=
                      capterra_loop fuel' path company start_d end_d (page + 1)
                                    all_reviews' in
                    (r, io ++ Sleep 1 :: io')
                end
            end
      end
  end.

Definition scrape_capterra (fuel : nat) (company : string)
    (start_d end_d : Datetime.date) : option (result (list Review)) * trace :=
  let key := PyStr.lower company in
  match capterra_slug_map !! key with
  | None =>
      (Some (Raise (ValueError
         ("No Capterra path configured for '" +:+ company +:+ "'. "
          +:+ "Update slug_map in scrape_capterra()."))), [])
  | Some path => capterra_loop fuel path company start_d end_d 1 []
  end.

(* ---------------------------------------------------------------- *)
(** ** The generic SaaS site *)

(** [el.get_text(sep, strip=True)] where [el] may be [None]. *)
Definition get_text_of (sep : string) (el : option Tag) : result string :=
  match el with
  | Some t => Ok (get_text sep t)
  | None =>
      Raise (AttributeError "'NoneType' object has no attribute 'get_text'")
  end.

(** [el[key]] where [el] may be [None]. *)
Definition subscript (el : option Tag) (key : string) : result string :=
  match el with
  | Some t =>
      match tag_get t key with
      | Some v => Ok v
      | None => Raise (KeyError key)
      end
  | None => Raise (TypeError "'NoneType' object is not subscriptable")
  end.

(** [float(s)], raising; the message holds [repr(s)]. *)
Definition float_ (s : string) : result float :=
  match float_of_str s with
  | Some x => Ok x
  | None =>
      Raise (ValueError ("could not convert string to float: "
                           +:+ PyStr.repr s))
  end.

(** The body of [for card in cards] in [scrape_saas_example]. *)
Definition saas_card (company : string) (start_d end_d : Datetime.date)
    (all_reviews : list Review) (card : Tag) : result (list Review) :=
  title <-! get_text_of "" (select_one card ".review-title");
  date_txt <-! get_text_of "" (select_one card ".review-date");
  score <-! subscript (select_one card ".review-rating") "data-score";
  rating <-! float_ score;
  reviewer_name <-! get_text_of "" (select_one card ".reviewer-name");
  review_text <-! get_text_of " " (select_one card ".review-body");
  if negb (in_range date_txt start_d end_d) then Ok all_reviews
  else Ok (all_reviews ++
             [{| title := title; date := date_txt; rating := rating;
                 reviewer_name := reviewer_name; review_text := review_text;
                 source := "saas"; company := company |}]).

(** [for card in cards: ...] when the body may raise. *)
Fixpoint saas_cards (company : string) (start_d end_d : Datetime.date)
    (all_reviews : list Review) (cards : list Tag) : result (list Review) :=
  match cards with
  | [] => Ok all_reviews
  | card :: cards' =>
      all_reviews' <-! saas_card company start_d end_d all_reviews card;
      saas_cards company start_d end_d all_reviews' cards'
  end.

Fixpoint saas_loop (fuel : nat) (base_url company : string)
    (start_d end_d : Datetime.date) (page : Z) (all_reviews : list Review)
  : option (result (list Review)) * trace :=
  match fuel with
  | O => running
  | S fuel' =>
      let url := base_url +:+ pretty page in
      let io := [Print ("[SAAS] Fetching page " +:+ pretty page +:+ ": "
                        +:+ url);
                 Get url 20] in
      match requests_get url with
      | Raise e => (Some (Raise e), io)
      | Ok resp =>
          if negb (status_code resp =? 200) then (Some (Ok all_reviews), io)
          else
            match BeautifulSoup (text resp) with
            | Raise e => (Some (Raise e), io)
            | Ok soup =>
                match select soup ".review-card" with
                | [] => (Some (Ok all_reviews), io)
                | cards =>
                    match saas_cards company start_d end_d all_reviews cards
                    with
                    | Raise e => (Some (Raise e), io)
                    | Ok all_reviews' =>
                        let '(r, io') :=
                          saas_loop fuel' base_url company start_d end_d
                                    (page + 1) all_reviews' in
                        (r, io ++ Sleep 1 :: io')
                    end
                end
            end
      end
  end.

Definition saas_base_url (company : string) : string :=
  "https://example-saas-reviews.com/" +:+ PyStr.lower company
    +:+ "/reviews?page=".

Definition scrape_saas_example (fuel : nat) (company : string)
    (start_d end_d : Datetime.date) : option (result (list Review)) * trace :=
  saas_loop fuel (saas_base_url company) company start_d end_d 1 [].

End Scraper.

(* ================================================================== *)
(** * JSON text as the [json] module writes it *)
(* ================================================================== *)

Module Json.
Section Json.
Context `{pyfloat : PyFloat}.

(** The Python values [json] handles. *)
#[warnings="-register-all"] Inductive value : Type :=
| JNull
| JBool (b : bool)
| JInt (n : Z)
| JFloat (x : float)
| JStr (s : string)
| JArr (items : list value)
| JObj (members : list (string * value)).

Definition dquote : ascii := "034"%char.
Definition backslash : ascii := "092"%char.

Definition hex_digit (n : N) : ascii :=
  if (n <? 10)%N then ascii_of_N (48 + n) else ascii_of_N (87 + n).

(** [ESCAPE_DCT]: what [encode_basestring] writes for one character
    when [ensure_ascii] is false. *)
Definition escape_char (c : ascii) : string :=
  let n := N_of_ascii c in
  if Ascii.eqb c dquote then String backslash (String dquote "")
  else if Ascii.eqb c backslash then String backslash (String backslash "")
  else if (n =? 10)%N then String backslash "n"
  else if (n =? 13)%N then String backslash "r"
  else if (n =? 9)%N then String backslash "t"
  else if (n =? 8)%N then String backslash "b"
  else if (n =? 12)%N then String backslash "f"
  else if (n <? 32)%N then
    String backslash
      (String "u" (String "0" (String "0"
         (String (hex_digit (n / 16)) (String (hex_digit (n mod 16)) "")))))
  else String c "".

Fixpoint escape (s : string) : string :=
  match s with
  | EmptyString => EmptyString
  | String c s' => escape_char c +:+ escape s'
  end.

Definition encode_basestring (s : string) : string :=
  String dquote (escape s +:+ String dquote "").

Fixpoint spaces (n : nat) : string :=
  match n with
  | O => EmptyString
  | S n' => String " " (spaces n')
  end.

(** ['\n' + _indent * level] for [indent=2]. *)
Definition newline_indent (level : nat) : string :=
  String "010" (spaces (2 * level)).

(** [sep.join(chunks)] *)
Fixpoint join (sep : string) (chunks : list string) : string :=
  match chunks with
  | [] => EmptyString
  | [x] => x
  | x :: rest => x +:+ sep +:+ join sep rest
  end.

(** [JSONEncoder(ensure_ascii=False, indent=2).encode], at nesting
    depth [level]. *)
Fixpoint encode (level : nat) (v : value) : string :=
  match v with
  | JNull => "null"
  | JBool true => "true"
  | JBool false => "false"
  | JInt n => pretty n
  | JFloat x => float_repr x
  | JStr s => encode_basestring s
  | JArr [] => "[]"
  | JArr items =>
      "[" +:+ newline_indent (S level)
        +:+ join ("," +:+ newline_indent (S level))
                 (List.map (encode (S level)) items)
        +:+ newline_indent level +:+ "]"
  | JObj [] => "{}"
  | JObj members =>
      "{" +:+ newline_indent (S level)
        +:+ join ("," +:+ newline_indent (S level))
                 (List.map (fun kv => encode_basestring (fst kv) +:+ ": "
                                        +:+ encode (S level) (snd kv))
                           members)
        +:+ newline_indent level +:+ "}"
  end.

(** [json.dumps(v, ensure_ascii=False, indent=2)], which is also the
    text [json.dump] writes to the file. *)
Definition dumps (v : value) : string := encode 0 v.

(** JSON white space: space, tab, line feed, carriage return. *)
Definition is_ws (c : ascii) : bool :=
  let n := N_of_ascii c in
  ((n =? 32) || (n =? 9) || (n =? 10) || (n =? 13))%N.

Fixpoint skip_ws (s : string) : string :=
  match s with
  | String c s' => if is_ws c then skip_ws s' else s
  | EmptyString => EmptyString
  end.

Definition hex_val (c : ascii) : option N :=
  let n := N_of_ascii c in
  if ((48 <=? n) && (n <=? 57))%N then Some (n - 48)%N
  else if ((97 <=? n) && (n <=? 102))%N then Some (n - 87)%N
  else if ((65 <=? n) && (n <=? 70))%N then Some (n - 55)%N
  else None.

(** [BACKSLASH]: the one-character escapes. *)
Definition unescape (c : ascii) : option ascii :=
  if Ascii.eqb c dquote then Some dquote
  else if Ascii.eqb c backslash then Some backslash
  else if Ascii.eqb c "/" then Some "/"%char
  else if Ascii.eqb c "b" then Some "008"%char
  else if Ascii.eqb c "f" then Some "012"%char
  else if Ascii.eqb c "n" then Some "010"%char
  else if Ascii.eqb c "r" then Some "013"%char
  else if Ascii.eqb c "t" then Some "009"%char
  else None.

(** [py_scanstring] in strict mode, from behind the opening quote:
    the string and the text behind the closing quote.  An escape
    [\uXXXX] of a character outside ASCII is outside the model. *)
Fixpoint scanstring (s : string) : option (string * string) :=
  match s with
  | EmptyString => None
  | String c s' =>
      if Ascii.eqb c dquote then Some (EmptyString, s')
      else if Ascii.eqb c backslash then
        match s' with
        | String e s'' =>
            if Ascii.eqb e "u" then
              match s'' with
              | String h1 (String h2 (String h3 (String h4 s''')))  =>
                  a ← hex_val h1; b ← hex_val h2;
                  c ← hex_val h3; d ← hex_val h4;
                  let code := (((a * 16 + b) * 16 + c) * 16 + d)%N in
                  if (code <? 128)%N then
                    '(t, r) ← scanstring s''';
                    Some (String (ascii_of_N code) t, r)
                  else None
              | _ => None
              end
            else
              ch ← unescape e;
              '(t, r) ← scanstring s'';
              Some (String ch t, r)
        | EmptyString => None
        end
      else if (N_of_ascii c <? 32)%N then None
      else '(t, r) ← scanstring s'; Some (String c t, r)
  end.

Definition starts_with (p s : string) : option string :=
  if String.prefix p s
  then Some (String.substring (String.length p)
                              (String.length s - String.length p) s)
  else None.

(** [NUMBER_RE]: an optional minus sign, then [0] or a digit other
    than zero with all the digits behind it, then optionally a point
    with digits, then optionally an exponent; the conversion of what
    it matched; and the constants [NaN], [Infinity], [-Infinity]. *)
Definition scan_number (s : string) : option (value * string) :=
  let '(sign, s1) :=
    match s with
    | String "-" r => ("-", r)
    | _ => (EmptyString, s)
    end in
  match s1 with
  | String c r =>
      if PyStr.isdigit c then
        let '(integer, s2) :=
          if Ascii.eqb c "0" then ("0", r) else PyStr.span PyStr.isdigit s1 in
        let '(frac, s3) :=
          match s2 with
          | String "." (String d r') =>
              if PyStr.isdigit d then
                let '(ds, r'') := PyStr.span PyStr.isdigit (String d r') in
                (String "." ds, r'')
              else (EmptyString, s2)
          | _ => (EmptyString, s2)
          end in
        let '(exp, s4) :=
          match s3 with
          | String e r' =>
              if Ascii.eqb e "e" || Ascii.eqb e "E" then
                let '(esign, r'') :=
                  match r' with
                  | String "+" q => ("+", q)
                  | String "-" q => ("-", q)
                  | _ => (EmptyString, r')
                  end in
                match PyStr.span PyStr.isdigit r'' with
                | (EmptyString, _) => (EmptyString, s3)
                | (ds, q) => (String e (esign +:+ ds), q)
                end
              else (EmptyString, s3)
          | EmptyString => (EmptyString, s3)
          end in
        match frac, exp with
        | EmptyString, EmptyString =>
            n ← PyStr.int integer;
            Some (JInt (if String.eqb sign "-" then - n else n), s4)
        | _, _ =>
            x ← float_of_str (sign +:+ integer +:+ frac +:+ exp);
            Some (JFloat x, s4)
        end
      else
        match starts_with "NaN" s, starts_with "Infinity" s,
              starts_with "-Infinity" s with
        | Some r', _, _ => x ← float_of_str "nan"; Some (JFloat x, r')
        | _, Some r', _ => x ← float_of_str "inf"; Some (JFloat x, r')
        | _, _, Some r' => x ← float_of_str "-inf"; Some (JFloat x, r')
        | _, _, _ => None
        end
  | EmptyString => None
  end.

(** [scan_once], [JSONArray] and [JSONObject] of the decoder; [fuel]
    bounds the number of nested calls.  An object is returned as its
    members in order of appearance. *)
Fixpoint scan_once (fuel : nat) (s : string) : option (value * string) :=
  match fuel with
  | O => None
  | S fuel' =>
      match s with
      | EmptyString => None
      | String c s' =>
          if Ascii.eqb c dquote then
            '(t, r) ← scanstring s'; Some (JStr t, r)
          else if Ascii.eqb c "{" then
            match skip_ws s' with
            | String "}" r => Some (JObj [], r)
            | s'' => '(ms, r) ← parse_members fuel' s''; Some (JObj ms, r)
            end
          else if Ascii.eqb c "[" then
            match skip_ws s' with
            | String "]" r => Some (JArr [], r)
            | s'' => '(vs, r) ← parse_items fuel' s''; Some (JArr vs, r)
            end
          else
            match starts_with "null" s, starts_with "true" s,
                  starts_with "false" s with
            | Some r, _, _ => Some (JNull, r)
            | _, Some r, _ => Some (JBool true, r)
            | _, _, Some r => Some (JBool false, r)
            | _, _, _ => scan_number s
            end
      end
  end
with parse_items (fuel : nat) (s : string) : option (list value * string) :=
  match fuel with
  | O => None
  | S fuel' =>
      '(v, r) ← scan_once fuel' s;
      match skip_ws r with
      | String "]" r' => Some ([v], r')
      | String "," r' =>
          '(vs, r'') ← parse_items fuel' (skip_ws r'); Some (v :: vs, r'')
      | _ => None
      end
  end
with parse_members (fuel : nat) (s : string)
  : option (list (string * value) * string) :=
  match fuel with
  | O => None
  | S fuel' =>
      match s with
      | String c s' =>
          if Ascii.eqb c dquote then
            '(key, r) ← scanstring s';
            match skip_ws r with
            | String ":" r1 =>
                '(v, r2) ← scan_once fuel' (skip_ws r1);
                match skip_ws r2 with
                | String "}" r3 => Some ([(key, v)], r3)
                | String "," r3 =>
                    '(ms, r4) ← parse_members fuel' (skip_ws r3);
                    Some ((key, v) :: ms, r4)
                | _ => None
                end
            | _ => None
            end
          else None
      | EmptyString => None
      end
  end.

(** [json.loads]; [None] is [JSONDecodeError]. *)
Definition loads (s : string) : option value :=
  '(v, r) ← scan_once (S (String.length s)) (skip_ws s);
  match skip_ws r with
  | EmptyString => Some v
  | String _ _ => None
  end.

End Json.
End Json.

(* ================================================================== *)
(** * The output writer and the entry point *)
(* ================================================================== *)

Section Output.
Context `{bs4 : BS4} `{pyfloat : PyFloat}.
Variable requests_get : string -> result response.

(** The file system as the program sees it: what
    [with open(fname, "w", encoding="utf-8") as f: json.dump(data, f, ...)]
    does for a file name and the JSON text of [data]; it returns, or it
    raises (an [OSError] when the file cannot be opened). *)
Variable write_file : string -> string -> result unit.

(** [dataclasses.asdict]: the fields, in declaration order. *)
Definition asdict (r : Review) : Json.value :=
  Json.JObj
    [("title", Json.JStr (title r));
     ("date", Json.JStr (date r));
     ("rating", Json.JFloat (rating r));
     ("reviewer_name", Json.JStr (reviewer_name r));
     ("review_text", Json.JStr (review_text r));
     ("source", Json.JStr (source r));
     ("company", Json.JStr (company r))].

(** The name of the output file. *)
Definition fname (company source : string) : string :=
  PyStr.replace " " "_" (PyStr.lower company) +:+ "_" +:+ source
    +:+ "_reviews.json".

(** [write_json]: what it returns or raises, and its trace.  When the
    file system raises, the file has not been written (it may be
    missing, empty or cut short), there is no event [WriteFile], and
    the line is not printed. *)
Definition write_json (company source : string) (reviews : list Review)
  : result unit * trace :=
  let data := List.map asdict reviews in
  let text := Json.dumps (Json.JArr data) in
  match write_file (fname company source) text with
  | Raise e => (Raise e, [])
  | Ok _ =>
      (Ok tt,
       [WriteFile (fname company source) text;
        Print ("Saved " +:+ pretty (Z.of_nat (length reviews))
                 +:+ " reviews to " +:+ fname company source)])
  end.

(** [main], from the point where [parse_cli_args] has returned the
    company, the two dates and the lower-cased source. *)
Definition main (fuel : nat) (company : string)
    (start_d end_d : Datetime.date) (source : string)
  : option (result unit) * trace :=
  let '(r, io) :=
    if String.eqb source "g2" then
      scrape_g2 requests_get fuel company start_d end_d
    else if String.eqb source "capterra" then
      scrape_capterra requests_get fuel company start_d end_d
    else scrape_saas_example requests_get fuel company start_d end_d in
  match r with
  | None => (None, io)
  | Some (Raise e) => (Some (Raise e), io)
  | Some (Ok reviews) =>
      let '(w, io') := write_json company source reviews in
      (Some w, io ++ io')
  end.

(** A decoded JSON value has exactly the keys of a record, in the
    order of the fields, with values equal ([==]) to the fields of the
    record [r]. *)
Definition same_fields (v : Json.value) (r : Review) : bool :=
  match v with
  | Json.JObj [(k1, Json.JStr v1); (k2, Json.JStr v2); (k3, Json.JFloat v3);
               (k4, Json.JStr v4); (k5, Json.JStr v5); (k6, Json.JStr v6);
               (k7, Json.JStr v7)] =>
      String.eqb k1 "title" && String.eqb v1 (title r)
      && String.eqb k2 "date" && String.eqb v2 (date r)
      && String.eqb k3 "rating" && float_eqb v3 (rating r)
      && String.eqb k4 "reviewer_name" && String.eqb v4 (reviewer_name r)
      && String.eqb k5 "review_text" && String.eqb v5 (review_text r)
      && String.eqb k6 "source" && String.eqb v6 (source r)
      && String.eqb k7 "company" && String.eqb v7 (company r)
  | _ => false
  end.

End Output.

(* ================================================================== *)
(** * The command line *)
(* ================================================================== *)

(** [datetime.fromisoformat(s).date()]: [None] is the [ValueError] it
    raises.  Which texts it accepts besides [YYYY-MM-DD] depends on the
    version of Python, so it is taken as an interface. *)
Class IsoDate : Type := {
  fromisoformat : string -> option Datetime.date;
}.

(** What [parse_cli_args] gives: the four arguments, or the code it
    exits with. *)
Inductive parsed : Type :=
| Args (company : string) (start_date end_date : Datetime.date)
       (source : string)
| Exit (code : Z).

(** How the process ends: [main] returns, [sys.exit(code)] is called, or
    an exception reaches the top level. *)
Inductive outcome : Type :=
| Returned
| SystemExit (code : Z)
| Uncaught (e : exn).

Section Cli.
Context `{bs4 : BS4} `{pyfloat : PyFloat} `{isodate : IsoDate}.
Variable requests_get : string -> result response.
Variable write_file : string -> string -> result unit.

Definition usage : string :=
  "Usage: python review_scraper.py <company_name> <start_date> <end_date> <source>"
    +:+ String "010"
          ("Example: python review_scraper.py "
             +:+ String Json.dquote ("Pulse" +:+ String Json.dquote
                   " 2024-01-01 2024-12-31 g2")).

(** The sources the command line accepts. *)
Definition sources : list string := ["g2"; "capterra"; "saas"].

(** [parse_cli_args], with [sys.argv] as an argument: the parsed
    arguments or the exit code, and what was printed. *)
Definition parse_cli_args (argv : list string) : parsed * trace :=
  match argv with
  | [_; company; arg2; arg3; arg4] =>
      match fromisoformat arg2 with
      | None => (Exit 1, [Print "Dates must be in YYYY-MM-DD format."])
      | Some start_date =>
          match fromisoformat arg3 with
          | None => (Exit 1, [Print "Dates must be in YYYY-MM-DD format."])
          | Some end_date =>
              let source := PyStr.lower arg4 in
              if negb (existsb (String.eqb source) sources) then
                (Exit 1, [Print "source must be one of: g2, capterra, saas"])
              else (Args company start_date end_date source, [])
          end
      end
  | _ => (Exit 1, [Print usage])
  end.

(** The program: the source's [main()] as the script runs it, of which
    [main] above is the part behind [parse_cli_args]. *)
Definition program (fuel : nat) (argv : list string)
  : option outcome * trace :=
  match parse_cli_args argv with
  | (Exit code, io) => (Some (SystemExit code), io)
  | (Args company start_d end_d source, io) =>
      let '(r, io') :=
        main requests_get write_file fuel company start_d end_d source in
      (match r with
       | None => None
       | Some (Ok _) => Some Returned
       | Some (Raise e) => Some (Uncaught e)
       end, io ++ io')
  end.

End Cli.

(* ================================================================== *)
(** * A small executable instance of the library interfaces *)
(* ================================================================== *)

(** Used to run the model on concrete pages: a parser for a well-nested
    fragment of HTML with single-quoted attribute values, which rejects
    marked sections, the selectors the extractors use (a tag name,
    classes, or both), and ratings with one decimal place. *)

Module MiniSoup.

#[warnings="-register-all"] Inductive node : Type :=
| Text (s : string)
| Elem (name : string) (attrs : list (string * string)) (children : list node).

Definition is_name_char (c : ascii) : bool :=
  negb (PyStr.isspace c || Ascii.eqb c ">" || Ascii.eqb c "=" || Ascii.eqb c "/"
        || Ascii.eqb c "<").

Definition drop1 (s : string) : string :=
  match s with String _ s' => s' | EmptyString => EmptyString end.

(** Attributes [name='value'] up to the closing [>]. *)
Fixpoint parse_attrs (fuel : nat) (s : string)
  : list (string * string) * string :=
  match fuel with
  | O => ([], s)
  | S fuel' =>
      let s := PyStr.lstrip s in
      match s with
      | String ">" s' => ([], s')
      | EmptyString => ([], EmptyString)
      | _ =>
          let '(key, s1) := PyStr.span is_name_char s in
          match s1 with
          | String "=" (String "'" s2) =>
              let '(val, s3) := PyStr.span (fun c => negb (Ascii.eqb c "'")) s2 in
              let '(rest, s4) := parse_attrs fuel' (drop1 s3) in
              ((key, val) :: rest, s4)
          | _ =>
              let '(rest, s4) := parse_attrs fuel' (drop1 s1) in
              (rest, s4)
          end
      end
  end.

Definition is_void (name : string) : bool :=
  String.eqb name "meta" || String.eqb name "br" || String.eqb name "img".

(** Nodes up to the next closing tag or the end of the text. *)
Fixpoint parse_nodes (fuel : nat) (s : string) : list node * string :=
  match fuel with
  | O => ([], s)
  | S fuel' =>
      match s with
      | EmptyString => ([], EmptyString)
      | String "<" (String "/" s') =>
          ([], drop1 (snd (PyStr.span (fun c => negb (Ascii.eqb c ">")) s')))
      | String "<" s' =>
          let '(name, s1) := PyStr.span is_name_char s' in
          let '(attrs, s2) := parse_attrs fuel' s1 in
          if is_void name then
            let '(siblings, s3) := parse_nodes fuel' s2 in
            (Elem name attrs [] :: siblings, s3)
          else
            let '(children, s3) := parse_nodes fuel' s2 in
            let '(siblings, s4) := parse_nodes fuel' s3 in
            (Elem name attrs children :: siblings, s4)
      | _ =>
          let '(txt, s1) := PyStr.span (fun c => negb (Ascii.eqb c "<")) s in
          let '(siblings, s2) := parse_nodes fuel' s1 in
          (Text txt :: siblings, s2)
      end
  end.

Definition parse (markup : string) : node :=
  Elem "[document]" [] (fst (parse_nodes (String.length markup) markup)).

(** The text contains [<![], the start of a marked section, which the
    small parser rejects. *)
Fixpoint has_marked_section (s : string) : bool :=
  match s with
  | EmptyString => false
  | String _ s' => String.prefix "<![" s || has_marked_section s'
  end.

Definition soup (markup : string) : result node :=
  if has_marked_section markup
  then Raise (ParserRejectedMarkup "marked section")
  else Ok (parse markup).

(** The elements below a node, in document order. *)
Fixpoint descendants (n : node) : list node :=
  match n with
  | Text _ => []
  | Elem _ _ children => flat_map (fun c => c :: descendants c) children
  end.

Fixpoint strings (n : node) : list string :=
  match n with
  | Text s => [s]
  | Elem _ _ children => flat_map strings children
  end.

Fixpoint assoc (key : string) (l : list (string * string)) : option string :=
  match l with
  | [] => None
  | (k, v) :: l' => if String.eqb k key then Some v else assoc key l'
  end.

(** [s.split(sep)] for a one-character separator. *)
Fixpoint split (sep : ascii) (s : string) : list string :=
  match s with
  | EmptyString => [EmptyString]
  | String c s' =>
      if Ascii.eqb c sep then EmptyString :: split sep s'
      else match split sep s' with
           | w :: ws => String c w :: ws
           | [] => [String c EmptyString]
           end
  end.

Definition has_class (attrs : list (string * string)) (cls : string) : bool :=
  match assoc "class" attrs with
  | Some v => existsb (String.eqb cls) (String.words v)
  | None => false
  end.

(** A compound selector [tag.class1.class2], the tag being optional. *)
Definition matches (selector : string) (n : node) : bool :=
  match n, split "." selector with
  | Elem name attrs _, tag :: classes =>
      (String.eqb tag "" || String.eqb tag name)
      && forallb (has_class attrs) classes
  | _, _ => false
  end.

Definition matches_find (name : string) (filter : option (string * string))
    (n : node) : bool :=
  match n with
  | Elem name' attrs _ =>
      String.eqb name name'
      && match filter with
         | Some (k, v) =>
             match assoc k attrs with
             | Some v' => String.eqb v v'
             | None => false
             end
         | None => true
         end
  | Text _ => false
  end.

Fixpoint join (sep : string) (chunks : list string) : string :=
  match chunks with
  | [] => EmptyString
  | [x] => x
  | x :: rest => x +:+ sep +:+ join sep rest
  end.

Definition nonempty (s : string) : bool :=
  match s with EmptyString => false | String _ _ => true end.

#[export] Instance mini_bs4 : BS4 := {|
  Tag := node;
  BeautifulSoup := soup;
  select n selector := List.filter (matches selector) (descendants n);
  select_one n selector := head (List.filter (matches selector) (descendants n));
  find n name filter := head (List.filter (matches_find name filter) (descendants n));
  get_text sep n := join sep (List.filter nonempty (List.map PyStr.strip (strings n)));
  tag_get n key :=
    match n with Elem _ attrs _ => assoc key attrs | Text _ => None end;
|}.

End MiniSoup.

(** Ratings with one decimal place, counted in tenths. *)
Module Tenths.

Definition of_str (s : string) : option N :=
  match MiniSoup.split "." (PyStr.strip s) with
  | [units] => u ← PyStr.int units; Some (Z.to_N (10 * u))
  | [units; String c EmptyString] =>
      u ← PyStr.int units; t ← PyStr.digit_val c; Some (Z.to_N (10 * u + t))
  | _ => None
  end.

Definition repr (x : N) : string :=
  pretty (x / 10)%N +:+ "." +:+ pretty (x mod 10)%N.

#[export] Instance tenths_float : PyFloat := {|
  float := N;
  float_zero := 0%N;
  float_of_str := of_str;
  float_repr := repr;
  float_eqb := N.eqb;
|}.

End Tenths.

(** The same ratings and the float that is not a number: [float("nan")],
    which [json] writes as [NaN] and which is not equal to itself. *)
Module TenthsNaN.

Inductive num : Type :=
| Finite (tenths : N)
| NaN.

Definition of_str (s : string) : option num :=
  if String.eqb (PyStr.lower (PyStr.strip s)) "nan" then Some NaN
  else Finite <$> Tenths.of_str s.

Definition repr (x : num) : string :=
  match x with
  | Finite t => Tenths.repr t
  | NaN => "NaN"
  end.

Definition eqb (x y : num) : bool :=
  match x, y with
  | Finite a, Finite b => N.eqb a b
  | _, _ => false
  end.

Definition nan_float : PyFloat := {|
  float := num;
  float_zero := Finite 0;
  float_of_str := of_str;
  float_repr := repr;
  float_eqb := eqb;
|}.

End TenthsNaN.


(* ================================================================== *)
(** * Pages for the examples *)
(* ================================================================== *)

Module Demo.
Import MiniSoup Tenths.

Definition g2_page1 : string :=
  "<html><body>" +:+
  "<div class='paper paper--white paper--box'>" +:+
    "<h3> Great tool </h3><time>January 5, 2024</time>" +:+
    "<meta itemprop='ratingValue' content='4.5'>" +:+
    "<a class='link--header-color'>Ada</a>" +:+
    "<div itemprop='reviewBody'><p>Works</p> <p>well</p></div>" +:+
  "</div>" +:+
  "<div class='paper paper--white paper--box'>" +:+
    "<h3>Old</h3><time>March 3, 2023</time>" +:+
    "<meta itemprop='ratingValue' content='n/a'>" +:+
    "<a class='link--header-color'>Bob</a>" +:+
    "<div itemprop='reviewBody'>Meh</div>" +:+
  "</div>" +:+
  "</body></html>".

Definition capterra_page1 : string :=
  "<html><body>" +:+
  "<section class='review-card'>" +:+
    "<h3 class='review-card__title'>Solid</h3>" +:+
    "<span class='review-card__date'>2024-02-10</span>" +:+
    "<span class='review-card__reviewer-name'>Cy</span>" +:+
    "<p class='review-card__review-text'>Does the job</p>" +:+
  "</section>" +:+
  "</body></html>".

Definition saas_page_good : string :=
  "<div class='review-card'>" +:+
    "<h4 class='review-title'>Fine</h4>" +:+
    "<span class='review-date'>Feb 1, 2024</span>" +:+
    "<span class='review-rating' data-score='3.5'></span>" +:+
    "<span class='reviewer-name'>Di</span>" +:+
    "<p class='review-body'>It is fine</p>" +:+
  "</div>".

(** A card without its title element. *)
Definition saas_page_bad : string :=
  "<div class='review-card'>" +:+
    "<span class='review-date'>Feb 1, 2024</span>" +:+
    "<span class='review-rating' data-score='3.5'></span>" +:+
    "<span class='reviewer-name'>Di</span>" +:+
    "<p class='review-body'>It is fine</p>" +:+
  "</div>".

(** A small web: one page of reviews on each site, and for the company
    "Acme" a SaaS page whose card lacks its title; every other URL is
    answered by [other]. *)
Definition web_with (other : response) (url : string) : result response :=
  if String.eqb url "https://www.g2.com/products/pulse/reviews?page=1"
  then Ok (Response 200 g2_page1)
  else if String.eqb url "https://www.capterra.com/p/12345/Pulse/reviews/"
  then Ok (Response 200 capterra_page1)
  else if String.eqb url "https://example-saas-reviews.com/pulse/reviews?page=1"
  then Ok (Response 200 saas_page_good)
  else if String.eqb url "https://example-saas-reviews.com/acme/reviews?page=1"
  then Ok (Response 200 saas_page_bad)
  else Ok other.

(** Behind the listing the sites answer 404. *)
Definition web : string -> result response :=
  web_with {| status_code := 404; text := "Not Found" |}.

(** Behind the listing the sites answer with a page without cards. *)
Definition web_empty : string -> result response :=
  web_with {| status_code := 200;
              text := "<html><body>No more reviews</body></html>" |}.

(** A network on which every request times out. *)
Definition web_down (url : string) : result response :=
  Raise (RequestException "Read timed out. (read timeout=20)").

(** A file system that takes every file, and one without
    subdirectories, where a name with a slash cannot be opened. *)
Definition disk (name text : string) : result unit := Ok tt.

Definition flat_disk (name text : string) : result unit :=
  if PyStr.contains "/" name
  then Raise (OSError ("[Errno 2] No such file or directory: "
                         +:+ PyStr.repr name))
  else Ok tt.

Definition jan1 : Datetime.date := Datetime.Date 2024 1 1.
Definition dec31 : Datetime.date := Datetime.Date 2024 12 31.

Definition great_tool : Review :=
  {| title := "Great tool"; date := "January 5, 2024"; rating := 45%N;
     reviewer_name := "Ada"; review_text := "Works well";
     source := "g2"; company := "Pulse" |}.

Definition solid : Review :=
  {| title := "Solid"; date := "2024-02-10"; rating := 0%N;
     reviewer_name := "Cy"; review_text := "Does the job";
     source := "capterra"; company := "Pulse" |}.

Definition fine : Review :=
  {| title := "Fine"; date := "Feb 1, 2024"; rating := 35%N;
     reviewer_name := "Di"; review_text := "It is fine";
     source := "saas"; company := "Pulse" |}.

Definition not_found : response := Response 404 "Not Found".

Definition no_more : response :=
  Response 200 "<html><body>No more reviews</body></html>".

(** The cards of the example pages. *)
Definition g2_cards : list (@Tag mini_bs4) :=
  select (parse g2_page1) ".paper.paper--white.paper--box".

Definition capterra_cards : list (@Tag mini_bs4) :=
  select (parse capterra_page1) "section.review-card".

Definition saas_cards_good : list (@Tag mini_bs4) :=
  select (parse saas_page_good) ".review-card".

Definition saas_cards_bad : list (@Tag mini_bs4) :=
  select (parse saas_page_bad) ".review-card".

End Demo.

(** More for the examples: dates of the command line read in the form
    [YYYY-MM-DD] only, and a generic SaaS page whose card has a rating
    element without a score. *)
Module DemoRuns.
Import MiniSoup Tenths Demo.

Definition iso_date (s : string) : option Datetime.date :=
  match s with
  | String y1 (String y2 (String y3 (String y4 (String s1
      (String m1 (String m2 (String s2 (String d1 (String d2
         EmptyString))))))))) =>
      if Ascii.eqb s1 "-" && Ascii.eqb s2 "-" then
        y ← PyStr.digits_value 0
              (String y1 (String y2 (String y3 (String y4 EmptyString))));
        m ← PyStr.digits_value 0 (String m1 (String m2 EmptyString));
        d ← PyStr.digits_value 0 (String d1 (String d2 EmptyString));
        Datetime.make_date y m d
      else None
  | _ => None
  end.

#[export] Instance demo_isodate : IsoDate := {| fromisoformat := iso_date |}.

Definition saas_page_no_score : string :=
  "<div class='review-card'>" +:+
    "<h4 class='review-title'>Odd</h4>" +:+
    "<span class='review-date'>Feb 1, 2024</span>" +:+
    "<span class='review-rating'></span>" +:+
    "<span class='reviewer-name'>Di</span>" +:+
    "<p class='review-body'>No score</p>" +:+
  "</div>".

Definition web_nova (url : string) : result response :=
  if String.eqb url "https://example-saas-reviews.com/nova/reviews?page=1"
  then Ok (Response 200 saas_page_no_score)
  else Ok not_found.

Definition saas_cards_no_score : list (@Tag mini_bs4) :=
  select (parse saas_page_no_score) ".review-card".

(** The card of that page. *)
Definition no_score_card : @Tag mini_bs4 :=
  Elem "div" [("class", "review-card")]
    [Elem "h4" [("class", "review-title")] [Text "Odd"];
     Elem "span" [("class", "review-date")] [Text "Feb 1, 2024"];
     Elem "span" [("class", "review-rating")] [];
     Elem "span" [("class", "reviewer-name")] [Text "Di"];
     Elem "p" [("class", "review-body")] [Text "No score"]].

(** The card of the generic SaaS page of "Pulse". *)
Definition fine_card : @Tag mini_bs4 :=
  Elem "div" [("class", "review-card")]
    [Elem "h4" [("class", "review-title")] [Text "Fine"];
     Elem "span" [("class", "review-date")] [Text "Feb 1, 2024"];
     Elem "span" [("class", "review-rating"); ("data-score", "3.5")] [];
     Elem "span" [("class", "reviewer-name")] [Text "Di"];
     Elem "p" [("class", "review-body")] [Text "It is fine"]].

(** A generic SaaS card whose score is not a number and holds a
    quote. *)
Definition odd_score_card : @Tag mini_bs4 :=
  Elem "div" [("class", "review-card")]
    [Elem "h4" [("class", "review-title")] [Text "Odd"];
     Elem "span" [("class", "review-date")] [Text "Feb 1, 2024"];
     Elem "span" [("class", "review-rating"); ("data-score", "4'5")] [];
     Elem "span" [("class", "reviewer-name")] [Text "Di"];
     Elem "p" [("class", "review-body")] [Text "Odd score"]].

(** A site whose pages hold a marked section, which the parser
    rejects. *)
Definition broken_page : response := Response 200 "<html><![zz]></html>".

Definition web_broken (url : string) : result response := Ok broken_page.

(** A G2 card without a [time] element. *)
Definition undated_card : @Tag mini_bs4 :=
  Elem "div" [("class", "paper paper--white paper--box")]
    [Elem "h3" [] [Text "Undated"];
     Elem "meta" [("itemprop", "ratingValue"); ("content", "4.0")] [];
     Elem "a" [("class", "link--header-color")] [Text "Eve"];
     Elem "div" [("itemprop", "reviewBody")] [Text "No date"]].

End DemoRuns.

(** A review whose rating is not a number, as [float("nan")] gives
    it. *)
Module DemoNaN.
#[local] Existing Instance TenthsNaN.nan_float.

Definition odd : Review :=
  {| title := "Odd"; date := "Feb 1, 2024"; rating := TenthsNaN.NaN;
     reviewer_name := "Di"; review_text := "Odd score";
     source := "saas"; company := "Nova" |}.

End DemoNaN.

(* ================================================================== *)
(** * Notions used to state and prove the properties *)
(* ================================================================== *)

Module StrptimeSpec.
Import PyStr Datetime Strptime.

(** The matched text and the remainder when [w] is a prefix of [s]
    up to case. *)
Fixpoint ci_strip (w s : string) : option (string * string) :=
  match w with
  | EmptyString => Some (EmptyString, s)
  | String a w' =>
      match s with
      | String c s' =>
          if Ascii.eqb (lower_char c) (lower_char a) then
            match ci_strip w' s' with
            | Some (t, r) => Some (String c t, r)
            | None => None
            end
          else None
      | EmptyString => None
      end
  end.

(** Two words that can both start the same text, up to case. *)
Fixpoint compat (w1 w2 : string) : bool :=
  match w1, w2 with
  | String a w1', String b w2' =>
      Ascii.eqb (lower_char a) (lower_char b) && compat w1' w2'
  | _, _ => true
  end.

Fixpoint pairwise_incompat (l : list string) : bool :=
  match l with
  | [] => true
  | w :: l' => forallb (fun w' => negb (compat w w')) l' && pairwise_incompat l'
  end.

(** What [strptime] does with the matches of the pattern. *)
Definition finish (matches : list (found_dict * string)) : option date :=
  match matches with
  | [] => None
  | (found, rest) :: _ =>
      match rest with
      | EmptyString =>
          '(y, m, d) ← convert_all (1900, 1, 1) found;
          make_date y m d
      | String _ _ => None
      end
  end.

(** The part of the two month-name formats behind the month. *)
Definition tail_pattern : matcher found_dict := pattern " %d, %Y".

End StrptimeSpec.

Section ScraperSpec.
Context `{bs4 : BS4} `{pyfloat : PyFloat}.
Variable requests_get : string -> result response.

(** What one iteration of a pagination loop learns from a page: an
    exception, the end of the listing ([None]) or a non-empty list of
    cards. *)
Definition fetch_cards (url selector : string) : result (option (list Tag)) :=
  match requests_get url with
  | Raise e => Raise e
  | Ok resp =>
      if negb (status_code resp =? 200) then Ok None
      else match BeautifulSoup (text resp) with
           | Raise e => Raise e
           | Ok soup =>
               match select soup selector with
               | [] => Ok None
               | cards => Ok (Some cards)
               end
           end
  end.

(** The loop the three extractors share. *)
Fixpoint paginate (url_of banner : Z -> string) (selector : string)
    (body : list Review -> list Tag -> result (list Review))
    (fuel : nat) (page : Z) (all_reviews : list Review)
  : option (result (list Review)) * trace :=
  match fuel with
  | O => running
  | S fuel' =>
      let io := [Print (banner page); Get (url_of page) 20] in
      match fetch_cards (url_of page) selector with
      | Raise e => (Some (Raise e), io)
      | Ok None => (Some (Ok all_reviews), io)
      | Ok (Some cards) =>
          match body all_reviews cards with
          | Raise e => (Some (Raise e), io)
          | Ok all_reviews' =>
              let '(r, io') :=
                paginate url_of banner selector body fuel' (page + 1)
                         all_reviews' in
              (r, io ++ Sleep 1 :: io')
          end
      end
  end.

(** The bodies of the loop run over the card lists of consecutive
    pages. *)
Fixpoint run_pages (body : list Review -> list Tag -> result (list Review))
    (acc : list Review) (pages : list (list Tag)) : result (list Review) :=
  match pages with
  | [] => Ok acc
  | cards :: pages' => acc' <-! body acc cards; run_pages body acc' pages'
  end.

(** Pages [page], [page + 1], ... answer with status 200 and show the
    non-empty card lists [pages]. *)
Definition shows (url_of : Z -> string) (selector : string) (page : Z)
    (pages : list (list Tag)) : Prop :=
  forall (i : nat) cards, pages !! i = Some cards ->
    fetch_cards (url_of (page + Z.of_nat i)) selector = Ok (Some cards).

(** The page answers with status 200 and markup that the parser
    accepts, and shows the cards [cards], at least one. *)
Definition page_cards (url selector : string) (cards : list Tag) : Prop :=
  exists resp soup, requests_get url = Ok resp /\ status_code resp = 200
    /\ BeautifulSoup (text resp) = Ok soup
    /\ select soup selector = cards /\ cards <> [].

(** The page answers with a status other than 200. *)
Definition page_not_ok (url : string) : Prop :=
  exists resp, requests_get url = Ok resp /\ status_code resp <> 200.

(** The page answers with status 200 and markup that the parser
    accepts, and shows no card. *)
Definition page_no_cards (url selector : string) : Prop :=
  exists resp soup, requests_get url = Ok resp /\ status_code resp = 200
    /\ BeautifulSoup (text resp) = Ok soup /\ select soup selector = [].

(** The request for the page is answered, with whatever status, and
    with markup that the parser accepts when the status is 200. *)
Definition page_answers (url : string) : Prop :=
  exists resp, requests_get url = Ok resp
    /\ (status_code resp = 200 ->
        exists soup, BeautifulSoup (text resp) = Ok soup).

(** The page ends the listing: it answers with a status other than 200
    or with no card. *)
Definition listing_ends (url selector : string) : Prop :=
  page_not_ok url \/ page_no_cards url selector.

(** Every card of the list has what the generic SaaS loop reads. *)
Definition saas_readable (company : string) (start_d end_d : Datetime.date)
    (cards : list Tag) : Prop :=
  forall acc, exists acc', saas_cards company start_d end_d acc cards = Ok acc'.
(** Pages 1, 2, ..., [length pages] of a site show the card lists
    [pages]. *)
Definition listing (url_of : Z -> string) (selector : string)
    (pages : list (list Tag)) : Prop :=
  forall (i : nat) cards, pages !! i = Some cards ->
    page_cards (url_of (1 + Z.of_nat i)) selector cards.

(** The fields the G2 loop reads from a card. *)
Definition g2_title (card : Tag) : string :=
  match select_one card "h3" with
  | Some el => get_text "" el | None => "" end.

Definition g2_date (card : Tag) : string :=
  match find card "time" None with
  | Some el => get_text "" el | None => "" end.

Definition g2_rating (card : Tag) : float :=
  match find card "meta" (Some ("itemprop", "ratingValue")) with
  | Some el =>
      match tag_get el "content" with
      | Some content =>
          if String.eqb content "" then float_zero
          else match float_of_str content with
               | Some x => x
               | None => float_zero
               end
      | None => float_zero
      end
  | None => float_zero
  end.

Definition g2_reviewer (card : Tag) : string :=
  match select_one card "a.link--header-color" with
  | Some el => get_text "" el | None => "" end.

Definition g2_body (card : Tag) : string :=
  match find card "div" (Some ("itemprop", "reviewBody")) with
  | Some el => get_text " " el | None => "" end.

(** The record the G2 loop builds from a card. *)
Definition g2_review (company : string) (card : Tag) : Review :=
  {| title := g2_title card; date := g2_date card; rating := g2_rating card;
     reviewer_name := g2_reviewer card; review_text := g2_body card;
     source := "g2"; company := company |}.

(** The fields the Capterra loop reads from a card. *)
Definition capterra_title (card : Tag) : string :=
  match select_one card "h3.review-card__title" with
  | Some el => get_text "" el | None => "" end.

Definition capterra_date (card : Tag) : string :=
  match select_one card "span.review-card__date" with
  | Some el => get_text "" el | None => "" end.

Definition capterra_rating (card : Tag) : float :=
  match select_one card "span.star-rating__rating" with
  | Some el =>
      match float_of_str (get_text "" el) with
      | Some x => x
      | None => float_zero
      end
  | None => float_zero
  end.

Definition capterra_reviewer (card : Tag) : string :=
  match select_one card "span.review-card__reviewer-name" with
  | Some el => get_text "" el | None => "" end.

Definition capterra_body (card : Tag) : string :=
  match select_one card "p.review-card__review-text" with
  | Some el => get_text " " el | None => "" end.

(** The record the Capterra loop builds from a card. *)
Definition capterra_review (company : string) (card : Tag) : Review :=
  {| title := capterra_title card; date := capterra_date card;
     rating := capterra_rating card;
     reviewer_name := capterra_reviewer card;
     review_text := capterra_body card;
     source := "capterra"; company := company |}.

(** The date filter on a record. *)
Definition passes (start_d end_d : Datetime.date) (r : Review) : bool :=
  in_range (date r) start_d end_d.



(** A SaaS card lacks one of the five elements the loop reads. *)
Definition saas_missing (card : Tag) : Prop :=
  select_one card ".review-title" = None
  \/ select_one card ".review-date" = None
  \/ select_one card ".review-rating" = None
  \/ select_one card ".reviewer-name" = None
  \/ select_one card ".review-body" = None.

(** The events that write a file. *)
Definition is_write (ev : event) : bool :=
  match ev with WriteFile _ _ => true | _ => false end.

(** The decoder reads back the float the encoder wrote when a comma
    follows it, as it does behind every member of an object but the
    last. *)
Definition float_round_trips (x : float) : Prop :=
  forall fuel rest,
    Json.scan_once (S fuel) (float_repr x +:+ String "," rest)
    = Some (Json.JFloat x, String "," rest).

(** All the characters are decimal digits. *)
Fixpoint all_digits (s : string) : bool :=
  match s with
  | EmptyString => true
  | String c s' => PyStr.isdigit c && all_digits s'
  end.

(** The parts of the text of a finite float: the sign, the digits
    before the point, the digits behind it (none: no point) and the
    sign and digits of the exponent (no digits: no exponent). *)
Record decimal : Type := {
  negative : bool;
  integer : string;
  fraction : string;
  exp_sign : string;
  exp_digits : string;
}.

(** The parts make a number with a fraction or an exponent, as [repr]
    writes a finite float: [0] or digits that do not start with [0],
    then a point with digits behind it or an exponent or both. *)
Definition well_formed (d : decimal) : bool :=
  match integer d with
  | EmptyString => false
  | String c ds =>
      PyStr.isdigit c && all_digits ds
      && (negb (Ascii.eqb c "0") || String.eqb ds "")
  end
  && all_digits (fraction d) && all_digits (exp_digits d)
  && (if String.eqb (exp_digits d) ""
      then String.eqb (exp_sign d) "" && negb (String.eqb (fraction d) "")
      else String.eqb (exp_sign d) "" || String.eqb (exp_sign d) "+"
           || String.eqb (exp_sign d) "-").

Definition decimal_text (d : decimal) : string :=
  (if negative d then "-" else "") +:+ integer d
    +:+ (if String.eqb (fraction d) "" then "" else "." +:+ fraction d)
    +:+ (if String.eqb (exp_digits d) "" then ""
         else "e" +:+ exp_sign d +:+ exp_digits d).

(** The parts of [NUMBER_RE] in [scan_number]: the sign, the digits
    before the point, the fraction and the exponent, each with the text
    behind it. *)
Definition read_sign (s : string) : string * string :=
  match s with
  | String "-" r => ("-", r)
  | _ => (EmptyString, s)
  end.

Definition read_integer (c : ascii) (r s1 : string) : string * string :=
  if Ascii.eqb c "0" then ("0", r) else PyStr.span PyStr.isdigit s1.

Definition read_fraction (s2 : string) : string * string :=
  match s2 with
  | String "." (String d r') =>
      if PyStr.isdigit d then
        let '(ds, r'') := PyStr.span PyStr.isdigit (String d r') in
        (String "." ds, r'')
      else (EmptyString, s2)
  | _ => (EmptyString, s2)
  end.

Definition read_exponent (s3 : string) : string * string :=
  match s3 with
  | String e r' =>
      if Ascii.eqb e "e" || Ascii.eqb e "E" then
        let '(esign, r'') :=
          match r' with
          | String "+" q => ("+", q)
          | String "-" q => ("-", q)
          | _ => (EmptyString, r')
          end in
        match PyStr.span PyStr.isdigit r'' with
        | (EmptyString, _) => (EmptyString, s3)
        | (ds, q) => (String e (esign +:+ ds), q)
        end
      else (EmptyString, s3)
  | EmptyString => (EmptyString, s3)
  end.

(** What the round trip needs of a float: it equals itself, and the
    text [json] writes for it is that of a finite float, or is
    [Infinity] or [-Infinity], and [float] of that text (of [inf],
    [-inf]) is the float again. *)
Definition reads_back (x : float) : Prop :=
  float_eqb x x = true
  /\ ((exists d, well_formed d = true /\ float_repr x = decimal_text d
         /\ float_of_str (decimal_text d) = Some x)
      \/ (float_repr x = "Infinity" /\ float_of_str "inf" = Some x)
      \/ (float_repr x = "-Infinity" /\ float_of_str "-inf" = Some x)).

(** No digit follows: the text is empty or starts with another
    character. *)
Definition no_digit_ahead (t : string) : Prop :=
  match t with String c _ => PyStr.isdigit c = false | EmptyString => True end.

(** The text of one review, as an element of the array. *)
Definition review_text_json (r : Review) : string := Json.encode 1 (asdict r).

End ScraperSpec.

(* ================================================================== *)
(** * Further notions: date texts, traces, names *)
(* ================================================================== *)

Module FilterSpec.
Import PyStr Datetime Strptime.

(** The date the filter reads from a text: the result of the first
    format that parses it. *)
Fixpoint first_parse (fmts : list string) (date_str : string) : option date :=
  match fmts with
  | [] => None
  | fmt :: fmts' =>
      match strptime (strip date_str) fmt with
      | Some d => Some d
      | None => first_parse fmts' date_str
      end
  end.

(** A text of white space only. *)
Fixpoint blank (s : string) : bool :=
  match s with
  | EmptyString => true
  | String c s' => isspace c && blank s'
  end.

(** Lower-casing a match: the value through [g], the remainder through
    [lower]. *)
Definition lower_match {A} (g : A -> A) (p : A * string) : A * string :=
  (g (fst p), lower (snd p)).

(** Lower-casing the texts of the groups of a match. *)
Definition lower_found (found : found_dict) : found_dict :=
  List.map (fun kt => (fst kt, lower (snd kt))) found.

(** A matcher that reads a text and its lower-cased form alike. *)
Definition ci {A} (g : A -> A) (m : matcher A) : Prop :=
  forall s, m (lower s) = List.map (lower_match g) (m s).

(** The ASCII digit of a number below ten. *)
Definition digit (k : Z) : ascii := ascii_of_N (Z.to_N (48 + k)).

(** A number below 100 in two digits, below 10000 in four. *)
Definition pad2 (n : Z) : string :=
  String (digit (n / 10)) (String (digit (n mod 10)) EmptyString).

Definition pad4 (n : Z) : string :=
  String (digit (n / 1000))
    (String (digit (n / 100 mod 10))
       (String (digit (n / 10 mod 10))
          (String (digit (n mod 10)) EmptyString))).

(** The text [YYYY-MM-DD], as [date.isoformat] writes a date. *)
Definition isoformat (y m d : Z) : string :=
  pad4 y +:+ "-" +:+ pad2 m +:+ "-" +:+ pad2 d.

(** The part of an ISO text behind the year. *)
Definition iso_tail (m d : Z) : string := "-" +:+ pad2 m +:+ "-" +:+ pad2 d.

(** The month and the day of an ISO text are matched whole, as
    two-digit groups that convert to the numbers they write. *)
Definition iso_tail_ok (md : Z * Z) : bool :=
  match pattern "-%m-%d" (iso_tail md.1 md.2) with
  | (found, EmptyString) :: _ =>
      bool_decide (found = [("m"%char, pad2 md.1); ("d"%char, pad2 md.2)])
      && bool_decide (int (pad2 md.1) = Some md.1)
      && bool_decide (int (pad2 md.2) = Some md.2)
  | _ => false
  end.

(** [calendar.month_name] and [calendar.month_abbr] of the C locale. *)
Definition month_name : list string :=
  [""; "January"; "February"; "March"; "April"; "May"; "June"; "July";
   "August"; "September"; "October"; "November"; "December"].

Definition month_abbr : list string :=
  [""; "Jan"; "Feb"; "Mar"; "Apr"; "May"; "Jun"; "Jul";
   "Aug"; "Sep"; "Oct"; "Nov"; "Dec"].

Definition name_of (names : list string) (m : Z) : string :=
  nth (Z.to_nat m) names EmptyString.

(** The text [Month D, YYYY]. *)
Definition month_text (name : string) (d y : Z) : string :=
  name +:+ " " +:+ pretty d +:+ ", " +:+ pad4 y.

(** What is left of the pattern of [ %d, %Y] once the day is matched. *)
Definition after_day (txt : string) : matcher found_dict :=
  re_bind (pattern ", %Y") (fun found => re_ret (("d"%char, txt) :: found)).

End FilterSpec.

Section RunSpec.
Context `{bs4 : BS4} `{pyfloat : PyFloat}.

(** The line a loop prints before it requests a page. *)
Definition g2_banner (slug : string) (page : Z) : string :=
  "[G2] Fetching page " +:+ pretty page +:+ ": " +:+ build_g2_url slug page.

Definition capterra_banner (path : string) (page : Z) : string :=
  "[Capterra] Fetching page " +:+ pretty page +:+ ": "
    +:+ build_capterra_url path page.

(** The URL the generic SaaS loop requests for a page. *)
Definition saas_url (co : string) (page : Z) : string :=
  saas_base_url co +:+ pretty page.

Definition saas_banner (co : string) (page : Z) : string :=
  "[SAAS] Fetching page " +:+ pretty page +:+ ": " +:+ saas_url co page.

(** What a loop does to the outside world for a page it reads cards
    from, and for the page it leaves at. *)
Definition visit (banner url_of : Z -> string) (page : Z) : trace :=
  [Print (banner page); Get (url_of page) 20; Sleep 1].

Definition last_visit (banner url_of : Z -> string) (page : Z) : trace :=
  [Print (banner page); Get (url_of page) 20].

(** The visits of the [n] pages from page [page] on. *)
Definition visits (banner url_of : Z -> string) (page : Z) (n : nat) : trace :=
  flat_map (visit banner url_of) (seqZ page (Z.of_nat n)).

(** The outcome of a loop that was given [fuel] iterations: it has
    visited pages 1..n in order, and has either used up its iterations
    or left at page n+1. *)
Definition in_page_order (banner url_of : Z -> string) (fuel : nat)
    (out : option (result (list Review)) * trace) : Prop :=
  exists n : nat,
    (fst out = None /\ n = fuel /\ snd out = visits banner url_of 1 n)
    \/ (is_Some (fst out) /\ (n < fuel)%nat
        /\ snd out = visits banner url_of 1 n
                       ++ last_visit banner url_of (1 + Z.of_nat n)).

(** A record passes the date filter and carries the given source label
    and company. *)
Definition labelled (start_d end_d : Datetime.date) (label co : string)
    (r : Review) : Prop :=
  passes start_d end_d r = true /\ source r = label /\ company r = co.

(** The record the generic SaaS loop builds from a card that has all it
    reads; [None] when something is missing. *)
Definition saas_review (co : string) (card : Tag) : option Review :=
  title_el ← select_one card ".review-title";
  date_el ← select_one card ".review-date";
  rating_el ← select_one card ".review-rating";
  score ← tag_get rating_el "data-score";
  rating ← float_of_str score;
  user_el ← select_one card ".reviewer-name";
  body_el ← select_one card ".review-body";
  Some {| title := get_text "" title_el; date := get_text "" date_el;
          rating := rating; reviewer_name := get_text "" user_el;
          review_text := get_text " " body_el;
          source := "saas"; company := co |}.

(** The rating element of a SaaS card is there, but its score is absent
    or is not a number. *)
Definition saas_score_unusable (card : Tag) : Prop :=
  exists el, select_one card ".review-rating" = Some el
    /\ (tag_get el "data-score" = None
        \/ exists score, tag_get el "data-score" = Some score
             /\ float_of_str score = None).

(** A record with its company replaced. *)
Definition with_company (co : string) (r : Review) : Review :=
  {| title := title r; date := date r; rating := rating r;
     reviewer_name := reviewer_name r; review_text := review_text r;
     source := source r; company := co |}.

(** The outcome of an extractor with the company of every record it
    returned replaced. *)
Definition relabel (co : string)
    (out : option (result (list Review)) * trace)
  : option (result (list Review)) * trace :=
  (match fst out with
   | Some (Ok reviews) => Some (Ok (List.map (with_company co) reviews))
   | r => r
   end, snd out).

(** Two outcomes of an extractor with the same trace that end alike,
    the records of the first being among those of the second, in the
    same order. *)
Definition same_run_fewer_records
    (out out' : option (result (list Review)) * trace) : Prop :=
  snd out = snd out'
  /\ match fst out, fst out' with
     | Some (Ok reviews), Some (Ok reviews') => sublist reviews reviews'
     | Some (Raise e), Some (Raise e') => e = e'
     | None, None => True
     | _, _ => False
     end.

(** The company part of the name of the output file. *)
Definition file_stem (co : string) : string :=
  PyStr.replace " " "_" (PyStr.lower co).

(** [t] ends with [s]. *)
Fixpoint ends_with (s t : string) : bool :=
  String.eqb s t
  || match t with
     | String _ t' => ends_with s t'
     | EmptyString => false
     end.

End RunSpec.

(* ================================================================== *)
(** * Properties of the date formats *)
(* ================================================================== *)

Module StrptimeFacts.
Import PyStr Datetime Strptime StrptimeSpec.

Lemma re_word_ci_strip w s :
  re_word w s = match ci_strip w s with Some p => [p] | None => [] end.
Proof.
  revert s; induction w as [|a w IH]; intros s; [reflexivity|].
  destruct s as [|c s]; [reflexivity|]. simpl.
  unfold re_seq, re_bind, re_lit, re_char. simpl.
  destruct (Ascii.eqb (lower_char c) (lower_char a)); [|reflexivity].
  simpl. rewrite IH. destruct (ci_strip w s) as [[t r]|]; reflexivity.
Qed.

Lemma ci_strip_inv w s t r :
  ci_strip w s = Some (t, r) ->
  s = t +:+ r /\ lower t = lower w /\ String.length t = String.length w.
Proof.
  revert s t r; induction w as [|a w IH]; intros s t r H; simpl in H.
  - inversion H; subst. auto.
  - destruct s as [|c s]; [discriminate|].
    destruct (Ascii.eqb (lower_char c) (lower_char a)) eqn:E; [|discriminate].
    destruct (ci_strip w s) as [[t' r']|] eqn:E'; [|discriminate].
    inversion H; subst. apply IH in E' as (-> & Hl & Hn).
    apply Ascii.eqb_eq in E. simpl. rewrite E, Hl, Hn. auto.
Qed.


Lemma ci_strip_compat w1 w2 s p1 p2 :
  ci_strip w1 s = Some p1 -> ci_strip w2 s = Some p2 -> compat w1 w2 = true.
Proof.
  revert w2 s p1 p2; induction w1 as [|a w1 IH]; intros [|b w2] s p1 p2 H1 H2;
    try reflexivity.
  simpl in *. destruct s as [|c s]; [discriminate|].
  destruct (Ascii.eqb (lower_char c) (lower_char a)) eqn:Ea; [|discriminate].
  destruct (Ascii.eqb (lower_char c) (lower_char b)) eqn:Eb; [|discriminate].
  apply Ascii.eqb_eq in Ea, Eb. rewrite <- Ea, <- Eb, Ascii.eqb_refl. simpl.
  destruct (ci_strip w1 s) as [q1|] eqn:E1; [|discriminate].
  destruct (ci_strip w2 s) as [q2|] eqn:E2; [|discriminate].
  eauto.
Qed.

Lemma seqToRE_flat_map l s :
  foldr (fun w r => re_alt (re_word w) r) re_fail l s
  = flat_map (fun w => re_word w s) l.
Proof.
  induction l as [|w l IH]; [reflexivity|].
  simpl. unfold re_alt at 1. now rewrite IH.
Qed.

(** Among pairwise incompatible words at most one matches. *)
Lemma words_unique l s :
  pairwise_incompat l = true ->
  flat_map (fun w => re_word w s) l = []
  \/ exists w p, In w l /\ ci_strip w s = Some p
                 /\ flat_map (fun w => re_word w s) l = [p].
Proof.
  induction l as [|w l IH]; intros Hl; [now left|].
  simpl in Hl. apply andb_prop in Hl as [Hw Hl]. specialize (IH Hl).
  simpl. rewrite re_word_ci_strip.
  destruct (ci_strip w s) as [p|] eqn:E.
  - right. exists w, p. repeat split; [now left|assumption|].
    destruct IH as [->|(w' & p' & Hin & E' & _)]; [reflexivity|].
    rewrite forallb_forall in Hw. specialize (Hw _ Hin).
    now rewrite (ci_strip_compat _ _ _ _ _ E E') in Hw.
  - destruct IH as [->|(w' & p' & Hin & E' & ->)]; [now left|].
    right. exists w', p'. repeat split; [now right|assumption].
Qed.

Lemma strptime_finish s fmt : strptime s fmt = finish (pattern fmt s).
Proof. reflexivity. Qed.

Lemma tail_pattern_space r :
  tail_pattern r <> [] ->
  exists c r', r = String c r' /\ isspace c = true.
Proof.
  destruct r as [|c r']; [now intros []|].
  destruct (isspace c) eqn:E; [eauto|].
  unfold tail_pattern. simpl. unfold re_bind, re_space_plus. simpl.
  rewrite E. now intros [].
Qed.

Lemma flat_map_single {A B} (f : A -> B) (l : list A) :
  flat_map (fun x => [f x]) l = List.map f l.
Proof. induction l as [|x l IH]; [reflexivity|]. simpl. now rewrite IH. Qed.

Lemma month_format_inv (dir : ascii) (names : list string) s d :
  dir <> "%"%char ->
  directive dir = seqToRE names ->
  pairwise_incompat (sort_by_len names) = true ->
  strptime s (String "%" (String dir " %d, %Y")) = Some d ->
  exists w t r,
    In w (sort_by_len names) /\ ci_strip w s = Some (t, r)
    /\ finish (List.map (fun fr => ((dir, t) :: fst fr, snd fr)) (tail_pattern r))
       = Some d.
Proof.
  intros Hdir Hd Hinc H. rewrite strptime_finish in H.
  change (pattern (String "%" (String dir " %d, %Y")) s)
    with (re_bind (directive dir) (fun txt =>
            re_bind tail_pattern (fun found => re_ret ((dir, txt) :: found))) s)
    in H.
  rewrite Hd in H. unfold re_bind at 1 in H. unfold seqToRE in H.
  rewrite seqToRE_flat_map in H.
  destruct (words_unique _ s Hinc) as [E|(w & [t r] & Hin & Ew & E)];
    rewrite E in H; [discriminate|].
  exists w, t, r. repeat split; [assumption..|].
  simpl in H. rewrite app_nil_r in H. unfold re_bind, re_ret in H.
  now rewrite flat_map_single in H.
Qed.


Lemma isspace_lower c : isspace c = true -> lower_char c = c.
Proof.
  destruct c as [[] [] [] [] [] [] [] []]; intros H; try reflexivity;
    discriminate H.
Qed.

Lemma isdigit_lower c : isdigit c = true -> lower_char c = c.
Proof.
  destruct c as [[] [] [] [] [] [] [] []]; intros H; try reflexivity;
    discriminate H.
Qed.

Lemma ci_strip_app w w' s t r :
  ci_strip (w +:+ w') s = Some (t, r) ->
  exists t1 t2 r1,
    ci_strip w s = Some (t1, r1) /\ ci_strip w' r1 = Some (t2, r)
    /\ t = t1 +:+ t2.
Proof.
  revert s t r; induction w as [|a w IH]; intros s t r H.
  - exists EmptyString, t, s. auto.
  - simpl in H. destruct s as [|c s]; [discriminate|]. simpl.
    destruct (Ascii.eqb (lower_char c) (lower_char a)); [|discriminate].
    destruct (ci_strip (w +:+ w') s) as [[t0 r0]|] eqn:E; [|discriminate].
    inversion H; subst. apply IH in E as (t1 & t2 & r1 & -> & E2 & ->).
    exists (String c t1), t2, r1. auto.
Qed.

(** A word that continues with a letter cannot be followed by white
    space where the shorter word ends. *)
Lemma ci_strip_not_space x w c r p :
  ci_strip (String x w) (String c r) = Some p ->
  isspace c = true -> isspace (lower_char x) = true.
Proof.
  simpl. intros H Hc.
  destruct (Ascii.eqb (lower_char c) (lower_char x)) eqn:E; [|discriminate].
  apply Ascii.eqb_eq in E. rewrite <- E, (isspace_lower _ Hc). exact Hc.
Qed.

Ltac in_cases H :=
  repeat (destruct H as [<-|H]); [..|destruct H].

(** A text that both month-name formats accept names the month May,
    whose full and abbreviated names coincide. *)
Lemma full_abbr_overlap w1 w2 s t1 r1 t2 r2 :
  In w1 (sort_by_len (tl f_month)) -> In w2 (sort_by_len (tl a_month)) ->
  ci_strip w1 s = Some (t1, r1) -> ci_strip w2 s = Some (t2, r2) ->
  tail_pattern r1 <> [] -> tail_pattern r2 <> [] ->
  w1 = "may" /\ w2 = "may" /\ t1 = t2 /\ r1 = r2.
Proof.
  intros H1 H2 E1 E2 T1 T2.
  apply tail_pattern_space in T2 as (c & r' & -> & Hc).
  pose proof (ci_strip_compat _ _ _ _ _ E1 E2) as Hcompat.
  vm_compute in H1, H2. in_cases H1; in_cases H2;
    try discriminate Hcompat; clear Hcompat.
  all: first
    [ rewrite E1 in E2; now inversion E2
    | exfalso;
      match type of E2 with ci_strip ?a _ = _ =>
        match type of E1 with ci_strip ?n _ = _ =>
          let n' := eval vm_compute in (String.substring 3 (String.length n) n) in
          change n with (a +:+ n') in E1
        end
      end;
      apply ci_strip_app in E1 as (u1 & u2 & q & E1 & E3 & _);
      rewrite E2 in E1; inversion E1; subst;
      apply ci_strip_not_space in E3; [discriminate E3|exact Hc] ].
Qed.


Lemma finish_nonempty l d : finish l = Some d -> l <> [].
Proof. now destruct l. Qed.

Lemma map_nonempty {A B} (f : A -> B) l : List.map f l <> [] -> l <> [].
Proof. now destruct l. Qed.

Lemma full_format_inv s d :
  strptime s "%B %d, %Y" = Some d ->
  exists w t r,
    In w (sort_by_len (tl f_month)) /\ ci_strip w s = Some (t, r)
    /\ finish (List.map (fun fr => (("B"%char, t) :: fst fr, snd fr))
                        (tail_pattern r)) = Some d.
Proof. now apply month_format_inv. Qed.

Lemma abbr_format_inv s d :
  strptime s "%b %d, %Y" = Some d ->
  exists w t r,
    In w (sort_by_len (tl a_month)) /\ ci_strip w s = Some (t, r)
    /\ finish (List.map (fun fr => (("b"%char, t) :: fst fr, snd fr))
                        (tail_pattern r)) = Some d.
Proof. now apply month_format_inv. Qed.

(** The two month-name formats never disagree on a date. *)
Lemma month_formats_agree s d1 d2 :
  strptime s "%B %d, %Y" = Some d1 -> strptime s "%b %d, %Y" = Some d2 ->
  d1 = d2.
Proof.
  intros (w1 & t1 & r1 & H1 & E1 & F1)%full_format_inv
         (w2 & t2 & r2 & H2 & E2 & F2)%abbr_format_inv.
  pose proof (map_nonempty _ _ (finish_nonempty _ _ F1)) as T1.
  pose proof (map_nonempty _ _ (finish_nonempty _ _ F2)) as T2.
  destruct (full_abbr_overlap _ _ _ _ _ _ _ H1 H2 E1 E2 T1 T2)
    as (-> & -> & -> & ->).
  apply ci_strip_inv in E2 as (_ & Hl & _). simpl in Hl.
  destruct (tail_pattern r2) as [|[found rest] l]; [discriminate|].
  simpl in F1, F2. destruct rest; [|discriminate].
  rewrite Hl in F1, F2. simpl in F1, F2. congruence.
Qed.

Lemma iso_format_digit s d :
  strptime s "%Y-%m-%d" = Some d ->
  exists c r, s = String c r /\ isdigit c = true.
Proof.
  destruct s as [|c r]; [discriminate|].
  destruct (isdigit c) eqn:E; [eauto|]. intros H. exfalso.
  assert (re_Y (String c r) = []) as HY.
  { unfold re_Y, re_seq, re_bind, re_digit, re_char. now rewrite E. }
  rewrite strptime_finish in H.
  change (pattern "%Y-%m-%d" (String c r))
    with (re_bind re_Y (fun txt =>
            re_bind (pattern "-%m-%d") (fun found =>
              re_ret (("Y"%char, txt) :: found))) (String c r)) in H.
  unfold re_bind at 1 in H. rewrite HY in H. discriminate H.
Qed.

Lemma month_word_letter (dir : ascii) w s t r :
  In w (sort_by_len (tl f_month)) \/ In w (sort_by_len (tl a_month)) ->
  ci_strip w s = Some (t, r) ->
  exists c r', s = String c r' /\ isdigit c = false.
Proof.
  intros Hw E. destruct s as [|c r'].
  - exfalso. vm_compute in Hw. destruct Hw as [Hw|Hw]; in_cases Hw;
      discriminate E.
  - exists c, r'. split; [reflexivity|].
    destruct (isdigit c) eqn:Hc; [exfalso|reflexivity].
    pose proof (isdigit_lower _ Hc) as Hl.
    vm_compute in Hw. destruct Hw as [Hw|Hw]; in_cases Hw; simpl in E;
      rewrite Hl in E;
      match type of E with
      | (if Ascii.eqb c ?x then _ else _) = _ =>
          destruct (Ascii.eqb c x) eqn:Ex; [|discriminate E];
          apply Ascii.eqb_eq in Ex; subst c; discriminate Hc
      end.
Qed.

(** A text the ISO format accepts is accepted by neither month-name
    format. *)
Lemma iso_excludes_month_formats s d :
  strptime s "%Y-%m-%d" = Some d ->
  strptime s "%B %d, %Y" = None /\ strptime s "%b %d, %Y" = None.
Proof.
  intros (c & r & -> & Hc)%iso_format_digit. split.
  - destruct (strptime (String c r) "%B %d, %Y") eqn:E; [|reflexivity].
    apply full_format_inv in E as (w & t & r' & Hw & E & _).
    apply (month_word_letter "B") in E as (c' & r'' & [= <- <-] & Hc');
      [congruence|now left].
  - destruct (strptime (String c r) "%b %d, %Y") eqn:E; [|reflexivity].
    apply abbr_format_inv in E as (w & t & r' & Hw & E & _).
    apply (month_word_letter "b") in E as (c' & r'' & [= <- <-] & Hc');
      [congruence|now right].
Qed.

End StrptimeFacts.

(* ================================================================== *)
(** * Properties of the pagination loops *)
(* ================================================================== *)

Section Pagination.
Context `{bs4 : BS4} `{pyfloat : PyFloat}.
Variable requests_get : string -> result response.

Lemma g2_loop_paginate fuel slug company start_d end_d page acc :
  g2_loop requests_get fuel slug company start_d end_d page acc
  = paginate requests_get (build_g2_url slug)
      (fun page => "[G2] Fetching page " +:+ pretty page +:+ ": "
                     +:+ build_g2_url slug page)
      ".paper.paper--white.paper--box"
      (fun acc cards => Ok (foldl (g2_card company start_d end_d) acc cards))
      fuel page acc.
Proof.
  revert page acc; induction fuel as [|fuel IH]; intros page acc;
    [reflexivity|].
  simpl. unfold fetch_cards.
  destruct (requests_get (build_g2_url slug page)) as [resp|e]; [|reflexivity].
  destruct (negb (status_code resp =? 200)); [reflexivity|].
  destruct (BeautifulSoup (text resp)) as [soup|e]; [|reflexivity].
  destruct (select _ _) as [|card cards]; [reflexivity|].
  now rewrite IH.
Qed.

Lemma capterra_loop_paginate fuel path company start_d end_d page acc :
  capterra_loop requests_get fuel path company start_d end_d page acc
  = paginate requests_get (build_capterra_url path)
      (fun page => "[Capterra] Fetching page " +:+ pretty page +:+ ": "
                     +:+ build_capterra_url path page)
      "section.review-card"
      (fun acc cards =>
         Ok (foldl (capterra_card company start_d end_d) acc cards))
      fuel page acc.
Proof.
  revert page acc; induction fuel as [|fuel IH]; intros page acc;
    [reflexivity|].
  simpl. unfold fetch_cards.
  destruct (requests_get (build_capterra_url path page)) as [resp|e];
    [|reflexivity].
  destruct (negb (status_code resp =? 200)); [reflexivity|].
  destruct (BeautifulSoup (text resp)) as [soup|e]; [|reflexivity].
  destruct (select _ _) as [|card cards]; [reflexivity|].
  now rewrite IH.
Qed.

Lemma saas_loop_paginate fuel base_url company start_d end_d page acc :
  saas_loop requests_get fuel base_url company start_d end_d page acc
  = paginate requests_get (fun page => base_url +:+ pretty page)
      (fun page => "[SAAS] Fetching page " +:+ pretty page +:+ ": "
                     +:+ (base_url +:+ pretty page))
      ".review-card"
      (saas_cards company start_d end_d)
      fuel page acc.
Proof.
  revert page acc; induction fuel as [|fuel IH]; intros page acc;
    [reflexivity|].
  cbn [saas_loop paginate]. unfold fetch_cards.
  destruct (requests_get (base_url +:+ pretty page)) as [resp|e]; [|reflexivity].
  destruct (negb (status_code resp =? 200)); [reflexivity|].
  destruct (BeautifulSoup (text resp)) as [soup|e]; [|reflexivity].
  destruct (select _ _) as [|card cards]; [reflexivity|].
  destruct (saas_cards _ _ _ _ (card :: cards)); [|reflexivity].
  now rewrite IH.
Qed.

(** ** Properties of the shared loop *)

Section Loop.
Variables url_of banner : Z -> string.
Variable selector : string.
Variable body : list Review -> list Tag -> result (list Review).

Local Abbreviation loop := (paginate requests_get url_of banner selector body).
Local Abbreviation shows := (shows requests_get url_of selector).
Local Abbreviation run_pages := (run_pages body).
Local Abbreviation fetch_cards := (fetch_cards requests_get).

Lemma shows_cons page cards pages :
  shows page (cards :: pages) ->
  fetch_cards (url_of page) selector = Ok (Some cards)
  /\ shows (page + 1) pages.
Proof.
  intros H. split.
  - specialize (H 0%nat cards eq_refl). now rewrite Z.add_0_r in H.
  - intros i cs Hi. specialize (H (S i) cs Hi).
    now replace (page + 1 + Z.of_nat i) with (page + Z.of_nat (S i)) by lia.
Qed.

(** After as many iterations as there are card pages, the loop is
    where a fresh loop started behind them would be. *)
Lemma loop_through pages : forall fuel page acc acc',
  shows page pages -> run_pages acc pages = Ok acc' ->
  fst (loop (length pages + fuel) page acc)
  = fst (loop fuel (page + Z.of_nat (length pages)) acc').
Proof.
  induction pages as [|cards pages IH]; intros fuel page acc acc' Hs Hr.
  - simpl in *. inversion Hr; subst. now rewrite Z.add_0_r.
  - apply shows_cons in Hs as [Hc Hs]. simpl in Hr.
    destruct (body acc cards) as [acc1|e] eqn:Hb; [|discriminate].
    simpl in Hr. cbn [length Nat.add paginate]. rewrite Hc, Hb.
    specialize (IH fuel (page + 1) acc1 acc' Hs Hr).
    destruct (loop (length pages + fuel) (page + 1) acc1) as [r io'].
    simpl in *. rewrite IH. f_equal. f_equal. lia.
Qed.

(** The listing ends behind the card pages: the loop returns what the
    bodies accumulated. *)
Lemma loop_stops pages fuel page acc acc' :
  shows page pages -> run_pages acc pages = Ok acc' ->
  fetch_cards (url_of (page + Z.of_nat (length pages))) selector = Ok None ->
  (length pages < fuel)%nat ->
  fst (loop fuel page acc) = Some (Ok acc').
Proof.
  intros Hs Hr Hstop Hfuel.
  replace fuel with (length pages + S (fuel - S (length pages)))%nat by lia.
  rewrite (loop_through _ _ _ _ _ Hs Hr). simpl. now rewrite Hstop.
Qed.

(** As long as pages show cards, the loop keeps going. *)
Lemma loop_running pages fuel page acc acc' :
  shows page pages -> run_pages acc pages = Ok acc' ->
  (fuel <= length pages)%nat ->
  fst (loop fuel page acc) = None.
Proof.
  revert fuel page acc; induction pages as [|cards pages IH];
    intros fuel page acc Hs Hr Hfuel.
  - now replace fuel with 0%nat by (simpl in Hfuel; lia).
  - destruct fuel as [|fuel]; [reflexivity|].
    apply shows_cons in Hs as [Hc Hs]. simpl in Hr.
    destruct (body acc cards) as [acc1|e] eqn:Hb; [|discriminate].
    simpl in Hr. cbn [paginate]. rewrite Hc, Hb.
    specialize (IH fuel (page + 1) acc1 Hs Hr ltac:(simpl in Hfuel; lia)).
    now destruct (loop fuel (page + 1) acc1) as [r io'].
Qed.

(** An exception behind the card pages, from the request or from a
    loop body, leaves the loop. *)
Lemma loop_raises_fetch pages fuel page acc acc' e :
  shows page pages -> run_pages acc pages = Ok acc' ->
  fetch_cards (url_of (page + Z.of_nat (length pages))) selector = Raise e ->
  (length pages < fuel)%nat ->
  fst (loop fuel page acc) = Some (Raise e).
Proof.
  intros Hs Hr Hstop Hfuel.
  replace fuel with (length pages + S (fuel - S (length pages)))%nat by lia.
  rewrite (loop_through _ _ _ _ _ Hs Hr). simpl. now rewrite Hstop.
Qed.

Lemma loop_raises_body pages cards fuel page acc acc' e :
  shows page (pages ++ [cards]) -> run_pages acc pages = Ok acc' ->
  body acc' cards = Raise e ->
  (length pages < fuel)%nat ->
  fst (loop fuel page acc) = Some (Raise e).
Proof.
  intros Hs Hr Hb Hfuel.
  assert (shows page pages) as Hs'.
  { intros i cs Hi. apply Hs. now apply lookup_app_l_Some. }
  replace fuel with (length pages + S (fuel - S (length pages)))%nat by lia.
  rewrite (loop_through _ _ _ _ _ Hs' Hr). simpl.
  rewrite (Hs (length pages) cards), Hb; [reflexivity|].
  now rewrite list_lookup_middle.
Qed.

End Loop.

End Pagination.

(* ================================================================== *)
(** * Properties of the JSON text *)
(* ================================================================== *)

Lemma append_cons (x : ascii) (a b : string) :
  String x a +:+ b = String x (a +:+ b).
Proof. reflexivity. Qed.

Lemma append_nil (b : string) : EmptyString +:+ b = b.
Proof. reflexivity. Qed.

Lemma append_assoc (a b c : string) : (a +:+ b) +:+ c = a +:+ (b +:+ c).
Proof.
  induction a as [|x a IH]; [reflexivity|].
  rewrite !append_cons. now rewrite IH.
Qed.

Lemma length_append (a b : string) :
  String.length (a +:+ b) = (String.length a + String.length b)%nat.
Proof.
  induction a as [|x a IH]; [reflexivity|].
  rewrite append_cons. cbn [String.length]. now rewrite IH.
Qed.

Section JsonFacts.
Context `{bs4 : BS4} `{pyfloat : PyFloat}.
Import Json.

Lemma scanstring_escape_char c s :
  scanstring (escape_char c +:+ s)
  = match scanstring s with
    | Some (t, r) => Some (String c t, r)
    | None => None
    end.
Proof.
  destruct c as [[] [] [] [] [] [] [] []]; reflexivity.
Qed.

(** The decoder reads back any string the encoder wrote. *)
Lemma scanstring_escape s rest :
  scanstring (escape s +:+ String dquote rest) = Some (s, rest).
Proof.
  induction s as [|c s IH]; [reflexivity|].
  cbn [escape]. rewrite append_assoc, scanstring_escape_char. now rewrite IH.
Qed.

Lemma scan_basestring fuel s rest :
  scan_once (S fuel) (encode_basestring s +:+ rest) = Some (JStr s, rest).
Proof.
  unfold encode_basestring. rewrite append_cons, append_assoc, append_cons.
  rewrite append_nil. cbn [scan_once]. rewrite Ascii.eqb_refl.
  now rewrite scanstring_escape.
Qed.


Lemma skip_ws_spaces n s : skip_ws (spaces n +:+ s) = skip_ws s.
Proof. induction n as [|n IH]; [reflexivity|]. exact IH. Qed.

Lemma skip_ws_newline_indent n s : skip_ws (newline_indent n +:+ s) = skip_ws s.
Proof. unfold newline_indent. rewrite append_cons. apply skip_ws_spaces. Qed.

Lemma skip_ws_basestring k s :
  skip_ws (encode_basestring k +:+ s) = encode_basestring k +:+ s.
Proof. reflexivity. Qed.

Lemma parse_key fuel k s :
  parse_members (S fuel) (encode_basestring k +:+ ": " +:+ s)
  = match scan_once fuel (skip_ws s) with
    | Some (v, r2) =>
        match skip_ws r2 with
        | String "}" r3 => Some ([(k, v)], r3)
        | String "," r3 =>
            match parse_members fuel (skip_ws r3) with
            | Some (ms, r4) => Some ((k, v) :: ms, r4)
            | None => None
            end
        | _ => None
        end
    | None => None
    end.
Proof.
  unfold encode_basestring at 1.
  rewrite append_cons, append_assoc, append_cons, append_nil.
  cbn [parse_members]. rewrite Ascii.eqb_refl, scanstring_escape.
  cbn [mbind option_bind]. rewrite !append_cons, append_nil.
  change (skip_ws (String ":" (String " " s))) with (String ":" (String " " s)).
  cbv beta iota. change (skip_ws (String " " s)) with (skip_ws s).
  destruct (scan_once fuel (skip_ws s)) as [[v r2]|]; [|reflexivity].
  cbn [mbind option_bind]. destruct (skip_ws r2) as [|c r3]; [reflexivity|].
  destruct c as [[] [] [] [] [] [] [] []]; reflexivity.
Qed.

Lemma member_str_more fuel k v n k' rest :
  parse_members (S (S fuel))
    (encode_basestring k +:+ ": " +:+ encode_basestring v +:+ ","
       +:+ newline_indent n +:+ encode_basestring k' +:+ rest)
  = match parse_members (S fuel) (encode_basestring k' +:+ rest) with
    | Some (ms, r) => Some ((k, JStr v) :: ms, r)
    | None => None
    end.
Proof.
  rewrite parse_key, skip_ws_basestring, scan_basestring.
  rewrite append_cons, append_nil. cbn [skip_ws].
  change (is_ws ",") with false. cbv beta iota.
  now rewrite skip_ws_newline_indent, skip_ws_basestring.
Qed.


Lemma member_float_more fuel k x n k' rest :
  float_round_trips x ->
  parse_members (S (S fuel))
    (encode_basestring k +:+ ": " +:+ float_repr x +:+ ","
       +:+ newline_indent n +:+ encode_basestring k' +:+ rest)
  = match parse_members (S fuel) (encode_basestring k' +:+ rest) with
    | Some (ms, r) => Some ((k, JFloat x) :: ms, r)
    | None => None
    end.
Proof.
  intros Hx. rewrite parse_key.
  assert (skip_ws (float_repr x +:+ "," +:+ newline_indent n
                     +:+ encode_basestring k' +:+ rest)
          = float_repr x +:+ "," +:+ newline_indent n
              +:+ encode_basestring k' +:+ rest) as ->.
  { pose proof (Hx 0%nat (newline_indent n +:+ encode_basestring k' +:+ rest))
      as H.
    rewrite append_cons, append_nil.
    destruct (float_repr x +:+ String "," _) as [|c s]; [reflexivity|].
    cbn [skip_ws]. destruct (is_ws c) eqn:E; [|reflexivity].
    exfalso. destruct c as [[] [] [] [] [] [] [] []]; discriminate. }
  rewrite append_cons, append_nil, Hx. cbn [skip_ws].
  change (is_ws ",") with false. cbv beta iota.
  now rewrite skip_ws_newline_indent, skip_ws_basestring.
Qed.

Lemma member_str_last fuel k v n rest :
  parse_members (S (S fuel))
    (encode_basestring k +:+ ": " +:+ encode_basestring v
       +:+ newline_indent n +:+ "}" +:+ rest)
  = Some ([(k, JStr v)], rest).
Proof.
  rewrite parse_key, skip_ws_basestring, scan_basestring.
  now rewrite skip_ws_newline_indent.
Qed.


Lemma scan_object fuel n k rest :
  scan_once (S fuel) ("{" +:+ newline_indent n +:+ encode_basestring k +:+ rest)
  = match parse_members fuel (encode_basestring k +:+ rest) with
    | Some (ms, r) => Some (JObj ms, r)
    | None => None
    end.
Proof.
  rewrite append_cons, append_nil. cbn [scan_once].
  change (Ascii.eqb "{" dquote) with false.
  change (Ascii.eqb "{" "{") with true. cbv beta iota.
  rewrite skip_ws_newline_indent, skip_ws_basestring.
  unfold encode_basestring at 1. rewrite append_cons. cbv beta iota.
  fold (encode_basestring k). rewrite <- append_cons.
  fold (encode_basestring k).
  now destruct (parse_members fuel _) as [[ms r]|].
Qed.

Lemma scan_review fuel r rest :
  float_round_trips (rating r) ->
  scan_once (9 + fuel) (review_text_json r +:+ rest) = Some (asdict r, rest).
Proof.
  intros Hx. unfold review_text_json, asdict.
  cbn [encode List.map join fst snd]. rewrite !append_assoc.
  cbn [Nat.add]. rewrite scan_object.
  rewrite !member_str_more, (member_float_more _ _ _ _ _ _ Hx).
  rewrite !member_str_more. now rewrite member_str_last.
Qed.


Lemma review_text_json_head r :
  exists s, review_text_json r = String "{" (String "010" ("    " +:+ s)).
Proof.
  unfold review_text_json, asdict. cbn [encode]. eexists.
  rewrite append_cons, append_nil. reflexivity.
Qed.

Lemma skip_ws_review r rest :
  skip_ws (review_text_json r +:+ rest) = review_text_json r +:+ rest.
Proof. destruct (review_text_json_head r) as [s ->]. reflexivity. Qed.

Lemma join_reviews_head r rs :
  exists s, join ("," +:+ newline_indent 1) (List.map review_text_json (r :: rs))
            = String "{" (String "010" ("    " +:+ s)).
Proof.
  destruct (review_text_json_head r) as [s Hs]. cbn [List.map join].
  rewrite Hs. destruct rs; eexists; [reflexivity|].
  rewrite !append_cons, append_assoc. reflexivity.
Qed.

Lemma skip_ws_join_reviews r rs rest :
  skip_ws (join ("," +:+ newline_indent 1) (List.map review_text_json (r :: rs))
             +:+ rest)
  = join ("," +:+ newline_indent 1) (List.map review_text_json (r :: rs))
      +:+ rest.
Proof. destruct (join_reviews_head r rs) as [s ->]. reflexivity. Qed.

Lemma parse_items_unfold fuel s :
  parse_items (S fuel) s
  = match scan_once fuel s with
    | Some (v, r) =>
        match skip_ws r with
        | String "]" r' => Some ([v], r')
        | String "," r' =>
            match parse_items fuel (skip_ws r') with
            | Some (vs, r'') => Some (v :: vs, r'')
            | None => None
            end
        | _ => None
        end
    | None => None
    end.
Proof.
  cbn [parse_items]. destruct (scan_once fuel s) as [[v r]|]; [|reflexivity].
  cbn [mbind option_bind]. destruct (skip_ws r) as [|c r']; [reflexivity|].
  destruct c as [[] [] [] [] [] [] [] []]; reflexivity.
Qed.

Lemma parse_review_items (reviews : list Review) : forall fuel rest,
  reviews <> [] ->
  Forall (fun r => float_round_trips (rating r)) reviews ->
  parse_items (length reviews + (9 + fuel))
    (join ("," +:+ newline_indent 1) (List.map review_text_json reviews)
       +:+ newline_indent 0 +:+ "]" +:+ rest)
  = Some (List.map asdict reviews, rest).
Proof.
  induction reviews as [|r rs IH]; intros fuel rest Hne Hok; [contradiction|].
  inversion Hok as [|? ? Hr Hrs]; subst.
  replace (length (r :: rs) + (9 + fuel))%nat
    with (S (9 + (length rs + fuel)))%nat by (cbn [length]; lia).
  rewrite parse_items_unfold.
  destruct rs as [|r' rs].
  - change (join ("," +:+ newline_indent 1) (List.map review_text_json [r]))
      with (review_text_json r).
    rewrite (scan_review _ _ _ Hr), skip_ws_newline_indent.
    reflexivity.
  - assert (r' :: rs <> []) as Hne' by discriminate.
    specialize (IH fuel rest Hne' Hrs).
    change (join ("," +:+ newline_indent 1)
                 (List.map review_text_json (r :: r' :: rs)))
      with (review_text_json r +:+ ("," +:+ newline_indent 1)
            +:+ join ("," +:+ newline_indent 1)
                  (List.map review_text_json (r' :: rs))).
    rewrite !append_assoc. rewrite (scan_review _ _ _ Hr).
    replace (9 + (length (r' :: rs) + fuel))%nat
      with (length (r' :: rs) + (9 + fuel))%nat by lia.
    generalize dependent (length (r' :: rs) + (9 + fuel))%nat. intros f IH.
    rewrite append_cons, append_nil. cbn [skip_ws].
    change (is_ws ",") with false. cbv beta iota.
    rewrite skip_ws_newline_indent, skip_ws_join_reviews, IH. reflexivity.
Qed.

Lemma join_reviews_length (reviews : list Review) :
  (6 * length reviews
   <= String.length (join ("," +:+ newline_indent 1)
                          (List.map review_text_json reviews)))%nat.
Proof.
  induction reviews as [|r rs IH]; [apply Nat.le_refl|].
  destruct (review_text_json_head r) as [s Hs].
  destruct rs as [|r' rs].
  - change (join ("," +:+ newline_indent 1) (List.map review_text_json [r]))
      with (review_text_json r).
    rewrite Hs. cbn [String.length length]. rewrite length_append.
    cbn [String.length]. lia.
  - change (join ("," +:+ newline_indent 1)
                 (List.map review_text_json (r :: r' :: rs)))
      with (review_text_json r +:+ ("," +:+ newline_indent 1)
            +:+ join ("," +:+ newline_indent 1)
                  (List.map review_text_json (r' :: rs))).
    rewrite !length_append, Hs.
    generalize dependent (String.length (join ("," +:+ newline_indent 1)
                  (List.map review_text_json (r' :: rs)))).
    intros n IH. cbn [String.length length] in *. rewrite length_append.
    cbn [String.length]. lia.
Qed.



Lemma dumps_reviews r rs :
  dumps (JArr (List.map asdict (r :: rs)))
  = "[" +:+ newline_indent 1
      +:+ join ("," +:+ newline_indent 1) (List.map review_text_json (r :: rs))
      +:+ newline_indent 0 +:+ "]".
Proof.
  unfold dumps.
  change (List.map asdict (r :: rs)) with (asdict r :: List.map asdict rs).
  cbn [encode].
  change (asdict r :: List.map asdict rs) with (List.map asdict (r :: rs)).
  rewrite List.map_map. reflexivity.
Qed.

(** Reading back what [json.dumps] wrote for a list of reviews. *)
Lemma loads_dumps_reviews (reviews : list Review) :
  Forall (fun r => float_round_trips (rating r)) reviews ->
  loads (dumps (JArr (List.map asdict reviews)))
  = Some (JArr (List.map asdict reviews)).
Proof.
  intros Hok. destruct reviews as [|r rs]; [reflexivity|].
  rewrite dumps_reviews. unfold loads.
  pose proof (join_reviews_length (r :: rs)) as Hlen.
  pose proof (skip_ws_join_reviews r rs (newline_indent 0 +:+ "]")) as Hskip.
  pose proof (join_reviews_head r rs) as [hd Hhd].
  assert (Hitems := fun fuel =>
    parse_review_items (r :: rs) fuel EmptyString ltac:(discriminate) Hok).
  assert (1 <= length (r :: rs))%nat as Hn by (cbn [length]; lia).
  remember (join ("," +:+ newline_indent 1)
                 (List.map review_text_json (r :: rs))) as txt eqn:Etxt.
  remember (List.map asdict (r :: rs)) as vs eqn:Evs.
  remember (length (r :: rs)) as n eqn:En.
  clear Etxt Evs En Hok.
  rewrite !length_append.
  assert (exists fuel,
    (String.length "[" + (String.length (newline_indent 1)
       + (String.length txt
          + (String.length (newline_indent 0) + String.length "]"))))%nat
    = (n + (9 + fuel))%nat) as [fuel ->].
  { exists (String.length txt - n - 3)%nat.
    cbn [String.length newline_indent spaces Nat.mul Nat.add]. lia. }
  specialize (Hitems fuel).
  change ("]" +:+ "") with "]" in Hitems.
  remember (n + (9 + fuel))%nat as f eqn:Hf. clear Hf.
  rewrite append_cons, append_nil.
  cbn [skip_ws]. change (is_ws "[") with false. cbv beta iota.
  cbn [scan_once].
  change (Ascii.eqb "[" dquote) with false.
  change (Ascii.eqb "[" "{") with false.
  change (Ascii.eqb "[" "[") with true. cbv beta iota.
  rewrite skip_ws_newline_indent, Hskip.
  destruct txt as [|c t]; [discriminate Hhd|].
  assert (c = "{"%char) as -> by congruence.
  rewrite append_cons in *. cbv beta iota. rewrite Hitems.
  reflexivity.
Qed.

End JsonFacts.

(** ** The text of a float *)

Section NumberFacts.
Context `{pyfloat : PyFloat}.

Lemma span_digits ds t :
  all_digits ds = true -> no_digit_ahead t ->
  PyStr.span PyStr.isdigit (ds +:+ t) = (ds, t).
Proof.
  intros Hd Ht. induction ds as [|c ds IH].
  - rewrite append_nil. destruct t as [|c t]; [reflexivity|].
    cbn [PyStr.span]. cbn in Ht. now rewrite Ht.
  - cbn [all_digits] in Hd. apply andb_prop in Hd as [Hc Hd].
    rewrite append_cons. cbn [PyStr.span]. rewrite Hc, (IH Hd). reflexivity.
Qed.

Lemma app_assoc_r (a b c : string) : (a +:+ b) +:+ c = a +:+ (b +:+ c).
Proof. induction a as [|x a IH]; [reflexivity|]. rewrite !append_cons. now f_equal. Qed.

Lemma span_digits_cons c ds t :
  PyStr.isdigit c = true -> all_digits ds = true -> no_digit_ahead t ->
  PyStr.span PyStr.isdigit (String c (ds +:+ t)) = (String c ds, t).
Proof.
  intros Hc Hd Ht. cbn [PyStr.span]. now rewrite Hc, span_digits.
Qed.

Lemma exp_sign_cases es :
  (es =? "")%string || (es =? "+")%string || (es =? "-")%string = true ->
  es = "" \/ es = "+" \/ es = "-".
Proof.
  intros H. apply orb_prop in H as [H|H]; [apply orb_prop in H as [H|H]|];
    apply String.eqb_eq in H; auto.
Qed.


Ltac digit_cases c H :=
  destruct c as [[] [] [] [] [] [] [] []]; try discriminate H.

Ltac right_nested :=
  repeat (rewrite append_cons || rewrite append_nil || rewrite app_assoc_r).

Lemma scan_number_parts s :
  Json.scan_number s
  = let '(sign, s1) := read_sign s in
    match s1 with
    | String c r =>
        if PyStr.isdigit c then
          let '(integer, s2) := read_integer c r s1 in
          let '(frac, s3) := read_fraction s2 in
          let '(exp, s4) := read_exponent s3 in
          match frac, exp with
          | EmptyString, EmptyString =>
              n ← PyStr.int integer;
              Some (Json.JInt (if String.eqb sign "-" then - n else n), s4)
          | _, _ =>
              x ← float_of_str (sign +:+ integer +:+ frac +:+ exp);
              Some (Json.JFloat x, s4)
          end
        else
          match Json.starts_with "NaN" s, Json.starts_with "Infinity" s,
                Json.starts_with "-Infinity" s with
          | Some r', _, _ => x ← float_of_str "nan"; Some (Json.JFloat x, r')
          | _, Some r', _ => x ← float_of_str "inf"; Some (Json.JFloat x, r')
          | _, _, Some r' => x ← float_of_str "-inf"; Some (Json.JFloat x, r')
          | _, _, _ => None
          end
    | EmptyString => None
    end.
Proof. reflexivity. Qed.

Lemma read_sign_digit c r :
  PyStr.isdigit c = true -> read_sign (String c r) = (EmptyString, String c r).
Proof. intros Hc. now digit_cases c Hc. Qed.

Lemma read_integer_digits c ds t :
  PyStr.isdigit c = true -> all_digits ds = true ->
  negb (Ascii.eqb c "0") || String.eqb ds "" = true ->
  no_digit_ahead t ->
  read_integer c (ds +:+ t) (String c (ds +:+ t)) = (String c ds, t).
Proof.
  intros Hc Hds Hz Ht. unfold read_integer.
  destruct (Ascii.eqb_spec c "0") as [->|_].
  - cbn [negb orb] in Hz. apply String.eqb_eq in Hz as ->.
    now rewrite append_nil.
  - now apply span_digits_cons.
Qed.

Lemma read_fraction_digits d ds t :
  PyStr.isdigit d = true -> all_digits ds = true -> no_digit_ahead t ->
  read_fraction (String "." (String d (ds +:+ t)))
  = (String "." (String d ds), t).
Proof.
  intros Hd Hds Ht. unfold read_fraction.
  now rewrite Hd, span_digits_cons.
Qed.

Lemma read_exponent_digits es d ds t :
  es = "" \/ es = "+" \/ es = "-" ->
  PyStr.isdigit d = true -> all_digits ds = true -> no_digit_ahead t ->
  read_exponent (String "e" (es +:+ String d (ds +:+ t)))
  = (String "e" (es +:+ String d ds), t).
Proof.
  intros Hes Hd Hds Ht. unfold read_exponent.
  cbn [Ascii.eqb Bool.eqb orb]. cbv beta iota.
  destruct Hes as [-> | [-> | ->]]; right_nested.
  - assert ((match String d (ds +:+ t) with
             | String "+" q => ("+", q)
             | String "-" q => ("-", q)
             | _ => (EmptyString, String d (ds +:+ t))
             end) = (EmptyString, String d (ds +:+ t))) as ->
      by now digit_cases d Hd.
    now rewrite span_digits_cons.
  - cbv beta iota. now rewrite span_digits_cons.
  - cbv beta iota. now rewrite span_digits_cons.
Qed.

Lemma scan_number_decimal d x rest :
  well_formed d = true ->
  float_of_str (decimal_text d) = Some x ->
  Json.scan_number (decimal_text d +:+ String "," rest)
  = Some (Json.JFloat x, String "," rest).
Proof.
  destruct d as [neg int fr es ex]. unfold well_formed, decimal_text.
  cbn [negative integer fraction exp_sign exp_digits].
  intros Hwf Hx.
  destruct int as [|c ds]; [discriminate|].
  apply andb_prop in Hwf as [Hwf Hexp].
  apply andb_prop in Hwf as [Hwf Hex].
  apply andb_prop in Hwf as [Hwf Hfr].
  apply andb_prop in Hwf as [Hwf Hzero].
  apply andb_prop in Hwf as [Hc Hds].
  rewrite scan_number_parts.
  assert (forall t,
    read_sign ((if neg then "-" else "") +:+ String c t)
    = (if neg then "-" else "", String c t)) as Hsign.
  { intros t. destruct neg; right_nested; [reflexivity|].
    now apply read_sign_digit. }
  destruct fr as [|fd fds], ex as [|ed eds];
    cbn [String.eqb all_digits] in Hexp, Hx, Hfr, Hex |- *.
  - now rewrite andb_false_r in Hexp.
  - apply andb_prop in Hex as [Hed Heds]. apply exp_sign_cases in Hexp.
    right_nested. rewrite Hsign. cbv beta iota. rewrite Hc.
    rewrite read_integer_digits by (assumption || reflexivity).
    cbv beta iota. cbn [read_fraction]. cbv beta iota.
    rewrite read_exponent_digits by (assumption || reflexivity).
    cbv beta iota. revert Hx. right_nested. now intros ->.
  - apply andb_prop in Hfr as [Hfd Hfds].
    apply andb_prop in Hexp as [Hes _]. apply String.eqb_eq in Hes as ->.
    right_nested. rewrite Hsign. cbv beta iota. rewrite Hc.
    rewrite read_integer_digits by (assumption || reflexivity).
    cbv beta iota.
    rewrite read_fraction_digits by (assumption || reflexivity).
    cbv beta iota. cbn [read_exponent Ascii.eqb Bool.eqb orb]. cbv beta iota.
    revert Hx. right_nested. now intros ->.
  - apply andb_prop in Hfr as [Hfd Hfds].
    apply andb_prop in Hex as [Hed Heds]. apply exp_sign_cases in Hexp.
    right_nested. rewrite Hsign. cbv beta iota. rewrite Hc.
    rewrite read_integer_digits by (assumption || reflexivity).
    cbv beta iota.
    rewrite read_fraction_digits by (assumption || reflexivity).
    cbv beta iota.
    rewrite read_exponent_digits by (assumption || reflexivity).
    cbv beta iota. revert Hx. right_nested. now intros ->.
Qed.


Lemma scan_once_number c r fuel :
  PyStr.isdigit c = true \/ c = "-"%char ->
  Json.scan_once (S fuel) (String c r) = Json.scan_number (String c r).
Proof.
  intros [Hc| ->]; [digit_cases c Hc|]; reflexivity.
Qed.

Lemma decimal_text_head d :
  well_formed d = true ->
  exists c r, decimal_text d = String c r
    /\ (PyStr.isdigit c = true \/ c = "-"%char).
Proof.
  destruct d as [neg int fr es ex]. unfold well_formed, decimal_text.
  cbn [negative integer fraction exp_sign exp_digits]. intros Hwf.
  destruct int as [|c ds]; [discriminate|].
  do 4 apply andb_prop in Hwf as [Hwf _]. apply andb_prop in Hwf as [Hc _].
  destruct neg; right_nested; eauto.
Qed.

Lemma substring_all s : String.substring 0 (String.length s) s = s.
Proof. induction s as [|c s IH]; [reflexivity|]. cbn. now rewrite IH. Qed.

Lemma starts_with_app p r : Json.starts_with p (p +:+ r) = Some r.
Proof.
  unfold Json.starts_with.
  assert (String.prefix p (p +:+ r) = true) as ->.
  { induction p as [|c p IH]; [now destruct r|].
    rewrite append_cons. cbn [String.prefix].
    now destruct (ascii_dec c c). }
  f_equal. induction p as [|c p IH].
  - rewrite append_nil. cbn [String.length]. rewrite Nat.sub_0_r.
    apply substring_all.
  - rewrite append_cons. cbn [String.length String.substring Nat.sub].
    exact IH.
Qed.

Lemma reads_back_round_trips x : reads_back x -> float_round_trips x.
Proof.
  intros [_ [(d & Hwf & Hrepr & Hx)|[[Hrepr Hx]|[Hrepr Hx]]]] fuel rest;
    rewrite Hrepr.
  - destruct (decimal_text_head d Hwf) as (c & r & Hd & Hc).
    pose proof (scan_number_decimal d x rest Hwf Hx) as Hscan.
    rewrite Hd in *. rewrite append_cons in *.
    now rewrite scan_once_number.
  - pose proof (starts_with_app "Infinity" (String "," rest)) as Hs.
    revert Hs. right_nested. intros Hs.
    cbn [Json.scan_once Ascii.eqb Bool.eqb]. cbv beta iota.
    change (Json.starts_with "null" _) with (@None string).
    change (Json.starts_with "true" _) with (@None string).
    change (Json.starts_with "false" _) with (@None string).
    cbv beta iota. unfold Json.scan_number. cbv beta iota.
    change (PyStr.isdigit "I") with false. cbv beta iota.
    change (Json.starts_with "NaN" _) with (@None string).
    cbv beta iota. rewrite Hs, Hx. reflexivity.
  - pose proof (starts_with_app "-Infinity" (String "," rest)) as Hs.
    revert Hs. right_nested. intros Hs.
    cbn [Json.scan_once Ascii.eqb Bool.eqb]. cbv beta iota.
    change (Json.starts_with "null" _) with (@None string).
    change (Json.starts_with "true" _) with (@None string).
    change (Json.starts_with "false" _) with (@None string).
    cbv beta iota. unfold Json.scan_number. cbv beta iota.
    change (PyStr.isdigit "I") with false. cbv beta iota.
    change (Json.starts_with "NaN" _) with (@None string).
    change (Json.starts_with "Infinity" _) with (@None string).
    cbv beta iota. rewrite Hs, Hx. reflexivity.
Qed.

End NumberFacts.

(* ================================================================== *)
(** * Properties of the date filter *)
(* ================================================================== *)

Lemma date_leb_le a b : Datetime.leb a b = true <-> Datetime.le a b.
Proof.
  unfold Datetime.leb, Datetime.le.
  rewrite orb_true_iff, andb_true_iff, orb_true_iff, andb_true_iff.
  rewrite !Z.ltb_lt, !Z.eqb_eq, Z.leb_le. tauto.
Qed.

(** C1.  A date text that one of the three supported formats parses to
    the calendar date [d] passes the filter exactly when
    [start_d <= d <= end_d], both bounds included. *)
Theorem in_range_supported_format (date_str fmt : string)
    (d start_d end_d : Datetime.date) :
  In fmt date_formats ->
  Strptime.strptime (PyStr.strip date_str) fmt = Some d ->
  in_range date_str start_d end_d = true
  <-> Datetime.le start_d d /\ Datetime.le d end_d.
Proof.
  intros Hfmt Hd.
  assert (in_range date_str start_d end_d
          = Datetime.leb start_d d && Datetime.leb d end_d) as ->.
  { unfold in_range, date_formats in *. cbn [in_range_loop].
    destruct Hfmt as [<-|[<-|[<-|[]]]].
    - now rewrite Hd.
    - destruct (Strptime.strptime _ "%B %d, %Y") as [d'|] eqn:E.
      + now rewrite (StrptimeFacts.month_formats_agree _ _ _ E Hd).
      + now rewrite Hd.
    - destruct (StrptimeFacts.iso_excludes_month_formats _ _ Hd) as [-> ->].
      now rewrite Hd. }
  rewrite andb_true_iff, !date_leb_le. tauto.
Qed.

(** C2.  A date text that none of the three supported formats parses
    passes the filter, whatever the text and whatever the window. *)
Theorem in_range_unknown_format (date_str : string)
    (start_d end_d : Datetime.date) :
  (forall fmt, In fmt date_formats ->
     Strptime.strptime (PyStr.strip date_str) fmt = None) ->
  in_range date_str start_d end_d = true.
Proof.
  intros H. unfold in_range.
  induction date_formats as [|fmt fmts IH]; [reflexivity|].
  cbn [in_range_loop]. rewrite (H fmt (or_introl eq_refl)).
  apply IH. intros fmt' Hin. apply H. now right.
Qed.


(* ================================================================== *)
(** * Properties of the extractors *)
(* ================================================================== *)

Section Extractors.
Context `{bs4 : BS4} `{pyfloat : PyFloat}.
Variable requests_get : string -> result response.
Variable write_file : string -> string -> result unit.

Local Abbreviation fetch_cards := (fetch_cards requests_get).
Local Abbreviation page_cards := (page_cards requests_get).
Local Abbreviation page_not_ok := (page_not_ok requests_get).
Local Abbreviation page_no_cards := (page_no_cards requests_get).
Local Abbreviation listing := (listing requests_get).
Local Abbreviation page_answers := (page_answers requests_get).
Local Abbreviation listing_ends := (listing_ends requests_get).

Lemma page_cards_fetch url selector cards :
  page_cards url selector cards ->
  fetch_cards url selector = Ok (Some cards).
Proof.
  intros (resp & soup & Hget & Hst & Hsoup & Hsel & Hne). unfold fetch_cards.
  rewrite Hget, Hst, Hsoup, Hsel. now destruct cards.
Qed.

Lemma page_not_ok_fetch url selector :
  page_not_ok url -> fetch_cards url selector = Ok None.
Proof.
  intros (resp & Hget & Hst). unfold fetch_cards. rewrite Hget.
  apply Z.eqb_neq in Hst. now rewrite Hst.
Qed.

Lemma page_no_cards_fetch url selector :
  page_no_cards url selector -> fetch_cards url selector = Ok None.
Proof.
  intros (resp & soup & Hget & Hst & Hsoup & Hsel). unfold fetch_cards.
  now rewrite Hget, Hst, Hsoup, Hsel.
Qed.

Lemma listing_shows url_of selector pages :
  listing url_of selector pages ->
  shows requests_get url_of selector 1 pages.
Proof. intros H i cards Hi. apply page_cards_fetch. now apply H. Qed.

Lemma g2_card_review company start_d end_d acc card :
  g2_card company start_d end_d acc card
  = if passes start_d end_d (g2_review company card)
    then acc ++ [g2_review company card] else acc.
Proof.
  unfold g2_card, passes, g2_review. cbn [date].
  fold (g2_date card). now destruct (in_range (g2_date card) start_d end_d).
Qed.

Lemma capterra_card_review company start_d end_d acc card :
  capterra_card company start_d end_d acc card
  = if passes start_d end_d (capterra_review company card)
    then acc ++ [capterra_review company card] else acc.
Proof.
  unfold capterra_card, passes, capterra_review. cbn [date].
  fold (capterra_date card).
  now destruct (in_range (capterra_date card) start_d end_d).
Qed.

(** A loop body that appends the records that pass the filter. *)
Lemma foldl_filter_map (step : list Review -> Tag -> list Review)
    (review : Tag -> Review) (keep : Review -> bool) :
  (forall acc card,
     step acc card = if keep (review card) then acc ++ [review card] else acc) ->
  forall cards acc,
    foldl step acc cards = acc ++ List.filter keep (List.map review cards).
Proof.
  intros Hstep cards; induction cards as [|card cards IH]; intros acc.
  - now rewrite app_nil_r.
  - cbn [foldl List.map List.filter]. rewrite IH, Hstep.
    destruct (keep (review card)); [|reflexivity].
    now rewrite <- app_assoc.
Qed.

Lemma run_pages_filter_map (step : list Review -> Tag -> list Review)
    (review : Tag -> Review) (keep : Review -> bool) :
  (forall acc card,
     step acc card = if keep (review card) then acc ++ [review card] else acc) ->
  forall pages acc,
    run_pages (fun acc cards => Ok (foldl step acc cards)) acc pages
    = Ok (acc ++ List.filter keep (List.map review (concat pages))).
Proof.
  intros Hstep pages; induction pages as [|cards pages IH]; intros acc.
  - cbn. now rewrite app_nil_r.
  - cbn [run_pages result_bind concat]. rewrite IH.
    rewrite (foldl_filter_map _ _ _ Hstep), List.map_app, List.filter_app.
    now rewrite <- app_assoc.
Qed.

(** The reviews of a site whose listing shows [pages] and then ends. *)
Lemma g2_loop_result slug company start_d end_d pages fuel :
  listing (build_g2_url slug) ".paper.paper--white.paper--box" pages ->
  fetch_cards (build_g2_url slug (1 + Z.of_nat (length pages)))
              ".paper.paper--white.paper--box" = Ok None ->
  (length pages < fuel)%nat ->
  fst (g2_loop requests_get fuel slug company start_d end_d 1 [])
  = Some (Ok (List.filter (passes start_d end_d)
                (List.map (g2_review company) (concat pages)))).
Proof.
  intros Hl Hend Hfuel. rewrite g2_loop_paginate.
  apply (loop_stops _ _ _ _ _ pages); [now apply listing_shows| |assumption..].
  now rewrite (run_pages_filter_map _ _ _ (g2_card_review company start_d end_d)).
Qed.

Lemma capterra_loop_result path company start_d end_d pages fuel :
  listing (build_capterra_url path) "section.review-card" pages ->
  fetch_cards (build_capterra_url path (1 + Z.of_nat (length pages)))
              "section.review-card" = Ok None ->
  (length pages < fuel)%nat ->
  fst (capterra_loop requests_get fuel path company start_d end_d 1 [])
  = Some (Ok (List.filter (passes start_d end_d)
                (List.map (capterra_review company) (concat pages)))).
Proof.
  intros Hl Hend Hfuel. rewrite capterra_loop_paginate.
  apply (loop_stops _ _ _ _ _ pages); [now apply listing_shows| |assumption..].
  now rewrite (run_pages_filter_map _ _ _
                 (capterra_card_review company start_d end_d)).
Qed.

Lemma saas_card_review co start_d end_d acc card r :
  saas_review co card = Some r ->
  saas_card co start_d end_d acc card
  = Ok (if passes start_d end_d r then acc ++ [r] else acc).
Proof.
  unfold saas_review, saas_card, passes.
  destruct (select_one card ".review-title") as [t|]; [|discriminate].
  destruct (select_one card ".review-date") as [d|]; [|discriminate].
  destruct (select_one card ".review-rating") as [el|]; [|discriminate].
  cbn [mbind option_bind get_text_of subscript result_bind].
  destruct (tag_get el "data-score") as [score|]; [|discriminate].
  cbn [mbind option_bind result_bind]. unfold float_.
  destruct (float_of_str score) as [x|]; [|discriminate].
  cbn [mbind option_bind result_bind].
  destruct (select_one card ".reviewer-name") as [n|]; [|discriminate].
  destruct (select_one card ".review-body") as [b|]; [|discriminate].
  cbn [mbind option_bind get_text_of result_bind]. intros [= <-].
  cbn [date]. now destruct (in_range (get_text "" d) start_d end_d).
Qed.

Lemma saas_card_unreadable co card :
  saas_review co card = None ->
  exists e, forall start_d end_d acc,
    saas_card co start_d end_d acc card = Raise e.
Proof.
  unfold saas_review, saas_card.
  destruct (select_one card ".review-title") as [t|]; [|eexists; reflexivity].
  destruct (select_one card ".review-date") as [d|]; [|eexists; reflexivity].
  destruct (select_one card ".review-rating") as [el|]; [|eexists; reflexivity].
  cbn [mbind option_bind get_text_of subscript result_bind].
  destruct (tag_get el "data-score") as [score|]; [|eexists; reflexivity].
  cbn [mbind option_bind result_bind]. unfold float_.
  destruct (float_of_str score) as [x|]; [|eexists; reflexivity].
  cbn [mbind option_bind result_bind].
  destruct (select_one card ".reviewer-name") as [n|]; [|eexists; reflexivity].
  destruct (select_one card ".review-body") as [b|]; [|eexists; reflexivity].
  discriminate.
Qed.

Lemma saas_cards_reviews co start_d end_d cards : forall acc,
  (forall card, In card cards -> is_Some (saas_review co card)) ->
  saas_cards co start_d end_d acc cards
  = Ok (acc ++ List.filter (passes start_d end_d)
                 (omap (saas_review co) cards)).
Proof.
  induction cards as [|card cards IH]; intros acc Hall.
  - cbn. now rewrite app_nil_r.
  - destruct (Hall card (or_introl eq_refl)) as [r Hr].
    cbn [saas_cards omap list_omap].
    rewrite (saas_card_review _ _ _ _ _ _ Hr), Hr.
    cbn [result_bind List.filter].
    rewrite IH by (intros c Hc; apply Hall; now right).
    destruct (passes start_d end_d r); [|reflexivity].
    now rewrite <- app_assoc.
Qed.

Lemma saas_pages_reviews co start_d end_d pages : forall acc,
  (forall cards card, In cards pages -> In card cards ->
     is_Some (saas_review co card)) ->
  run_pages (saas_cards co start_d end_d) acc pages
  = Ok (acc ++ List.filter (passes start_d end_d)
                 (omap (saas_review co) (concat pages))).
Proof.
  induction pages as [|cards pages IH]; intros acc Hall.
  - cbn. now rewrite app_nil_r.
  - cbn [run_pages concat].
    rewrite saas_cards_reviews
      by (intros c Hc; apply (Hall cards); [now left|assumption]).
    cbn [result_bind]. rewrite IH by (intros cs c Hcs; apply Hall; now right).
    now rewrite omap_app, List.filter_app, <- app_assoc.
Qed.

Lemma saas_cards_raise_at co start_d end_d cards card :
  In card cards ->
  (exists e, forall acc, saas_card co start_d end_d acc card = Raise e) ->
  forall acc, exists e, saas_cards co start_d end_d acc cards = Raise e.
Proof.
  intros Hin [e He].
  induction cards as [|c cards IH]; intros acc; [destruct Hin|].
  cbn [saas_cards].
  destruct Hin as [->|Hin].
  - rewrite He. now exists e.
  - destruct (saas_card co start_d end_d acc c) as [acc1|e1];
      [apply (IH Hin)|now exists e1].
Qed.

Lemma loop_raises_in_pages url_of banner selector body pages :
  forall fuel page acc e,
  shows requests_get url_of selector page pages ->
  run_pages body acc pages = Raise e ->
  (length pages <= fuel)%nat ->
  fst (paginate requests_get url_of banner selector body fuel page acc)
  = Some (Raise e).
Proof.
  induction pages as [|cards pages IH]; intros fuel page acc e Hs Hr Hfuel;
    [discriminate|].
  destruct fuel as [|fuel]; [cbn [length] in Hfuel; lia|].
  apply shows_cons in Hs as [Hc Hs]. cbn [run_pages] in Hr.
  cbn [paginate]. rewrite Hc.
  destruct (body acc cards) as [acc1|e1] eqn:Hb; cbn [result_bind] in Hr.
  - specialize (IH fuel (page + 1) acc1 e Hs Hr ltac:(cbn [length] in Hfuel; lia)).
    now destruct (paginate _ _ _ _ _ _ _ _) as [r io'].
  - now inversion Hr.
Qed.

Lemma run_pages_raise_at body pages cards :
  In cards pages ->
  (forall acc : list Review, exists e, body acc cards = Raise e) ->
  forall acc, exists e, run_pages body acc pages = Raise e.
Proof.
  intros Hin Hbad. induction pages as [|cs pages IH]; intros acc;
    [destruct Hin|].
  cbn [run_pages]. destruct Hin as [->|Hin].
  - destruct (Hbad acc) as [e ->]. now exists e.
  - destruct (body acc cs) as [acc1|e]; [apply (IH Hin)|now exists e].
Qed.

Lemma saas_loop_result co start_d end_d pages fuel :
  listing (saas_url co) ".review-card" pages ->
  fetch_cards (saas_url co (1 + Z.of_nat (length pages))) ".review-card"
  = Ok None ->
  (forall cards card, In cards pages -> In card cards ->
     is_Some (saas_review co card)) ->
  (length pages < fuel)%nat ->
  fst (scrape_saas_example requests_get fuel co start_d end_d)
  = Some (Ok (List.filter (passes start_d end_d)
                (omap (saas_review co) (concat pages)))).
Proof.
  intros Hl Hend Hall Hfuel. unfold scrape_saas_example.
  rewrite saas_loop_paginate.
  apply (loop_stops _ _ _ _ _ pages); [now apply listing_shows| |assumption..].
  now rewrite saas_pages_reviews.
Qed.

Lemma saas_loop_unreadable co start_d end_d pages cards card fuel :
  listing (saas_url co) ".review-card" pages ->
  In cards pages -> In card cards -> saas_review co card = None ->
  (length pages <= fuel)%nat ->
  exists e,
    fst (scrape_saas_example requests_get fuel co start_d end_d)
    = Some (Raise e).
Proof.
  intros Hl Hcards Hcard Hnone Hfuel.
  destruct (saas_card_unreadable co card Hnone) as [e0 He0].
  destruct (run_pages_raise_at (saas_cards co start_d end_d) pages cards Hcards)
    with (acc := @nil Review) as [e He].
  { apply (saas_cards_raise_at co start_d end_d cards card Hcard).
    exists e0. intros acc. apply He0. }
  exists e. unfold scrape_saas_example. rewrite saas_loop_paginate.
  now apply (loop_raises_in_pages _ _ _ _ pages); [apply listing_shows|..].
Qed.

(** C3, as the code has it.  When pages 1..N answer with status 200 and
    at least one card each and page N+1 answers with another status, the
    G2 and the Capterra extractor return exactly the records of the
    cards of pages 1..N that pass the date filter, in page order and,
    within a page, in card order.  The generic SaaS extractor returns
    them when every card of those pages has what its loop reads; when
    one of the cards has not, it raises and returns nothing. *)
Theorem reviews_of_pages_in_order (company : string)
    (start_d end_d : Datetime.date) (pages : list (list Tag)) (fuel : nat) :
  (length pages < fuel)%nat ->
  (forall slug,
     g2_slug_map !! PyStr.lower company = Some slug ->
     listing (build_g2_url slug) ".paper.paper--white.paper--box" pages ->
     page_not_ok (build_g2_url slug (1 + Z.of_nat (length pages))) ->
     fst (scrape_g2 requests_get fuel company start_d end_d)
     = Some (Ok (List.filter (passes start_d end_d)
                   (List.map (g2_review company) (concat pages)))))
  /\ (forall path,
     capterra_slug_map !! PyStr.lower company = Some path ->
     listing (build_capterra_url path) "section.review-card" pages ->
     page_not_ok (build_capterra_url path (1 + Z.of_nat (length pages))) ->
     fst (scrape_capterra requests_get fuel company start_d end_d)
     = Some (Ok (List.filter (passes start_d end_d)
                   (List.map (capterra_review company) (concat pages)))))
  /\ (listing (saas_url company) ".review-card" pages ->
      page_not_ok (saas_url company (1 + Z.of_nat (length pages))) ->
      ((forall cards card, In cards pages -> In card cards ->
          is_Some (saas_review company card)) ->
       fst (scrape_saas_example requests_get fuel company start_d end_d)
       = Some (Ok (List.filter (passes start_d end_d)
                     (omap (saas_review company) (concat pages)))))
      /\ (forall cards card, In cards pages -> In card cards ->
            saas_review company card = None ->
            exists e,
              fst (scrape_saas_example requests_get fuel company start_d end_d)
              = Some (Raise e))).
Proof.
  intros Hfuel. split; [|split].
  - intros slug Hslug Hl Hend. unfold scrape_g2. rewrite Hslug.
    apply g2_loop_result; [assumption| |assumption].
    now apply page_not_ok_fetch.
  - intros path Hpath Hl Hend. unfold scrape_capterra. rewrite Hpath.
    apply capterra_loop_result; [assumption| |assumption].
    now apply page_not_ok_fetch.
  - intros Hl Hend. split.
    + intros Hall. apply saas_loop_result; [assumption| |assumption..].
      now apply page_not_ok_fetch.
    + intros cards card Hcards Hcard Hnone.
      apply (saas_loop_unreadable _ _ _ pages cards card);
        [assumption..|lia].
Qed.


Lemma listing_ends_fetch url selector :
  listing_ends url selector -> fetch_cards url selector = Ok None.
Proof.
  intros [H|H]; [now apply page_not_ok_fetch|now apply page_no_cards_fetch].
Qed.

Lemma fetch_cards_page_cards url selector cards :
  fetch_cards url selector = Ok (Some cards) -> page_cards url selector cards.
Proof.
  unfold fetch_cards, page_cards.
  destruct (requests_get url) as [resp|e]; [|discriminate].
  destruct (status_code resp =? 200) eqn:Hst; [|discriminate]. cbn [negb].
  apply Z.eqb_eq in Hst.
  destruct (BeautifulSoup (text resp)) as [soup|e] eqn:Hsoup; [|discriminate].
  destruct (select _ _) as [|c cs] eqn:Hsel; [discriminate|].
  intros [= <-]. exists resp, soup.
  repeat split; [assumption..|discriminate].
Qed.

Lemma fetch_none_listing_ends url selector :
  fetch_cards url selector = Ok None -> listing_ends url selector.
Proof.
  unfold fetch_cards, listing_ends, page_not_ok, page_no_cards.
  destruct (requests_get url) as [resp|e]; [|discriminate].
  destruct (Z.eqb_spec (status_code resp) 200) as [Hst|Hst]; cbn [negb].
  - destruct (BeautifulSoup (text resp)) as [soup|e] eqn:Hsoup; [|discriminate].
    destruct (select soup selector) as [|c cs] eqn:Hsel; [|discriminate].
    intros _. right. now exists resp, soup.
  - intros _. left. now exists resp.
Qed.

Lemma shows_listing url_of selector pages :
  shows requests_get url_of selector 1 pages -> listing url_of selector pages.
Proof. intros H i cards Hi. apply fetch_cards_page_cards. now apply H. Qed.

(** Up to a page that ends the listing there is a first one, and the
    pages before it show cards. *)
Lemma listing_until_end url_of selector (k : nat) : forall page,
  (forall i, (i <= k)%nat -> page_answers (url_of (page + Z.of_nat i))) ->
  fetch_cards (url_of (page + Z.of_nat k)) selector = Ok None ->
  exists pages,
    (length pages <= k)%nat /\ shows requests_get url_of selector page pages
    /\ fetch_cards (url_of (page + Z.of_nat (length pages))) selector = Ok None.
Proof.
  induction k as [|k IH]; intros page Hans Hend.
  - exists []. repeat split; [apply Nat.le_refl| |exact Hend].
    intros i cs Hi. discriminate Hi.
  - destruct (fetch_cards (url_of page) selector) as [[cards|]|e] eqn:Hpage.
    + destruct (IH (page + 1)) as (pages & Hlen & Hs & He).
      * intros i Hi. specialize (Hans (S i) ltac:(lia)).
        now replace (page + 1 + Z.of_nat i) with (page + Z.of_nat (S i)) by lia.
      * now replace (page + 1 + Z.of_nat k) with (page + Z.of_nat (S k)) by lia.
      * exists (cards :: pages). repeat split; [cbn [length]; lia| |].
        -- intros [|i] cs Hi.
           ++ injection Hi as <-. now rewrite Z.add_0_r.
           ++ replace (page + Z.of_nat (S i)) with (page + 1 + Z.of_nat i)
                by lia.
              now apply Hs.
        -- now replace (page + Z.of_nat (length (cards :: pages)))
             with (page + 1 + Z.of_nat (length pages))
             by (cbn [length]; lia).
    + exists []. repeat split; [cbn [length]; lia| |].
      * intros i cs Hi. discriminate Hi.
      * cbn [length]. now rewrite Z.add_0_r.
    + exfalso. destruct (Hans 0%nat ltac:(lia)) as (resp & Hresp & Hsoup).
      rewrite Z.add_0_r in Hresp. unfold fetch_cards in Hpage.
      rewrite Hresp in Hpage.
      destruct (Z.eqb_spec (status_code resp) 200) as [Hst|Hst];
        [|discriminate]. cbn [negb] in Hpage.
      destruct (Hsoup Hst) as [soup Hs]. rewrite Hs in Hpage.
      now destruct (select _ _).
Qed.

Lemma run_pages_readable body pages :
  (forall (i : nat) cards, pages !! i = Some cards ->
     forall acc, exists acc', body acc cards = Ok acc') ->
  forall acc : list Review, exists acc', run_pages body acc pages = Ok acc'.
Proof.
  induction pages as [|cards pages IH]; intros Hr acc; [now exists acc|].
  cbn [run_pages]. destruct (Hr 0%nat cards eq_refl acc) as [acc1 ->].
  cbn [result_bind]. apply IH. intros i cs Hi. exact (Hr (S i) cs Hi).
Qed.

Lemma g2_over_listing slug company start_d end_d pages :
  listing (build_g2_url slug) ".paper.paper--white.paper--box" pages ->
  fetch_cards (build_g2_url slug (1 + Z.of_nat (length pages)))
              ".paper.paper--white.paper--box" = Ok None ->
  (forall fuel, (length pages < fuel)%nat ->
     fst (g2_loop requests_get fuel slug company start_d end_d 1 [])
     = Some (Ok (List.filter (passes start_d end_d)
                   (List.map (g2_review company) (concat pages)))))
  /\ (forall fuel, (fuel <= length pages)%nat ->
        fst (g2_loop requests_get fuel slug company start_d end_d 1 []) = None).
Proof.
  intros Hl Hend. split; intros fuel Hfuel.
  - now apply g2_loop_result.
  - rewrite g2_loop_paginate.
    eapply (loop_running _ _ _ _ _ pages);
      [now apply listing_shows| |assumption].
    now rewrite (run_pages_filter_map _ _ _
                   (g2_card_review company start_d end_d)).
Qed.

Lemma capterra_over_listing path company start_d end_d pages :
  listing (build_capterra_url path) "section.review-card" pages ->
  fetch_cards (build_capterra_url path (1 + Z.of_nat (length pages)))
              "section.review-card" = Ok None ->
  (forall fuel, (length pages < fuel)%nat ->
     fst (capterra_loop requests_get fuel path company start_d end_d 1 [])
     = Some (Ok (List.filter (passes start_d end_d)
                   (List.map (capterra_review company) (concat pages)))))
  /\ (forall fuel, (fuel <= length pages)%nat ->
        fst (capterra_loop requests_get fuel path company start_d end_d 1 [])
        = None).
Proof.
  intros Hl Hend. split; intros fuel Hfuel.
  - now apply capterra_loop_result.
  - rewrite capterra_loop_paginate.
    eapply (loop_running _ _ _ _ _ pages);
      [now apply listing_shows| |assumption].
    now rewrite (run_pages_filter_map _ _ _
                   (capterra_card_review company start_d end_d)).
Qed.

Lemma saas_over_listing company start_d end_d pages reviews :
  listing (fun page => saas_base_url company +:+ pretty page) ".review-card"
          pages ->
  run_pages (saas_cards company start_d end_d) [] pages = Ok reviews ->
  fetch_cards (saas_base_url company +:+ pretty (1 + Z.of_nat (length pages)))
              ".review-card" = Ok None ->
  (forall fuel, (length pages < fuel)%nat ->
     fst (scrape_saas_example requests_get fuel company start_d end_d)
     = Some (Ok reviews))
  /\ (forall fuel, (fuel <= length pages)%nat ->
        fst (scrape_saas_example requests_get fuel company start_d end_d)
        = None).
Proof.
  intros Hl Hrun Hend. unfold scrape_saas_example.
  split; intros fuel Hfuel; rewrite saas_loop_paginate.
  - now apply (loop_stops _ _ _ _ _ pages); [apply listing_shows|..].
  - eapply (loop_running _ _ _ _ _ pages);
      [now apply listing_shows|eassumption|assumption].
Qed.

(** C4, as the code has it.  When every page up to page k+1 is answered,
    with markup the parser accepts where the status is 200, and page k+1
    answers with a status other than 200 or shows no card, the G2 and
    Capterra loops return without raising: there are pages 1..N (N <= k)
    that show cards, page N+1 is the first that ends the listing, the
    loop returns what pages 1..N contributed once it has made N+1
    iterations, and it is still running after N iterations or fewer,
    there being no page limit.  The generic SaaS loop does the same
    provided every card of the pages up to page k+1 has what the loop
    reads. *)
Theorem pagination_ends_with_the_listing (company : string)
    (start_d end_d : Datetime.date) (k : nat) :
  (forall slug,
     g2_slug_map !! PyStr.lower company = Some slug ->
     (forall i, (i <= k)%nat ->
        page_answers (build_g2_url slug (1 + Z.of_nat i))) ->
     listing_ends (build_g2_url slug (1 + Z.of_nat k))
                  ".paper.paper--white.paper--box" ->
     exists pages,
       (length pages <= k)%nat
       /\ listing (build_g2_url slug) ".paper.paper--white.paper--box" pages
       /\ listing_ends (build_g2_url slug (1 + Z.of_nat (length pages)))
                       ".paper.paper--white.paper--box"
       /\ (forall fuel, (length pages < fuel)%nat ->
            fst (scrape_g2 requests_get fuel company start_d end_d)
            = Some (Ok (List.filter (passes start_d end_d)
                          (List.map (g2_review company) (concat pages)))))
       /\ (forall fuel, (fuel <= length pages)%nat ->
            fst (scrape_g2 requests_get fuel company start_d end_d) = None))
  /\ (forall path,
     capterra_slug_map !! PyStr.lower company = Some path ->
     (forall i, (i <= k)%nat ->
        page_answers (build_capterra_url path (1 + Z.of_nat i))) ->
     listing_ends (build_capterra_url path (1 + Z.of_nat k))
                  "section.review-card" ->
     exists pages,
       (length pages <= k)%nat
       /\ listing (build_capterra_url path) "section.review-card" pages
       /\ listing_ends (build_capterra_url path (1 + Z.of_nat (length pages)))
                       "section.review-card"
       /\ (forall fuel, (length pages < fuel)%nat ->
            fst (scrape_capterra requests_get fuel company start_d end_d)
            = Some (Ok (List.filter (passes start_d end_d)
                          (List.map (capterra_review company)
                                    (concat pages)))))
       /\ (forall fuel, (fuel <= length pages)%nat ->
            fst (scrape_capterra requests_get fuel company start_d end_d)
            = None))
  /\ ((forall i, (i <= k)%nat ->
        page_answers (saas_base_url company +:+ pretty (1 + Z.of_nat i))) ->
      (forall i cards, (i <= k)%nat ->
         page_cards (saas_base_url company +:+ pretty (1 + Z.of_nat i))
                    ".review-card" cards ->
         saas_readable company start_d end_d cards) ->
      listing_ends (saas_base_url company +:+ pretty (1 + Z.of_nat k))
                   ".review-card" ->
      exists pages reviews,
        (length pages <= k)%nat
        /\ listing (fun page => saas_base_url company +:+ pretty page)
                   ".review-card" pages
        /\ listing_ends
             (saas_base_url company +:+ pretty (1 + Z.of_nat (length pages)))
             ".review-card"
        /\ run_pages (saas_cards company start_d end_d) [] pages = Ok reviews
        /\ (forall fuel, (length pages < fuel)%nat ->
             fst (scrape_saas_example requests_get fuel company start_d end_d)
             = Some (Ok reviews))
        /\ (forall fuel, (fuel <= length pages)%nat ->
             fst (scrape_saas_example requests_get fuel company start_d end_d)
             = None)).
Proof.
  split; [|split].
  - intros slug Hslug Hans Hend. apply listing_ends_fetch in Hend.
    destruct (listing_until_end _ _ k 1 Hans Hend) as (pages & Hlen & Hs & He).
    apply shows_listing in Hs. exists pages.
    unfold scrape_g2. rewrite Hslug.
    split; [assumption|split; [assumption|]].
    split; [now apply fetch_none_listing_ends|].
    now apply g2_over_listing.
  - intros path Hpath Hans Hend. apply listing_ends_fetch in Hend.
    destruct (listing_until_end _ _ k 1 Hans Hend) as (pages & Hlen & Hs & He).
    apply shows_listing in Hs. exists pages.
    unfold scrape_capterra. rewrite Hpath.
    split; [assumption|split; [assumption|]].
    split; [now apply fetch_none_listing_ends|].
    now apply capterra_over_listing.
  - intros Hans Hread Hend. apply listing_ends_fetch in Hend.
    destruct (listing_until_end
                (fun page => saas_base_url company +:+ pretty page) _ k 1
                Hans Hend) as (pages & Hlen & Hs & He).
    apply shows_listing in Hs.
    destruct (run_pages_readable (saas_cards company start_d end_d) pages)
      with (acc := @nil Review) as [reviews Hrun].
    { intros i cards Hi. apply (Hread i).
      - apply lookup_lt_Some in Hi. lia.
      - now apply Hs. }
    exists pages, reviews.
    split; [assumption|split; [assumption|]].
    split; [now apply fetch_none_listing_ends|].
    split; [assumption|].
    now apply saas_over_listing.
Qed.


(** ** Exceptions and the trace *)

Lemma run_pages_app_raises body pages cards :
  (forall acc, exists e, body acc cards = Raise e) ->
  forall acc, exists e, run_pages body acc (pages ++ [cards]) = Raise e.
Proof.
  intros Hbad. induction pages as [|cs pages IH]; intros acc.
  - cbn [app run_pages]. destruct (Hbad acc) as [e ->]. now exists e.
  - cbn [app run_pages]. destruct (body acc cs) as [acc1|e]; [apply IH|].
    now exists e.
Qed.

Lemma paginate_no_write url_of banner selector body fuel :
  forall page acc,
  forallb (fun ev => negb (is_write ev))
    (snd (paginate requests_get url_of banner selector body fuel page acc))
  = true.
Proof.
  induction fuel as [|fuel IH]; intros page acc; [reflexivity|].
  cbn [paginate].
  destruct (fetch_cards _ _) as [[cards|]|e]; try reflexivity.
  destruct (body acc cards) as [acc1|e]; [|reflexivity].
  specialize (IH (page + 1) acc1).
  destruct (paginate _ _ _ _ _ _ _ _) as [r io']. exact IH.
Qed.

Lemma no_write_not_in (io : trace) name content :
  forallb (fun ev => negb (is_write ev)) io = true ->
  ~ In (WriteFile name content) io.
Proof.
  intros H Hin. rewrite forallb_forall in H. now specialize (H _ Hin).
Qed.

(** ** The generic SaaS cards *)

Lemma saas_card_missing card :
  saas_missing card ->
  exists e, forall company start_d end_d acc,
    saas_card company start_d end_d acc card = Raise e.
Proof.
  intros Hm. unfold saas_card, saas_missing in *.
  destruct (select_one card ".review-title") as [t|]; [|eexists; reflexivity].
  destruct (select_one card ".review-date") as [d|]; [|eexists; reflexivity].
  destruct (select_one card ".review-rating") as [r|]; [|eexists; reflexivity].
  cbn [get_text_of subscript result_bind].
  destruct (tag_get r "data-score") as [score|]; [|eexists; reflexivity].
  cbn [result_bind]. unfold float_.
  destruct (float_of_str score) as [x|]; [|eexists; reflexivity].
  cbn [result_bind].
  destruct (select_one card ".reviewer-name") as [n|]; [|eexists; reflexivity].
  destruct (select_one card ".review-body") as [b|]; [|eexists; reflexivity].
  exfalso. now destruct Hm as [?|[?|[?|[?|?]]]].
Qed.

Lemma saas_cards_raise company start_d end_d cards card :
  In card cards -> saas_missing card ->
  forall acc, exists e, saas_cards company start_d end_d acc cards = Raise e.
Proof.
  intros Hin Hm. apply saas_card_missing in Hm as [e He].
  induction cards as [|c cards IH]; intros acc; [destruct Hin|].
  cbn [saas_cards].
  destruct Hin as [->|Hin].
  - rewrite He. now exists e.
  - destruct (saas_card company start_d end_d acc c) as [acc1|e1];
      [apply (IH Hin)|now exists e1].
Qed.

Lemma main_saas fuel company start_d end_d :
  main requests_get write_file fuel company start_d end_d "saas"
  = match scrape_saas_example requests_get fuel company start_d end_d with
    | (None, io) => (None, io)
    | (Some (Raise e), io) => (Some (Raise e), io)
    | (Some (Ok reviews), io) =>
        (Some (fst (write_json write_file company "saas" reviews)),
         io ++ snd (write_json write_file company "saas" reviews))
    end.
Proof.
  unfold main. cbn [String.eqb Ascii.eqb Bool.eqb].
  destruct (scrape_saas_example _ _ _ _ _) as [[[reviews|e]|] io]; try reflexivity.
  now destruct (write_json _ _ _ _) as [w io'].
Qed.

Lemma main_g2 fuel company start_d end_d :
  main requests_get write_file fuel company start_d end_d "g2"
  = match scrape_g2 requests_get fuel company start_d end_d with
    | (None, io) => (None, io)
    | (Some (Raise e), io) => (Some (Raise e), io)
    | (Some (Ok reviews), io) =>
        (Some (fst (write_json write_file company "g2" reviews)),
         io ++ snd (write_json write_file company "g2" reviews))
    end.
Proof.
  unfold main. cbn [String.eqb Ascii.eqb Bool.eqb].
  destruct (scrape_g2 _ _ _ _ _) as [[[reviews|e]|] io]; try reflexivity.
  now destruct (write_json _ _ _ _) as [w io'].
Qed.

Lemma main_capterra fuel company start_d end_d :
  main requests_get write_file fuel company start_d end_d "capterra"
  = match scrape_capterra requests_get fuel company start_d end_d with
    | (None, io) => (None, io)
    | (Some (Raise e), io) => (Some (Raise e), io)
    | (Some (Ok reviews), io) =>
        (Some (fst (write_json write_file company "capterra" reviews)),
         io ++ snd (write_json write_file company "capterra" reviews))
    end.
Proof.
  unfold main. cbn [String.eqb Ascii.eqb Bool.eqb].
  destruct (scrape_capterra _ _ _ _ _) as [[[reviews|e]|] io]; try reflexivity.
  now destruct (write_json _ _ _ _) as [w io'].
Qed.

(** C6.  In the generic SaaS extractor a card that lacks its title,
    date, rating, reviewer-name or body element is not defaulted: reading
    it raises, and a run that reaches such a card ends with an exception
    and writes no file. *)
Theorem saas_missing_element_is_fatal (company : string)
    (start_d end_d : Datetime.date) (pages : list (list Tag))
    (cards : list Tag) (card : Tag) (fuel : nat) :
  listing (fun page => saas_base_url company +:+ pretty page) ".review-card"
          (pages ++ [cards]) ->
  In card cards -> saas_missing card ->
  (length pages < fuel)%nat ->
  (exists e, forall acc,
     saas_card company start_d end_d acc card = Raise e)
  /\ exists e,
      fst (scrape_saas_example requests_get fuel company start_d end_d)
      = Some (Raise e)
      /\ fst (main requests_get write_file fuel company start_d end_d "saas")
         = Some (Raise e)
      /\ forall name content,
           ~ In (WriteFile name content)
                (snd (main requests_get write_file fuel company start_d end_d
                           "saas")).
Proof.
  intros Hl Hin Hm Hfuel. split.
  { destruct (saas_card_missing _ Hm) as [e He]. exists e. intros acc. apply He. }
  destruct (run_pages_app_raises (saas_cards company start_d end_d) pages cards
              (saas_cards_raise company start_d end_d cards card Hin Hm) [])
    as [e He].
  exists e.
  assert (fst (scrape_saas_example requests_get fuel company start_d end_d)
          = Some (Raise e)) as Hscrape.
  { unfold scrape_saas_example. rewrite saas_loop_paginate.
    apply (loop_raises_in_pages _ _ _ _ (pages ++ [cards]));
      [now apply listing_shows|assumption|].
    rewrite length_app. cbn [length]. lia. }
  split; [assumption|].
  rewrite main_saas.
  pose proof (paginate_no_write
    (fun page => saas_base_url company +:+ pretty page)
    (fun page => "[SAAS] Fetching page " +:+ pretty page +:+ ": "
                   +:+ (saas_base_url company +:+ pretty page))
    ".review-card" (saas_cards company start_d end_d) fuel 1 []) as Hio.
  rewrite <- saas_loop_paginate in Hio.
  fold (scrape_saas_example requests_get fuel company start_d end_d) in Hio.
  destruct (scrape_saas_example _ _ _ _ _) as [r io].
  cbn [fst snd] in *. subst r. cbn [fst snd]. split; [reflexivity|].
  intros name content. now apply no_write_not_in.
Qed.



Lemma g2_loop_no_write fuel slug company start_d end_d page acc :
  forallb (fun ev => negb (is_write ev))
    (snd (g2_loop requests_get fuel slug company start_d end_d page acc))
  = true.
Proof. rewrite g2_loop_paginate. apply paginate_no_write. Qed.

Lemma capterra_loop_no_write fuel path company start_d end_d page acc :
  forallb (fun ev => negb (is_write ev))
    (snd (capterra_loop requests_get fuel path company start_d end_d page acc))
  = true.
Proof. rewrite capterra_loop_paginate. apply paginate_no_write. Qed.

Lemma g2_loop_raises slug company start_d end_d pages fuel err :
  listing (build_g2_url slug) ".paper.paper--white.paper--box" pages ->
  requests_get (build_g2_url slug (1 + Z.of_nat (length pages))) = Raise err ->
  (length pages < fuel)%nat ->
  fst (g2_loop requests_get fuel slug company start_d end_d 1 [])
  = Some (Raise err).
Proof.
  intros Hl Herr Hfuel. rewrite g2_loop_paginate.
  eapply (loop_raises_fetch _ _ _ _ _ pages);
    [now apply listing_shows| | |assumption].
  - now rewrite (run_pages_filter_map _ _ _
                   (g2_card_review company start_d end_d)).
  - unfold fetch_cards. now rewrite Herr.
Qed.

Lemma capterra_loop_raises path company start_d end_d pages fuel err :
  listing (build_capterra_url path) "section.review-card" pages ->
  requests_get (build_capterra_url path (1 + Z.of_nat (length pages)))
  = Raise err ->
  (length pages < fuel)%nat ->
  fst (capterra_loop requests_get fuel path company start_d end_d 1 [])
  = Some (Raise err).
Proof.
  intros Hl Herr Hfuel. rewrite capterra_loop_paginate.
  eapply (loop_raises_fetch _ _ _ _ _ pages);
    [now apply listing_shows| | |assumption].
  - now rewrite (run_pages_filter_map _ _ _
                   (capterra_card_review company start_d end_d)).
  - unfold fetch_cards. now rewrite Herr.
Qed.

(** C7, as the code has it.  A company whose lower-cased name has no
    entry in the G2 (Capterra) mapping makes the run end with a
    [ValueError] before any request and with nothing written.  For a
    company that has an entry, a status other than 200 does not abort
    the run: the reviews read so far are handed to the output writer,
    and the run ends as the writer does; but an exception raised by the
    request itself is not caught: it aborts the run, and nothing is
    written.  The generic SaaS extractor has no mapping and
    requests page 1 for every company. *)
Theorem configuration_gap_aborts_the_run (company : string)
    (start_d end_d : Datetime.date) (pages : list (list Tag)) (fuel : nat) :
  ((g2_slug_map !! PyStr.lower company = None ->
    main requests_get write_file fuel company start_d end_d "g2"
    = (Some (Raise (ValueError
         ("No G2 slug configured for '" +:+ company +:+ "'. "
          +:+ "Update slug_map in scrape_g2()."))), []))
   /\ (forall slug,
        g2_slug_map !! PyStr.lower company = Some slug ->
        listing (build_g2_url slug) ".paper.paper--white.paper--box" pages ->
        (length pages < fuel)%nat ->
        (page_not_ok (build_g2_url slug (1 + Z.of_nat (length pages))) ->
         exists io,
           main requests_get write_file fuel company start_d end_d "g2"
           = (Some (fst (write_json write_file company "g2"
                           (List.filter (passes start_d end_d)
                              (List.map (g2_review company) (concat pages))))),
              io ++ snd (write_json write_file company "g2"
                           (List.filter (passes start_d end_d)
                              (List.map (g2_review company)
                                        (concat pages))))))
        /\ (forall err,
              requests_get (build_g2_url slug (1 + Z.of_nat (length pages)))
              = Raise err ->
              fst (main requests_get write_file fuel company start_d end_d "g2")
              = Some (Raise err)
              /\ forall name content,
                   ~ In (WriteFile name content)
                        (snd (main requests_get write_file fuel company start_d end_d
                                   "g2")))))
  /\ ((capterra_slug_map !! PyStr.lower company = None ->
       main requests_get write_file fuel company start_d end_d "capterra"
       = (Some (Raise (ValueError
            ("No Capterra path configured for '" +:+ company +:+ "'. "
             +:+ "Update slug_map in scrape_capterra()."))), []))
      /\ (forall path,
           capterra_slug_map !! PyStr.lower company = Some path ->
           listing (build_capterra_url path) "section.review-card" pages ->
           (length pages < fuel)%nat ->
           (page_not_ok
              (build_capterra_url path (1 + Z.of_nat (length pages))) ->
            exists io,
              main requests_get write_file fuel company start_d end_d
                   "capterra"
              = (Some (fst (write_json write_file company "capterra"
                              (List.filter (passes start_d end_d)
                                 (List.map (capterra_review company)
                                           (concat pages))))),
                 io ++ snd (write_json write_file company "capterra"
                              (List.filter (passes start_d end_d)
                                 (List.map (capterra_review company)
                                           (concat pages))))))
           /\ (forall err,
                 requests_get
                   (build_capterra_url path (1 + Z.of_nat (length pages)))
                 = Raise err ->
                 fst (main requests_get write_file fuel company start_d end_d "capterra")
                 = Some (Raise err)
                 /\ forall name content,
                      ~ In (WriteFile name content)
                           (snd (main requests_get write_file fuel company start_d end_d
                                      "capterra")))))
  /\ (exists line io,
        snd (main requests_get write_file (S fuel) company start_d end_d "saas")
        = Print line :: Get (saas_base_url company +:+ "1") 20 :: io).
Proof.
  split; [split|split; [split|]].
  - intros Hnone. rewrite main_g2. unfold scrape_g2. now rewrite Hnone.
  - intros slug Hslug Hl Hfuel. rewrite main_g2. unfold scrape_g2.
    rewrite Hslug. split.
    + intros Hend.
      pose proof (g2_loop_result slug company start_d end_d pages fuel Hl
                    (page_not_ok_fetch _ _ Hend) Hfuel) as Hres.
      destruct (g2_loop _ _ _ _ _ _ _ _) as [r io]. cbn [fst] in Hres.
      subst r. now exists io.
    + intros err Herr.
      pose proof (g2_loop_raises slug company start_d end_d pages fuel err
                    Hl Herr Hfuel) as Hres.
      pose proof (g2_loop_no_write fuel slug company start_d end_d 1 [])
        as Hio.
      destruct (g2_loop _ _ _ _ _ _ _ _) as [r io]. cbn [fst snd] in *.
      subst r. cbn [fst snd]. split; [reflexivity|].
      intros name content. now apply no_write_not_in.
  - intros Hnone. rewrite main_capterra. unfold scrape_capterra.
    now rewrite Hnone.
  - intros path Hpath Hl Hfuel. rewrite main_capterra. unfold scrape_capterra.
    rewrite Hpath. split.
    + intros Hend.
      pose proof (capterra_loop_result path company start_d end_d pages fuel
                    Hl (page_not_ok_fetch _ _ Hend) Hfuel) as Hres.
      destruct (capterra_loop _ _ _ _ _ _ _ _) as [r io]. cbn [fst] in Hres.
      subst r. now exists io.
    + intros err Herr.
      pose proof (capterra_loop_raises path company start_d end_d pages fuel
                    err Hl Herr Hfuel) as Hres.
      pose proof (capterra_loop_no_write fuel path company start_d end_d 1 [])
        as Hio.
      destruct (capterra_loop _ _ _ _ _ _ _ _) as [r io]. cbn [fst snd] in *.
      subst r. cbn [fst snd]. split; [reflexivity|].
      intros name content. now apply no_write_not_in.
  - rewrite main_saas. unfold scrape_saas_example. cbn [saas_loop].
    change (pretty 1) with "1".
    destruct (requests_get _) as [resp|e]; [|eauto].
    destruct (negb _); [eauto|].
    destruct (BeautifulSoup _) as [soup|e]; [|eauto].
    destruct (select _ _) as [|c cs];
      [destruct (write_json _ _ _ _) as [w io']; eauto|].
    destruct (saas_cards _ _ _ _ _) as [acc|e]; [|eauto].
    destruct (saas_loop _ _ _ _ _ _ _ _) as [[[rs|e]|] io']; eauto.
Qed.

(** C10.  The Capterra URL of page 1 is the base URL with no query
    string, unlike what appending the page number would give; for every
    later page [?page=<n>] is appended.  The G2 URL and the URL the
    generic SaaS loop requests carry the page number on every page, page
    1 included. *)
Theorem capterra_first_page_has_no_query (path slug company : string)
    (page : Z) (fuel : nat) (start_d end_d : Datetime.date)
    (acc : list Review) :
  build_capterra_url path 1
  = "https://www.capterra.com/p/" +:+ path +:+ "/reviews/"
  /\ build_capterra_url path 1
     <> ("https://www.capterra.com/p/" +:+ path +:+ "/reviews/")
          +:+ "?page=" +:+ pretty 1
  /\ (1 < page ->
      build_capterra_url path page
      = ("https://www.capterra.com/p/" +:+ path +:+ "/reviews/")
          +:+ "?page=" +:+ pretty page)
  /\ build_g2_url slug page
     = "https://www.g2.com/products/" +:+ slug +:+ "/reviews?page="
         +:+ pretty page
  /\ build_g2_url slug 1
     = "https://www.g2.com/products/" +:+ slug +:+ "/reviews?page=1"
  /\ exists line io,
       snd (saas_loop requests_get (S fuel) (saas_base_url company) company
                      start_d end_d page acc)
       = Print line
         :: Get ("https://example-saas-reviews.com/" +:+ PyStr.lower company
                   +:+ "/reviews?page=" +:+ pretty page) 20
         :: io.
Proof.
  split; [reflexivity|]. split; [|split; [|split; [reflexivity|split;
    [reflexivity|]]]].
  - unfold build_capterra_url. cbn [Z.eqb Pos.eqb]. intros H.
    apply (f_equal String.length) in H. rewrite !length_append in H.
    cbn [String.length] in H. lia.
  - intros Hpage. unfold build_capterra_url.
    now destruct (Z.eqb_spec page 1) as [->|_]; [lia|].
  - cbn [saas_loop].
    assert (saas_base_url company +:+ pretty page
            = "https://example-saas-reviews.com/" +:+ PyStr.lower company
                +:+ "/reviews?page=" +:+ pretty page) as <-.
    { unfold saas_base_url. now rewrite !append_assoc. }
    destruct (requests_get _) as [resp|e]; [|eauto].
    destruct (negb _); [eauto|].
    destruct (BeautifulSoup _) as [soup|e]; [|eauto].
    destruct (select _ _) as [|c cs]; [eauto|].
    destruct (saas_cards _ _ _ _ _) as [acc1|e]; [|eauto].
    destruct (saas_loop _ _ _ _ _ _ _ _) as [[[rs|e]|] io']; eauto.
Qed.

(** ** The output writer *)

Lemma slug_char_lower c :
  (if Ascii.eqb (PyStr.lower_char c) " " then "_"%char else PyStr.lower_char c)
  = (if Ascii.eqb c " " then "_"%char else PyStr.lower_char c).
Proof. destruct c as [[] [] [] [] [] [] [] []]; reflexivity. Qed.

Lemma get_replace_lower s : forall i c rest,
  String.get i s = Some c ->
  String.get i (PyStr.replace " " "_" (PyStr.lower s) +:+ rest)
  = Some (if Ascii.eqb c " " then "_"%char else PyStr.lower_char c).
Proof.
  induction s as [|a s IH]; intros i c rest H; [discriminate|].
  cbn [PyStr.lower PyStr.replace]. rewrite append_cons.
  destruct i as [|i]; cbn [String.get] in *.
  - inversion H; subst. now rewrite slug_char_lower.
  - now apply IH.
Qed.

(** C8.  The output writer writes one file, named by the lower-cased
    company with every space replaced by an underscore, followed by
    [_<source>_reviews.json]: that is the file it opens, whether or not
    the file system lets it; when it does, the file is written and the
    writer prints one line and returns; "Acme Corp" and "capterra" give
    [acme_corp_capterra_reviews.json]. *)
Theorem output_file_name (company source : string) (reviews : list Review) :
  (exists content line,
     write_json write_file company source reviews
     = match write_file (PyStr.replace " " "_" (PyStr.lower company) +:+ "_"
                           +:+ source +:+ "_reviews.json") content with
       | Ok _ =>
           (Ok tt,
            [WriteFile (PyStr.replace " " "_" (PyStr.lower company) +:+ "_"
                          +:+ source +:+ "_reviews.json") content;
             Print line])
       | Raise e => (Raise e, [])
       end)
  /\ (forall i c,
        String.get i company = Some c ->
        String.get i (fname company source)
        = Some (if Ascii.eqb c " " then "_"%char else PyStr.lower_char c))
  /\ fname "Acme Corp" "capterra" = "acme_corp_capterra_reviews.json".
Proof.
  split; [|split].
  - unfold write_json, fname. eauto.
  - intros i c Hc. unfold fname. now apply get_replace_lower.
  - reflexivity.
Qed.


(** C9, as the code has it.  For a list of reviews whose ratings are
    floats that equal themselves (every float but NaN) and whose text is
    read back by [float] as the same float, the text the output writer
    hands to the file, which is what the file holds when the file system
    accepts it, parses back to an array with one object per review, in
    the same order, each with exactly the keys
    [title, date, rating, reviewer_name, review_text, source, company]
    and values equal to the review's fields. *)
Theorem written_json_round_trip (co src : string)
    (reviews : list Review) :
  Forall (fun r => reads_back (rating r)) reviews ->
  exists content items,
    (exists line,
       write_json write_file co src reviews
       = match write_file (fname co src) content with
         | Ok _ => (Ok tt, [WriteFile (fname co src) content; Print line])
         | Raise e => (Raise e, [])
         end)
    /\ Json.loads content = Some (Json.JArr items)
    /\ items
       = List.map (fun r =>
           Json.JObj
             [("title", Json.JStr (title r));
              ("date", Json.JStr (date r));
              ("rating", Json.JFloat (rating r));
              ("reviewer_name", Json.JStr (reviewer_name r));
              ("review_text", Json.JStr (review_text r));
              ("source", Json.JStr (source r));
              ("company", Json.JStr (company r))]) reviews
    /\ Forall2 (fun v r => same_fields v r = true) items reviews.
Proof.
  intros Hok. do 2 eexists.
  split; [|split; [|split; [reflexivity|]]].
  - unfold write_json. eexists. reflexivity.
  - apply loads_dumps_reviews.
    eapply Forall_impl; [exact Hok|].
    intros r Hr. now apply reads_back_round_trips.
  - induction Hok as [|r rs [Heq _] _ IH]; constructor; [|exact IH].
    unfold same_fields. cbn [String.eqb Ascii.eqb Bool.eqb andb].
    now rewrite !String.eqb_refl, Heq.
Qed.

End Extractors.

(* ================================================================== *)
(** * Further properties of the date filter *)
(* ================================================================== *)

Module FilterFacts.
Import PyStr Datetime Strptime StrptimeSpec StrptimeFacts FilterSpec.

Lemma in_range_loop_first_parse fmts s a b :
  in_range_loop fmts s a b
  = match first_parse fmts s with
    | Some d => leb a d && leb d b
    | None => true
    end.
Proof.
  induction fmts as [|fmt fmts IH]; [reflexivity|].
  cbn [in_range_loop first_parse].
  now destruct (strptime (strip s) fmt).
Qed.

Lemma first_parse_none fmts s :
  first_parse fmts s = None
  <-> forall fmt, In fmt fmts -> strptime (strip s) fmt = None.
Proof.
  induction fmts as [|fmt fmts IH]; cbn [first_parse].
  - split; [intros _ fmt []|reflexivity].
  - destruct (strptime (strip s) fmt) as [d|] eqn:E.
    + split; [discriminate|]. intros H.
      now rewrite (H fmt (or_introl eq_refl)) in E.
    + rewrite IH. split.
      * intros H f [<-|Hin]; [assumption|now apply H].
      * intros H f Hin. apply H. now right.
Qed.

Lemma date_le_trans a b c : le a b -> le b c -> le a c.
Proof. unfold le. lia. Qed.

Lemma in_range_wider date_str a b a' b' :
  le a' a -> le b b' ->
  in_range date_str a b = true -> in_range date_str a' b' = true.
Proof.
  intros Ha Hb. unfold in_range. rewrite !in_range_loop_first_parse.
  destruct (first_parse date_formats date_str) as [d|]; [|reflexivity].
  rewrite !andb_true_iff, !date_leb_le. intros [H1 H2]. split.
  - now apply (date_le_trans _ a).
  - now apply (date_le_trans _ b).
Qed.

Lemma lstrip_blank pre s : blank pre = true -> lstrip (pre +:+ s) = lstrip s.
Proof.
  induction pre as [|c pre IH]; [reflexivity|].
  cbn [blank]. intros [Hc Hb]%andb_prop. rewrite append_cons. cbn [lstrip].
  rewrite Hc. now apply IH.
Qed.

Lemma rstrip_blank_nil post : blank post = true -> rstrip post = EmptyString.
Proof.
  induction post as [|c post IH]; [reflexivity|].
  cbn [blank rstrip]. intros [Hc Hb]%andb_prop. now rewrite IH, Hc.
Qed.

Lemma rstrip_blank s post : blank post = true -> rstrip (s +:+ post) = rstrip s.
Proof.
  intros Hb. induction s as [|c s IH].
  - rewrite append_nil. now apply rstrip_blank_nil.
  - rewrite append_cons. cbn [rstrip]. now rewrite IH.
Qed.

Lemma lstrip_blank_nil post : blank post = true -> lstrip post = EmptyString.
Proof.
  induction post as [|c post IH]; [reflexivity|].
  cbn [blank lstrip]. intros [Hc Hb]%andb_prop. now rewrite Hc, IH.
Qed.

Lemma strip_blank pre s post :
  blank pre = true -> blank post = true ->
  strip (pre +:+ s +:+ post) = strip s.
Proof.
  intros Hpre Hpost. unfold strip. rewrite lstrip_blank by assumption.
  induction s as [|c s IH].
  - rewrite append_nil, lstrip_blank_nil by assumption. reflexivity.
  - rewrite append_cons. cbn [lstrip]. destruct (isspace c); [exact IH|].
    now rewrite <- append_cons, rstrip_blank.
Qed.

End FilterFacts.

(** ** Letter case *)

Module CaseFacts.
Import PyStr Datetime Strptime StrptimeSpec StrptimeFacts FilterSpec.

Lemma lower_char_idem c : lower_char (lower_char c) = lower_char c.
Proof. destruct c as [[] [] [] [] [] [] [] []]; reflexivity. Qed.

Lemma isspace_lower_char c : isspace (lower_char c) = isspace c.
Proof. destruct c as [[] [] [] [] [] [] [] []]; reflexivity. Qed.

Lemma digit_val_lower_char c : digit_val (lower_char c) = digit_val c.
Proof. destruct c as [[] [] [] [] [] [] [] []]; reflexivity. Qed.

Lemma eqb_space_lower_char c : Ascii.eqb " " (lower_char c) = Ascii.eqb " " c.
Proof. destruct c as [[] [] [] [] [] [] [] []]; reflexivity. Qed.

Lemma lower_app a b : lower (a +:+ b) = lower a +:+ lower b.
Proof.
  induction a as [|c a IH]; [reflexivity|].
  rewrite append_cons. cbn [lower]. now rewrite IH, append_cons.
Qed.

Lemma lower_idem s : lower (lower s) = lower s.
Proof.
  induction s as [|c s IH]; [reflexivity|].
  cbn [lower]. now rewrite lower_char_idem, IH.
Qed.

Lemma flat_map_lower {A B} (gA : A -> A) (gB : B -> B)
    (f f' : A * string -> list (B * string)) l :
  (forall x, f' (lower_match gA x) = List.map (lower_match gB) (f x)) ->
  flat_map f' (List.map (lower_match gA) l)
  = List.map (lower_match gB) (flat_map f l).
Proof.
  intros H. induction l as [|x l IH]; [reflexivity|].
  cbn [List.map flat_map]. now rewrite List.map_app, IH, H.
Qed.

Lemma ci_bind {A B} (gA : A -> A) (gB : B -> B) (m : matcher A)
    (k k' : A -> matcher B) :
  ci gA m ->
  (forall a s, k' (gA a) (lower s) = List.map (lower_match gB) (k a s)) ->
  forall s, re_bind m k' (lower s)
            = List.map (lower_match gB) (re_bind m k s).
Proof.
  intros Hm Hk s. unfold re_bind. rewrite Hm.
  apply flat_map_lower. intros [a r]. apply Hk.
Qed.

Lemma ci_alt {A} (g : A -> A) m1 m2 : ci g m1 -> ci g m2 -> ci g (re_alt m1 m2).
Proof.
  intros H1 H2 s. unfold re_alt. now rewrite H1, H2, List.map_app.
Qed.

Lemma ci_char p :
  (forall c, p (lower_char c) = p c) -> ci lower (re_char p).
Proof.
  intros H [|c r]; [reflexivity|]. cbn [lower re_char]. rewrite H.
  now destruct (p c).
Qed.

Lemma ci_seq m1 m2 : ci lower m1 -> ci lower m2 -> ci lower (re_seq m1 m2).
Proof.
  intros H1 H2. unfold re_seq. intros s.
  apply (ci_bind lower lower m1); [assumption|].
  intros t1 s1. apply (ci_bind lower lower m2); [assumption|].
  intros t2 s2. unfold re_ret, lower_match. cbn. now rewrite lower_app.
Qed.

Lemma ci_lit c : ci lower (re_lit c).
Proof. apply ci_char. intros x. now rewrite lower_char_idem. Qed.

Lemma ci_word w : ci lower (re_word w).
Proof.
  induction w as [|c w IH]; [now intros s|].
  cbn [re_word]. apply ci_seq; [apply ci_lit|assumption].
Qed.

Lemma ci_range lo hi : ci lower (re_range lo hi).
Proof. apply ci_char. intros c. now rewrite digit_val_lower_char. Qed.

Lemma ci_digit : ci lower re_digit.
Proof.
  apply ci_char. intros c. unfold isdigit. now rewrite digit_val_lower_char.
Qed.

Lemma ci_space_star s :
  re_space_star (lower s) = List.map (lower_match id) (re_space_star s).
Proof.
  induction s as [|c r IH]; [reflexivity|].
  cbn [lower re_space_star]. rewrite isspace_lower_char.
  destruct (isspace c); [|reflexivity].
  now rewrite IH, List.map_app.
Qed.

Lemma ci_space_plus : ci id re_space_plus.
Proof.
  intros [|c r]; [reflexivity|]. cbn [lower re_space_plus].
  rewrite isspace_lower_char. destruct (isspace c); [|reflexivity].
  apply ci_space_star.
Qed.

Lemma ci_seqToRE l : ci lower (seqToRE l).
Proof.
  unfold seqToRE. induction (sort_by_len l) as [|w ws IH]; [now intros s|].
  cbn [foldr]. apply ci_alt; [apply ci_word|assumption].
Qed.

Lemma ci_d : ci lower re_d.
Proof.
  unfold re_d.
  repeat first [apply ci_alt | apply ci_seq | apply ci_range | apply ci_digit].
  apply ci_char, eqb_space_lower_char.
Qed.

Lemma ci_m : ci lower re_m.
Proof.
  unfold re_m. repeat first [apply ci_alt | apply ci_seq | apply ci_range].
Qed.

Lemma ci_Y : ci lower re_Y.
Proof. unfold re_Y. repeat first [apply ci_seq | apply ci_digit]. Qed.

Lemma ci_directive c : ci lower (directive c).
Proof.
  unfold directive.
  repeat match goal with |- ci _ (if ?b then _ else _) => destruct b end;
    [apply ci_d|apply ci_m|apply ci_Y|apply ci_seqToRE..|now intros s].
Qed.

Lemma pattern_unfold c fmt :
  pattern (String c fmt)
  = if Ascii.eqb c "%" then
      match fmt with
      | String dir fmt'' =>
          re_bind (directive dir) (fun txt =>
          re_bind (pattern fmt'') (fun found =>
          re_ret ((dir, txt) :: found)))
      | EmptyString => re_fail
      end
    else if isspace c then
      match fmt with
      | String c' _ =>
          if isspace c' then pattern fmt
          else re_bind re_space_plus (fun _ => pattern fmt)
      | EmptyString => re_bind re_space_plus (fun _ => pattern fmt)
      end
    else re_bind (re_lit c) (fun _ => pattern fmt).
Proof. destruct fmt; reflexivity. Qed.

Lemma ci_pattern_upto (n : nat) : forall fmt,
  (String.length fmt <= n)%nat -> ci lower_found (pattern fmt).
Proof.
  induction n as [|n IH]; intros fmt Hn.
  - destruct fmt; [now intros s|cbn [String.length] in Hn; lia].
  - destruct fmt as [|c fmt]; [now intros s|].
    cbn [String.length] in Hn. rewrite pattern_unfold.
    destruct (Ascii.eqb c "%").
    + destruct fmt as [|dir fmt'']; [now intros s|].
      cbn [String.length] in Hn. intros s.
      apply (ci_bind lower lower_found (directive dir));
        [apply ci_directive|].
      intros txt s1.
      apply (ci_bind lower_found lower_found (pattern fmt''));
        [apply IH; lia|].
      now intros found s2.
    + assert (ci lower_found (pattern fmt)) as Hfmt by (apply IH; lia).
      assert (ci lower_found (re_bind re_space_plus (fun _ => pattern fmt)))
        as Hsp.
      { intros s. apply (ci_bind id lower_found re_space_plus);
          [apply ci_space_plus|]. intros _ s1. apply Hfmt. }
      destruct (isspace c).
      * destruct fmt as [|c' fmt']; [exact Hsp|].
        destruct (isspace c'); [exact Hfmt|exact Hsp].
      * intros s. apply (ci_bind lower lower_found (re_lit c));
          [apply ci_lit|]. intros _ s1. apply Hfmt.
Qed.

Lemma ci_pattern fmt : ci lower_found (pattern fmt).
Proof. now apply (ci_pattern_upto (String.length fmt)). Qed.

Lemma lstrip_lower s : lstrip (lower s) = lower (lstrip s).
Proof.
  induction s as [|c s IH]; [reflexivity|].
  cbn [lower lstrip]. rewrite isspace_lower_char.
  now destruct (isspace c).
Qed.

Lemma rstrip_lower s : rstrip (lower s) = lower (rstrip s).
Proof.
  induction s as [|c s IH]; [reflexivity|].
  cbn [lower rstrip]. rewrite IH, isspace_lower_char.
  destruct (rstrip s); [|reflexivity]. now destruct (isspace c).
Qed.

Lemma strip_lower s : strip (lower s) = lower (strip s).
Proof. unfold strip. now rewrite lstrip_lower, rstrip_lower. Qed.

Lemma digits_value_lower s : forall acc,
  digits_value acc (lower s) = digits_value acc s.
Proof.
  induction s as [|c s IH]; intros acc; [reflexivity|].
  cbn [lower digits_value]. rewrite digit_val_lower_char.
  now destruct (digit_val c).
Qed.

Lemma int_lower s : int (lower s) = int s.
Proof.
  unfold int. rewrite strip_lower.
  destruct (strip s) as [|c t]; [reflexivity|].
  apply (digits_value_lower (String c t)).
Qed.

Lemma convert_lower ymd key txt :
  convert ymd (key, lower txt) = convert ymd (key, txt).
Proof.
  unfold convert. destruct ymd as [[y m] d].
  now rewrite int_lower, lower_idem.
Qed.

Lemma convert_all_lower found : forall ymd,
  convert_all ymd (lower_found found) = convert_all ymd found.
Proof.
  induction found as [|[key txt] found IH]; intros ymd; [reflexivity|].
  cbn [lower_found List.map convert_all fst snd]. rewrite convert_lower.
  destruct (convert ymd (key, txt)) as [ymd'|]; [|reflexivity].
  apply IH.
Qed.

Lemma strptime_lower s fmt : strptime (lower s) fmt = strptime s fmt.
Proof.
  unfold strptime. rewrite ci_pattern.
  destruct (pattern fmt s) as [|[found rest] l]; [reflexivity|].
  cbn [List.map lower_match fst snd].
  destruct rest as [|c rest]; [|reflexivity].
  cbn [lower]. now rewrite convert_all_lower.
Qed.

Lemma in_range_lower s a b : in_range (lower s) a b = in_range s a b.
Proof.
  unfold in_range. generalize date_formats as fmts.
  induction fmts as [|fmt fmts IH]; [reflexivity|].
  cbn [in_range_loop]. now rewrite strip_lower, strptime_lower, IH.
Qed.

End CaseFacts.

(** ** Dates written out *)

Module DateTextFacts.
Import PyStr Datetime Strptime StrptimeSpec StrptimeFacts FilterSpec.

Lemma digit_cases (k : Z) :
  0 <= k <= 9 ->
  k = 0 \/ k = 1 \/ k = 2 \/ k = 3 \/ k = 4 \/ k = 5 \/ k = 6 \/ k = 7
  \/ k = 8 \/ k = 9.
Proof. lia. Qed.

Lemma digit_val_digit k : 0 <= k <= 9 -> digit_val (digit k) = Some k.
Proof.
  intros H. apply digit_cases in H.
  repeat (destruct H as [->|H]; [reflexivity|]). now subst.
Qed.

Lemma isdigit_digit k : 0 <= k <= 9 -> isdigit (digit k) = true.
Proof. intros H. unfold isdigit. now rewrite digit_val_digit. Qed.

Lemma isspace_digit k : 0 <= k <= 9 -> isspace (digit k) = false.
Proof.
  intros H. apply digit_cases in H.
  repeat (destruct H as [->|H]; [reflexivity|]). now subst.
Qed.

Lemma pad4_digits y :
  0 <= y <= 9999 ->
  0 <= y / 1000 <= 9 /\ 0 <= y / 100 mod 10 <= 9
  /\ 0 <= y / 10 mod 10 <= 9 /\ 0 <= y mod 10 <= 9.
Proof. intros H. repeat split; Z.div_mod_to_equations; lia. Qed.

Lemma re_digit_cons c r :
  isdigit c = true -> re_digit (String c r) = [(String c EmptyString, r)].
Proof. intros H. unfold re_digit, re_char. now rewrite H. Qed.

Lemma re_Y_pad4 y r :
  0 <= y <= 9999 -> re_Y (pad4 y +:+ r) = [(pad4 y, r)].
Proof.
  intros (H1 & H2 & H3 & H4)%pad4_digits.
  apply isdigit_digit in H1, H2, H3, H4.
  unfold pad4. rewrite !append_cons, append_nil.
  unfold re_Y, re_seq, re_bind.
  rewrite !re_digit_cons by assumption. cbn [flat_map fst snd app].
  rewrite !re_digit_cons by assumption. cbn [flat_map fst snd app].
  rewrite !re_digit_cons by assumption. cbn [flat_map fst snd app].
  rewrite !re_digit_cons by assumption. reflexivity.
Qed.

Lemma int_pad4 y : 0 <= y <= 9999 -> int (pad4 y) = Some y.
Proof.
  intros Hy. pose proof (pad4_digits _ Hy) as (H1 & H2 & H3 & H4).
  unfold int, strip, pad4. cbn [lstrip].
  rewrite (isspace_digit _ H1). cbn [rstrip].
  rewrite (isspace_digit _ H4). cbn [digits_value].
  rewrite !digit_val_digit by assumption. f_equal.
  Z.div_mod_to_equations. lia.
Qed.

Lemma iso_tails_ok :
  forallb iso_tail_ok (list_prod (seqZ 1 12) (seqZ 1 31)) = true.
Proof. vm_compute. reflexivity. Qed.

Lemma iso_tail_ok_spec m d :
  1 <= m <= 12 -> 1 <= d <= 31 -> iso_tail_ok (m, d) = true.
Proof.
  intros Hm Hd. pose proof iso_tails_ok as H.
  rewrite forallb_forall in H. apply H.
  apply in_prod; apply list_elem_of_In, elem_of_seqZ; lia.
Qed.

Lemma strptime_isoformat y m d :
  0 <= y <= 9999 -> 1 <= m <= 12 -> 1 <= d <= 31 ->
  strptime (isoformat y m d) "%Y-%m-%d" = make_date y m d.
Proof.
  intros Hy Hm Hd. pose proof (iso_tail_ok_spec m d Hm Hd) as Hok.
  unfold iso_tail_ok in Hok. cbn [fst snd] in Hok.
  unfold strptime.
  change (pattern "%Y-%m-%d" (isoformat y m d))
    with (re_bind re_Y (fun txt =>
            re_bind (pattern "-%m-%d") (fun found =>
              re_ret (("Y"%char, txt) :: found)))
            (pad4 y +:+ iso_tail m d)).
  unfold re_bind at 1. rewrite re_Y_pad4 by assumption.
  cbn [flat_map fst snd]. rewrite app_nil_r. unfold re_bind, re_ret.
  destruct (pattern "-%m-%d" (iso_tail m d)) as [|[found rest] l];
    [discriminate|].
  destruct rest; [|discriminate].
  apply andb_prop in Hok as [[H1 H2]%andb_prop H3].
  apply bool_decide_eq_true in H1, H2, H3. subst found.
  cbn [flat_map app fst snd convert_all convert Ascii.eqb Bool.eqb].
  rewrite int_pad4 by assumption.
  cbn [mbind option_bind convert_all convert Ascii.eqb Bool.eqb]. rewrite H2.
  cbn [mbind option_bind convert_all convert Ascii.eqb Bool.eqb]. rewrite H3.
  reflexivity.
Qed.

Lemma digit_first_no_month_name (c : ascii) (r : string) :
  isdigit c = true ->
  strptime (String c r) "%B %d, %Y" = None
  /\ strptime (String c r) "%b %d, %Y" = None.
Proof.
  intros Hc. split.
  - destruct (strptime (String c r) "%B %d, %Y") eqn:E; [|reflexivity].
    apply full_format_inv in E as (w & t & r' & Hw & E & _).
    apply (month_word_letter "B") in E as (c' & r'' & [= <- <-] & Hc');
      [congruence|now left].
  - destruct (strptime (String c r) "%b %d, %Y") eqn:E; [|reflexivity].
    apply abbr_format_inv in E as (w & t & r' & Hw & E & _).
    apply (month_word_letter "b") in E as (c' & r'' & [= <- <-] & Hc');
      [congruence|now right].
Qed.

Lemma strip_isoformat y m d :
  0 <= y <= 9999 -> 0 <= m <= 99 -> 0 <= d <= 99 ->
  strip (isoformat y m d) = isoformat y m d.
Proof.
  intros Hy Hm Hd. pose proof (pad4_digits _ Hy) as (H1 & H2 & H3 & H4).
  assert (0 <= d mod 10 <= 9) as H5 by (Z.div_mod_to_equations; lia).
  unfold strip, isoformat, pad4, pad2.
  rewrite !append_cons, !append_nil. cbn [lstrip].
  rewrite (isspace_digit _ H1). cbn [rstrip].
  now rewrite (isspace_digit _ H5).
Qed.

End DateTextFacts.

Module MonthTextFacts.
Import PyStr Datetime Strptime StrptimeSpec StrptimeFacts.
Import FilterSpec DateTextFacts.

Lemma month_in m : 1 <= m <= 12 -> In m (seqZ 1 12).
Proof. intros H. apply list_elem_of_In, elem_of_seqZ. lia. Qed.

Lemma day_in d : 1 <= d <= 31 -> In d (seqZ 1 31).
Proof. intros H. apply list_elem_of_In, elem_of_seqZ. lia. Qed.

Ltac each_month H := apply month_in in H; vm_compute in H; in_cases H.
Ltac each_day H := apply day_in in H; vm_compute in H; in_cases H.

Lemma full_name_B m r :
  1 <= m <= 12 ->
  directive "B" (name_of month_name m +:+ String " " r)
  = [(name_of month_name m, String " " r)].
Proof. intros H. each_month H; vm_compute; reflexivity. Qed.

Lemma abbr_name_b m r :
  1 <= m <= 12 ->
  directive "b" (name_of month_abbr m +:+ String " " r)
  = [(name_of month_abbr m, String " " r)].
Proof. intros H. each_month H; vm_compute; reflexivity. Qed.

Lemma full_name_index m :
  1 <= m <= 12 -> index (lower (name_of month_name m)) f_month = Some m.
Proof. intros H. each_month H; vm_compute; reflexivity. Qed.

Lemma abbr_name_index m :
  1 <= m <= 12 -> index (lower (name_of month_abbr m)) a_month = Some m.
Proof. intros H. each_month H; vm_compute; reflexivity. Qed.

Lemma full_name_not_b m r :
  1 <= m <= 12 -> m <> 5 ->
  strptime (name_of month_name m +:+ String " " r) "%b %d, %Y" = None.
Proof.
  intros H H5. each_month H; try (now destruct H5); vm_compute; reflexivity.
Qed.

Lemma abbr_name_not_B m r :
  1 <= m <= 12 -> m <> 5 ->
  strptime (name_of month_abbr m +:+ String " " r) "%B %d, %Y" = None.
Proof.
  intros H H5. each_month H; try (now destruct H5); vm_compute; reflexivity.
Qed.

Lemma name_not_iso names m r :
  names = month_name \/ names = month_abbr -> 1 <= m <= 12 ->
  strptime (name_of names m +:+ r) "%Y-%m-%d" = None.
Proof.
  intros [-> | ->] H; each_month H; vm_compute; reflexivity.
Qed.

Lemma lstrip_name names m r :
  names = month_name \/ names = month_abbr -> 1 <= m <= 12 ->
  lstrip (name_of names m +:+ r) = name_of names m +:+ r.
Proof.
  intros [-> | ->] H; each_month H; vm_compute; reflexivity.
Qed.

Lemma rstrip_app_fixed s t :
  t <> EmptyString -> rstrip t = t -> rstrip (s +:+ t) = s +:+ t.
Proof.
  intros Hne Ht. induction s as [|a s IH]; [now rewrite append_nil|].
  rewrite append_cons. cbn [rstrip]. rewrite IH.
  destruct (s +:+ t) eqn:E; [|reflexivity].
  destruct s; [rewrite append_nil in E; contradiction|].
  rewrite append_cons in E. discriminate E.
Qed.

Lemma rstrip_pad4 y : 0 <= y <= 9999 -> rstrip (pad4 y) = pad4 y.
Proof.
  intros (_ & _ & _ & H)%pad4_digits. unfold pad4. cbn [rstrip].
  now rewrite (isspace_digit _ H).
Qed.

Lemma strip_month_text names m d y :
  names = month_name \/ names = month_abbr -> 1 <= m <= 12 ->
  0 <= y <= 9999 ->
  strip (month_text (name_of names m) d y) = month_text (name_of names m) d y.
Proof.
  intros Hn Hm Hy. unfold strip, month_text.
  rewrite lstrip_name by assumption.
  rewrite <- !append_assoc.
  apply rstrip_app_fixed; [discriminate|now apply rstrip_pad4].
Qed.

Lemma int_pretty_day d : 1 <= d <= 31 -> int (pretty d) = Some d.
Proof. intros H. each_day H; vm_compute; reflexivity. Qed.

Lemma space_before_day d r :
  1 <= d <= 31 ->
  re_space_plus (String " " (pretty d +:+ r)) = [(tt, pretty d +:+ r)].
Proof. intros H. each_day H; vm_compute; reflexivity. Qed.

Lemma after_day_digit txt c r :
  isdigit c = true -> after_day txt (String c r) = [].
Proof.
  destruct c as [[] [] [] [] [] [] [] []]; intros H; try discriminate H;
    reflexivity.
Qed.

Lemma day_group d r :
  1 <= d <= 31 ->
  re_bind re_d after_day (pretty d +:+ String "," r)
  = after_day (pretty d) (String "," r).
Proof.
  intros H. unfold re_bind.
  each_day H;
    match goal with
    | |- context [re_d ?s] =>
        let l := eval vm_compute in (re_d s) in
        replace (re_d s) with l by (vm_compute; reflexivity)
    end;
    match goal with
    | |- context [pretty ?n] =>
        let t := eval vm_compute in (pretty n) in
        replace (pretty n) with t by (vm_compute; reflexivity)
    end;
    cbn [flat_map fst snd];
    rewrite ?after_day_digit by reflexivity;
    now rewrite !app_nil_r.
Qed.

Lemma re_lit_same c r : re_lit c (String c r) = [(String c EmptyString, r)].
Proof. unfold re_lit, re_char. now rewrite Ascii.eqb_refl. Qed.

Lemma year_group y :
  0 <= y <= 9999 ->
  pattern ", %Y" (String "," (String " " (pad4 y)))
  = [([("Y"%char, pad4 y)], EmptyString)].
Proof.
  intros Hy.
  change (pattern ", %Y")
    with (re_bind (re_lit ",") (fun _ =>
          re_bind re_space_plus (fun _ =>
          re_bind re_Y (fun txt =>
          re_bind (pattern "") (fun found =>
          re_ret (("Y"%char, txt) :: found)))))).
  unfold re_bind at 1. rewrite re_lit_same. cbn [flat_map fst snd].
  rewrite app_nil_r. unfold re_bind at 1.
  assert (re_space_plus (String " " (pad4 y)) = [(tt, pad4 y)]) as ->.
  { pose proof (pad4_digits _ Hy) as (H1 & _). unfold pad4.
    cbn [re_space_plus re_space_star].
    change (isspace " ") with true. cbn iota.
    now rewrite (isspace_digit _ H1). }
  cbn [flat_map fst snd]. rewrite app_nil_r. unfold re_bind at 1.
  pose proof (re_Y_pad4 y EmptyString Hy) as E.
  change (pad4 y +:+ EmptyString) with (pad4 y) in E. now rewrite E.
Qed.

Lemma tail_pattern_day_year d y :
  1 <= d <= 31 -> 0 <= y <= 9999 ->
  tail_pattern (String " " (pretty d +:+ ", " +:+ pad4 y))
  = [([("d"%char, pretty d); ("Y"%char, pad4 y)], EmptyString)].
Proof.
  intros Hd Hy. unfold tail_pattern.
  change (pattern " %d, %Y")
    with (re_bind re_space_plus (fun _ => re_bind re_d after_day)).
  unfold re_bind at 1. rewrite space_before_day by assumption.
  cbn [flat_map fst snd]. rewrite app_nil_r.
  change (", " +:+ pad4 y) with (String "," (String " " (pad4 y))).
  rewrite day_group by assumption.
  unfold after_day, re_bind. now rewrite year_group.
Qed.

(** The text [Month D, YYYY] under the format of its month names. *)
Lemma strptime_month_text (dir : ascii) names m d y :
  dir <> "%"%char ->
  (forall r, directive dir (name_of names m +:+ String " " r)
             = [(name_of names m, String " " r)]) ->
  (forall ymd, convert ymd (dir, name_of names m)
               = Some (ymd.1.1, m, ymd.2)) ->
  1 <= d <= 31 -> 0 <= y <= 9999 ->
  strptime (month_text (name_of names m) d y)
           (String "%" (String dir " %d, %Y"))
  = make_date y m d.
Proof.
  intros Hdir Hname Hconv Hd Hy. unfold strptime.
  change (pattern (String "%" (String dir " %d, %Y")))
    with (re_bind (directive dir) (fun txt =>
            re_bind tail_pattern (fun found => re_ret ((dir, txt) :: found)))).
  unfold month_text.
  change (" " +:+ pretty d +:+ ", " +:+ pad4 y)
    with (String " " (pretty d +:+ ", " +:+ pad4 y)).
  unfold re_bind at 1. rewrite Hname. cbn [flat_map fst snd].
  rewrite app_nil_r. unfold re_bind.
  rewrite tail_pattern_day_year by assumption.
  cbn [flat_map fst snd app re_ret convert_all]. rewrite Hconv.
  cbn [mbind option_bind fst snd convert Ascii.eqb Bool.eqb].
  rewrite int_pretty_day by assumption.
  cbn [mbind option_bind fst snd convert_all convert Ascii.eqb Bool.eqb].
  rewrite int_pad4 by assumption. reflexivity.
Qed.

Lemma strptime_full_text m d y :
  1 <= m <= 12 -> 1 <= d <= 31 -> 0 <= y <= 9999 ->
  strptime (month_text (name_of month_name m) d y) "%B %d, %Y"
  = make_date y m d.
Proof.
  intros Hm Hd Hy. apply strptime_month_text; [discriminate| | |assumption..].
  - intros r. now apply full_name_B.
  - intros [[y0 m0] d0]. unfold convert. cbn [Ascii.eqb Bool.eqb].
    now rewrite full_name_index.
Qed.

Lemma strptime_abbr_text m d y :
  1 <= m <= 12 -> 1 <= d <= 31 -> 0 <= y <= 9999 ->
  strptime (month_text (name_of month_abbr m) d y) "%b %d, %Y"
  = make_date y m d.
Proof.
  intros Hm Hd Hy. apply strptime_month_text; [discriminate| | |assumption..].
  - intros r. now apply abbr_name_b.
  - intros [[y0 m0] d0]. unfold convert. cbn [Ascii.eqb Bool.eqb].
    now rewrite abbr_name_index.
Qed.

End MonthTextFacts.

Section DateFilter.
Import PyStr Datetime Strptime FilterSpec.
Import FilterFacts CaseFacts DateTextFacts MonthTextFacts.

(** X1.  Widening the window never drops a review: a date text that
    passes the filter for a window passes it for every window that
    starts no later and ends no earlier. *)
Theorem in_range_wider_window (date_str : string) (a b a' b' : date) :
  le a' a -> le b b' ->
  in_range date_str a b = true -> in_range date_str a' b' = true.
Proof. apply in_range_wider. Qed.

(** X2.  A window whose start lies after its end is not rejected; in
    it the filter keeps exactly the date texts that no format parses. *)
Theorem in_range_empty_window (date_str : string) (a b : date) :
  ~ le a b ->
  in_range date_str a b = true
  <-> forall fmt, In fmt date_formats -> strptime (strip date_str) fmt = None.
Proof.
  intros Hab. rewrite <- first_parse_none. unfold in_range.
  rewrite in_range_loop_first_parse.
  destruct (first_parse date_formats date_str) as [d|]; [|tauto].
  rewrite andb_true_iff, !date_leb_le. split; [|discriminate].
  intros [H1 H2]. destruct Hab. now apply (date_le_trans _ d).
Qed.

(** X3.  White space around the date text does not matter to the
    filter. *)
Theorem in_range_ignores_surrounding_space (pre date_str post : string)
    (a b : date) :
  blank pre = true -> blank post = true ->
  in_range (pre +:+ date_str +:+ post) a b = in_range date_str a b.
Proof.
  intros Hpre Hpost. unfold in_range. generalize date_formats as fmts.
  induction fmts as [|fmt fmts IH]; [reflexivity|].
  cbn [in_range_loop]. now rewrite strip_blank, IH.
Qed.

(** X4.  Letter case does not matter to the filter: two date texts
    that agree once lower-cased are treated alike. *)
Theorem in_range_ignores_letter_case (s s' : string)
    (start_d end_d : date) :
  lower s = lower s' ->
  in_range s start_d end_d = in_range s' start_d end_d.
Proof.
  intros H. rewrite <- (in_range_lower s), H.
  apply in_range_lower.
Qed.

(** X5.  The text [YYYY-MM-DD] of a year up to 9999, a month and a day
    up to 31 is read as that calendar date and tested against the
    window; when there is no such date (February 30, the year 0) the text
    is kept whatever the window. *)
Theorem in_range_iso_text (y m d : Z) (start_d end_d : date) :
  0 <= y <= 9999 -> 1 <= m <= 12 -> 1 <= d <= 31 ->
  in_range (isoformat y m d) start_d end_d
  = match make_date y m d with
    | Some dt => leb start_d dt && leb dt end_d
    | None => true
    end.
Proof.
  intros Hy Hm Hd. unfold in_range, date_formats. cbn [in_range_loop].
  rewrite strip_isoformat by lia.
  rewrite <- (strptime_isoformat y m d) by assumption.
  assert (exists c r, isoformat y m d = String c r /\ isdigit c = true)
    as (c & r & E & Hc).
  { eexists _, _. split; [reflexivity|].
    apply isdigit_digit. now apply pad4_digits. }
  rewrite E. destruct (digit_first_no_month_name c r Hc) as [-> ->].
  reflexivity.
Qed.

(** X6.  The text [Month D, YYYY] with an English month name, in full
    or abbreviated to three letters, a day up to 31 and a year up to 9999
    is read as that calendar date and tested against the window; when
    there is no such date the text is kept whatever the window. *)
Theorem in_range_month_text (names : list string) (m d y : Z)
    (start_d end_d : date) :
  names = month_name \/ names = month_abbr ->
  1 <= m <= 12 -> 1 <= d <= 31 -> 0 <= y <= 9999 ->
  in_range (month_text (name_of names m) d y) start_d end_d
  = match make_date y m d with
    | Some dt => leb start_d dt && leb dt end_d
    | None => true
    end.
Proof.
  intros Hn Hm Hd Hy. unfold in_range, date_formats. cbn [in_range_loop].
  rewrite strip_month_text by assumption.
  pose proof (name_not_iso names m (" " +:+ pretty d +:+ ", " +:+ pad4 y)
                Hn Hm) as Hiso.
  fold (month_text (name_of names m) d y) in Hiso. rewrite Hiso.
  destruct (Z.eq_dec m 5) as [->|H5].
  - assert (name_of names 5 = name_of month_name 5) as ->
      by (now destruct Hn as [-> | ->]).
    rewrite strptime_full_text by assumption.
    change (name_of month_name 5) with (name_of month_abbr 5).
    rewrite strptime_abbr_text by assumption.
    now destruct (make_date y 5 d).
  - destruct Hn as [-> | ->].
    + rewrite strptime_full_text by assumption.
      pose proof (full_name_not_b m (pretty d +:+ ", " +:+ pad4 y) Hm H5) as E.
      change (String " " (pretty d +:+ ", " +:+ pad4 y))
        with (" " +:+ pretty d +:+ ", " +:+ pad4 y) in E.
      fold (month_text (name_of month_name m) d y) in E. rewrite E.
      now destruct (make_date y m d).
    + pose proof (abbr_name_not_B m (pretty d +:+ ", " +:+ pad4 y) Hm H5) as E.
      change (String " " (pretty d +:+ ", " +:+ pad4 y))
        with (" " +:+ pretty d +:+ ", " +:+ pad4 y) in E.
      fold (month_text (name_of month_abbr m) d y) in E. rewrite E.
      rewrite strptime_abbr_text by assumption.
      now destruct (make_date y m d).
Qed.

End DateFilter.

(* ================================================================== *)
(** * Further properties of the runs *)
(* ================================================================== *)

Section RunFacts.
Context `{bs4 : BS4} `{pyfloat : PyFloat}.
Variable requests_get : string -> result response.
Variable write_file : string -> string -> result unit.

Local Abbreviation fetch_cards := (fetch_cards requests_get).
Local Abbreviation page_cards := (page_cards requests_get).
Local Abbreviation page_not_ok := (page_not_ok requests_get).
Local Abbreviation page_no_cards := (page_no_cards requests_get).
Local Abbreviation listing := (listing requests_get).
Local Abbreviation listing_ends := (listing_ends requests_get).

Section LoopTrace.
Variables url_of banner : Z -> string.
Variable selector : string.
Variable body : list Review -> list Tag -> result (list Review).

Local Abbreviation loop := (paginate requests_get url_of banner selector body).

Lemma visits_S page n :
  visits banner url_of page (S n)
  = visit banner url_of page ++ visits banner url_of (page + 1) n.
Proof.
  unfold visits. rewrite seqZ_cons by lia. cbn [flat_map].
  do 3 f_equal; lia.
Qed.

(** Whatever the site answers, the loop visits pages in order. *)
Lemma paginate_in_order fuel : forall page acc,
  exists n : nat,
    (fst (loop fuel page acc) = None /\ n = fuel
     /\ snd (loop fuel page acc) = visits banner url_of page n)
    \/ (is_Some (fst (loop fuel page acc)) /\ (n < fuel)%nat
        /\ snd (loop fuel page acc)
           = visits banner url_of page n
               ++ last_visit banner url_of (page + Z.of_nat n)).
Proof.
  induction fuel as [|fuel IH]; intros page acc.
  - exists 0%nat. now left.
  - cbn [paginate].
    assert (forall r : result (list Review),
              exists n : nat,
                (fst (Some r, [Print (banner page); Get (url_of page) 20])
                 = None /\ n = S fuel
                 /\ snd (Some r, [Print (banner page); Get (url_of page) 20])
                    = visits banner url_of page n)
                \/ (is_Some
                      (fst (Some r,
                            [Print (banner page); Get (url_of page) 20]))
                    /\ (n < S fuel)%nat
                    /\ snd (Some r,
                            [Print (banner page); Get (url_of page) 20])
                       = visits banner url_of page n
                           ++ last_visit banner url_of (page + Z.of_nat n)))
      as Hleave.
    { intros r. exists 0%nat. right. cbn [fst snd].
      split; [eauto|split; [lia|]].
      now rewrite Z.add_0_r. }
    destruct (fetch_cards _ _) as [[cards|]|e]; [|apply Hleave..].
    destruct (body acc cards) as [acc1|e]; [|apply Hleave].
    destruct (IH (page + 1) acc1) as [n Hn].
    destruct (loop fuel (page + 1) acc1) as [r io']. cbn [fst snd] in *.
    exists (S n). rewrite visits_S.
    destruct Hn as [(-> & -> & ->)|(Hr & Hlt & ->)]; [now left|right].
    split; [assumption|split; [lia|]].
    rewrite <- app_assoc. unfold visit. cbn [app].
    do 5 f_equal. lia.
Qed.

(** Over a listing the loop visits every page of the listing and leaves
    at the next one. *)
Lemma paginate_trace_leaves pages : forall fuel page acc acc',
  shows requests_get url_of selector page pages ->
  run_pages body acc pages = Ok acc' ->
  fetch_cards (url_of (page + Z.of_nat (length pages))) selector = Ok None ->
  (length pages < fuel)%nat ->
  snd (loop fuel page acc)
  = visits banner url_of page (length pages)
      ++ last_visit banner url_of (page + Z.of_nat (length pages)).
Proof.
  induction pages as [|cards pages IH]; intros fuel page acc acc' Hs Hr He Hf;
    (destruct fuel as [|fuel]; [cbn [length] in Hf; lia|]).
  - cbn [length Z.of_nat] in *. rewrite Z.add_0_r in *.
    cbn [paginate]. now rewrite He.
  - apply shows_cons in Hs as [Hc Hs]. cbn [run_pages] in Hr.
    destruct (body acc cards) as [acc1|e] eqn:Hb; [|discriminate].
    cbn [result_bind] in Hr. cbn [paginate]. rewrite Hc, Hb.
    cbn [length] in *.
    replace (page + Z.of_nat (S (length pages)))
      with (page + 1 + Z.of_nat (length pages)) in * by lia.
    specialize (IH fuel (page + 1) acc1 acc' Hs Hr He ltac:(lia)).
    destruct (loop fuel (page + 1) acc1) as [r io']. cbn [snd] in *.
    rewrite visits_S, IH. reflexivity.
Qed.

(** What holds of the accumulator at the start and is kept by every
    loop body holds of the result. *)
Lemma paginate_invariant (P : list Review -> Prop) :
  (forall acc cards acc', P acc -> body acc cards = Ok acc' -> P acc') ->
  forall fuel page acc reviews,
    P acc -> fst (loop fuel page acc) = Some (Ok reviews) -> P reviews.
Proof.
  intros Hbody. induction fuel as [|fuel IH]; intros page acc reviews Hacc;
    [discriminate|].
  cbn [paginate].
  destruct (fetch_cards _ _) as [[cards|]|e]; cbn [fst];
    [|now intros [= <-]|discriminate].
  destruct (body acc cards) as [acc1|e] eqn:Hb; [|discriminate].
  specialize (IH (page + 1) acc1 reviews (Hbody _ _ _ Hacc Hb)).
  now destruct (loop fuel (page + 1) acc1) as [r io'].
Qed.

End LoopTrace.

(** ** The generic SaaS cards *)

Lemma saas_cards_labelled co start_d end_d cards : forall acc acc',
  Forall (labelled start_d end_d "saas" co) acc ->
  saas_cards co start_d end_d acc cards = Ok acc' ->
  Forall (labelled start_d end_d "saas" co) acc'.
Proof.
  induction cards as [|card cards IH]; intros acc acc' Hacc.
  - now intros [= <-].
  - cbn [saas_cards].
    destruct (saas_review co card) as [r|] eqn:Hr.
    + rewrite (saas_card_review _ _ _ _ _ _ Hr). cbn [result_bind].
      apply IH. destruct (passes start_d end_d r) eqn:Hp; [|assumption].
      apply Forall_app. split; [assumption|]. constructor; [|constructor].
      split; [assumption|]. revert Hr. unfold saas_review.
      repeat match goal with
             | |- context [mbind _ ?o] => destruct o; cbn [mbind option_bind];
                                           [|discriminate]
             end.
      now intros [= <-].
    + destruct (saas_card_unreadable _ _ Hr) as [e He]. rewrite He.
      discriminate.
Qed.

Lemma foldl_labelled (step : list Review -> Tag -> list Review)
    (review : Tag -> Review) start_d end_d label co :
  (forall acc card,
     step acc card = if passes start_d end_d (review card)
                     then acc ++ [review card] else acc) ->
  (forall card, source (review card) = label /\ company (review card) = co) ->
  forall cards acc,
    Forall (labelled start_d end_d label co) acc ->
    Forall (labelled start_d end_d label co) (foldl step acc cards).
Proof.
  intros Hstep Hlab cards acc Hacc.
  rewrite (foldl_filter_map _ _ _ Hstep). apply Forall_app. split; [assumption|].
  apply List.Forall_forall. intros r [Hin Hp]%List.filter_In.
  apply List.in_map_iff in Hin as (card & <- & _).
  split; [assumption|apply Hlab].
Qed.

(** ** The extractors and the entry point *)

Lemma scrape_g2_paginate fuel co start_d end_d slug :
  g2_slug_map !! PyStr.lower co = Some slug ->
  scrape_g2 requests_get fuel co start_d end_d
  = paginate requests_get (build_g2_url slug) (g2_banner slug)
      ".paper.paper--white.paper--box"
      (fun acc cards => Ok (foldl (g2_card co start_d end_d) acc cards))
      fuel 1 [].
Proof.
  intros Hslug. unfold scrape_g2. rewrite Hslug. apply g2_loop_paginate.
Qed.

Lemma scrape_capterra_paginate fuel co start_d end_d path :
  capterra_slug_map !! PyStr.lower co = Some path ->
  scrape_capterra requests_get fuel co start_d end_d
  = paginate requests_get (build_capterra_url path) (capterra_banner path)
      "section.review-card"
      (fun acc cards => Ok (foldl (capterra_card co start_d end_d) acc cards))
      fuel 1 [].
Proof.
  intros Hpath. unfold scrape_capterra. rewrite Hpath.
  apply capterra_loop_paginate.
Qed.

Lemma scrape_saas_paginate fuel co start_d end_d :
  scrape_saas_example requests_get fuel co start_d end_d
  = paginate requests_get (saas_url co) (saas_banner co) ".review-card"
      (saas_cards co start_d end_d) fuel 1 [].
Proof. unfold scrape_saas_example. apply saas_loop_paginate. Qed.

(** X9.  Whatever the site answers, an extractor requests page 1, then page
    2, and so on, each once and with a time-out of 20 seconds, sleeps one
    second behind every page it read cards from, and makes no request
    behind the page it left at. *)
Theorem pages_are_requested_in_order (co : string)
    (start_d end_d : Datetime.date) (fuel : nat) :
  (forall slug,
     g2_slug_map !! PyStr.lower co = Some slug ->
     in_page_order (g2_banner slug) (build_g2_url slug) fuel
       (scrape_g2 requests_get fuel co start_d end_d))
  /\ (forall path,
        capterra_slug_map !! PyStr.lower co = Some path ->
        in_page_order (capterra_banner path) (build_capterra_url path) fuel
          (scrape_capterra requests_get fuel co start_d end_d))
  /\ in_page_order (saas_banner co) (saas_url co) fuel
       (scrape_saas_example requests_get fuel co start_d end_d).
Proof.
  split; [|split].
  - intros slug Hslug. rewrite (scrape_g2_paginate _ _ _ _ _ Hslug).
    apply paginate_in_order.
  - intros path Hpath. rewrite (scrape_capterra_paginate _ _ _ _ _ Hpath).
    apply paginate_in_order.
  - rewrite scrape_saas_paginate. apply paginate_in_order.
Qed.

(** X10.  A listing of N pages costs N+1 requests and N seconds of sleep: the
    extractor visits pages 1..N and leaves at page N+1. *)
Theorem listing_costs_one_request_per_page (co : string)
    (start_d end_d : Datetime.date) (pages : list (list Tag)) (fuel : nat) :
  (length pages < fuel)%nat ->
  (forall slug,
     g2_slug_map !! PyStr.lower co = Some slug ->
     listing (build_g2_url slug) ".paper.paper--white.paper--box" pages ->
     listing_ends (build_g2_url slug (1 + Z.of_nat (length pages)))
                  ".paper.paper--white.paper--box" ->
     snd (scrape_g2 requests_get fuel co start_d end_d)
     = visits (g2_banner slug) (build_g2_url slug) 1 (length pages)
         ++ last_visit (g2_banner slug) (build_g2_url slug)
              (1 + Z.of_nat (length pages)))
  /\ (forall path,
        capterra_slug_map !! PyStr.lower co = Some path ->
        listing (build_capterra_url path) "section.review-card" pages ->
        listing_ends (build_capterra_url path (1 + Z.of_nat (length pages)))
                     "section.review-card" ->
        snd (scrape_capterra requests_get fuel co start_d end_d)
        = visits (capterra_banner path) (build_capterra_url path) 1
                 (length pages)
            ++ last_visit (capterra_banner path) (build_capterra_url path)
                 (1 + Z.of_nat (length pages)))
  /\ (listing (saas_url co) ".review-card" pages ->
      (forall cards card, In cards pages -> In card cards ->
         is_Some (saas_review co card)) ->
      listing_ends (saas_url co (1 + Z.of_nat (length pages)))
                   ".review-card" ->
      snd (scrape_saas_example requests_get fuel co start_d end_d)
      = visits (saas_banner co) (saas_url co) 1 (length pages)
          ++ last_visit (saas_banner co) (saas_url co)
               (1 + Z.of_nat (length pages))).
Proof.
  intros Hfuel. split; [|split].
  - intros slug Hslug Hl Hend. rewrite (scrape_g2_paginate _ _ _ _ _ Hslug).
    eapply paginate_trace_leaves;
      [now apply listing_shows| |now apply listing_ends_fetch|assumption].
    now rewrite (run_pages_filter_map _ _ _ (g2_card_review co start_d end_d)).
  - intros path Hpath Hl Hend.
    rewrite (scrape_capterra_paginate _ _ _ _ _ Hpath).
    eapply paginate_trace_leaves;
      [now apply listing_shows| |now apply listing_ends_fetch|assumption].
    now rewrite (run_pages_filter_map _ _ _
                   (capterra_card_review co start_d end_d)).
  - intros Hl Hall Hend. rewrite scrape_saas_paginate.
    eapply paginate_trace_leaves;
      [now apply listing_shows| |now apply listing_ends_fetch|assumption].
    now apply saas_pages_reviews.
Qed.

(** X11.  The generic SaaS extractor over a listing whose cards all have what
    it reads: the records of the cards of pages 1..N that pass the date
    filter, in page order and card order. *)
Theorem saas_reviews_of_pages_in_order (co : string)
    (start_d end_d : Datetime.date) (pages : list (list Tag)) (fuel : nat) :
  (length pages < fuel)%nat ->
  listing (saas_url co) ".review-card" pages ->
  (forall cards card, In cards pages -> In card cards ->
     is_Some (saas_review co card)) ->
  listing_ends (saas_url co (1 + Z.of_nat (length pages))) ".review-card" ->
  fst (scrape_saas_example requests_get fuel co start_d end_d)
  = Some (Ok (List.filter (passes start_d end_d)
                (omap (saas_review co) (concat pages)))).
Proof.
  intros Hfuel Hl Hall Hend. rewrite scrape_saas_paginate.
  eapply (loop_stops _ _ _ _ _ pages);
    [now apply listing_shows| |now apply listing_ends_fetch|assumption].
  now rewrite saas_pages_reviews.
Qed.

Lemma scrape_g2_labelled co start_d end_d fuel reviews :
  fst (scrape_g2 requests_get fuel co start_d end_d) = Some (Ok reviews) ->
  Forall (labelled start_d end_d "g2" co) reviews.
Proof.
  unfold scrape_g2.
  destruct (g2_slug_map !! PyStr.lower co) as [slug|]; [|discriminate].
  rewrite g2_loop_paginate.
  apply (paginate_invariant _ _ _ _
           (Forall (labelled start_d end_d "g2" co))); [|constructor].
  intros acc cards acc' Hacc [= <-].
  now apply (foldl_labelled _ (g2_review co));
    [apply g2_card_review|..].
Qed.

Lemma scrape_capterra_labelled co start_d end_d fuel reviews :
  fst (scrape_capterra requests_get fuel co start_d end_d)
  = Some (Ok reviews) ->
  Forall (labelled start_d end_d "capterra" co) reviews.
Proof.
  unfold scrape_capterra.
  destruct (capterra_slug_map !! PyStr.lower co) as [path|]; [|discriminate].
  rewrite capterra_loop_paginate.
  apply (paginate_invariant _ _ _ _
           (Forall (labelled start_d end_d "capterra" co))); [|constructor].
  intros acc cards acc' Hacc [= <-].
  now apply (foldl_labelled _ (capterra_review co));
    [apply capterra_card_review|..].
Qed.

Lemma scrape_saas_labelled co start_d end_d fuel reviews :
  fst (scrape_saas_example requests_get fuel co start_d end_d)
  = Some (Ok reviews) ->
  Forall (labelled start_d end_d "saas" co) reviews.
Proof.
  rewrite scrape_saas_paginate.
  apply (paginate_invariant _ _ _ _
           (Forall (labelled start_d end_d "saas" co))); [|constructor].
  intros acc cards acc'. apply saas_cards_labelled.
Qed.

(** X8.  Every record an extractor returns passes the date filter and
    carries the extractor's own source label and the company exactly as
    it was given, whatever the site answered. *)
Theorem returned_reviews_are_filtered_and_labelled (co : string)
    (start_d end_d : Datetime.date) (fuel : nat) (reviews : list Review) :
  (fst (scrape_g2 requests_get fuel co start_d end_d) = Some (Ok reviews) ->
   Forall (labelled start_d end_d "g2" co) reviews)
  /\ (fst (scrape_capterra requests_get fuel co start_d end_d)
      = Some (Ok reviews) ->
      Forall (labelled start_d end_d "capterra" co) reviews)
  /\ (fst (scrape_saas_example requests_get fuel co start_d end_d)
      = Some (Ok reviews) ->
      Forall (labelled start_d end_d "saas" co) reviews).
Proof.
  split; [|split].
  - apply scrape_g2_labelled.
  - apply scrape_capterra_labelled.
  - apply scrape_saas_labelled.
Qed.

(** X7.  A G2 or Capterra card with no date element is kept, with an empty
    date, whatever the window. *)
Theorem card_without_date_is_kept (co : string)
    (start_d end_d : Datetime.date) (acc : list Review) (card : Tag) :
  (find card "time" None = None ->
   g2_card co start_d end_d acc card = acc ++ [g2_review co card]
   /\ date (g2_review co card) = "")
  /\ (select_one card "span.review-card__date" = None ->
      capterra_card co start_d end_d acc card
      = acc ++ [capterra_review co card]
      /\ date (capterra_review co card) = "").
Proof.
  split; intros Hnone.
  - rewrite g2_card_review. unfold passes, g2_review. cbn [date].
    unfold g2_date. now rewrite Hnone.
  - rewrite capterra_card_review. unfold passes, capterra_review. cbn [date].
    unfold capterra_date. now rewrite Hnone.
Qed.

Lemma saas_score_unusable_review co card :
  saas_score_unusable card -> saas_review co card = None.
Proof.
  intros (el & Hel & Hscore). unfold saas_review. rewrite Hel.
  destruct (select_one card ".review-title"); [|reflexivity].
  destruct (select_one card ".review-date"); [|reflexivity].
  cbn [mbind option_bind].
  destruct Hscore as [->|(score & -> & Hf)]; [reflexivity|].
  cbn [mbind option_bind]. now rewrite Hf.
Qed.

Lemma scrape_saas_no_write fuel co start_d end_d :
  forallb (fun ev => negb (is_write ev))
    (snd (scrape_saas_example requests_get fuel co start_d end_d)) = true.
Proof. rewrite scrape_saas_paginate. apply paginate_no_write. Qed.

Lemma scrape_g2_no_write fuel co start_d end_d :
  forallb (fun ev => negb (is_write ev))
    (snd (scrape_g2 requests_get fuel co start_d end_d)) = true.
Proof.
  unfold scrape_g2. destruct (g2_slug_map !! PyStr.lower co); [|reflexivity].
  apply g2_loop_no_write.
Qed.

Lemma scrape_capterra_no_write fuel co start_d end_d :
  forallb (fun ev => negb (is_write ev))
    (snd (scrape_capterra requests_get fuel co start_d end_d)) = true.
Proof.
  unfold scrape_capterra.
  destruct (capterra_slug_map !! PyStr.lower co); [|reflexivity].
  apply capterra_loop_no_write.
Qed.

(** X12.  In the generic SaaS extractor a rating element without a
    [data-score] attribute raises [KeyError], one whose score is not a
    number raises [ValueError] with the message of [float], which shows
    the score as [repr] writes it; neither is caught, and a run that
    reaches such a card ends with an exception and writes no file. *)
Theorem saas_unusable_score_is_fatal (co : string)
    (start_d end_d : Datetime.date) (pages : list (list Tag))
    (cards : list Tag) (card : Tag) (fuel : nat) :
  listing (saas_url co) ".review-card" (pages ++ [cards]) ->
  In card cards -> saas_score_unusable card ->
  (length pages < fuel)%nat ->
  (forall title_el date_el rating_el acc,
     select_one card ".review-title" = Some title_el ->
     select_one card ".review-date" = Some date_el ->
     select_one card ".review-rating" = Some rating_el ->
     (tag_get rating_el "data-score" = None ->
      saas_card co start_d end_d acc card = Raise (KeyError "data-score"))
     /\ (forall score,
           tag_get rating_el "data-score" = Some score ->
           float_of_str score = None ->
           saas_card co start_d end_d acc card
           = Raise (ValueError ("could not convert string to float: "
                                  +:+ PyStr.repr score))))
  /\ exists e,
      fst (scrape_saas_example requests_get fuel co start_d end_d)
      = Some (Raise e)
      /\ fst (main requests_get write_file fuel co start_d end_d "saas")
         = Some (Raise e)
      /\ forall name content,
           ~ In (WriteFile name content)
                (snd (main requests_get write_file fuel co start_d end_d
                           "saas")).
Proof.
  intros Hl Hin Hbad Hfuel. split.
  { intros t d el acc Ht Hd Hel. unfold saas_card. rewrite Ht, Hd, Hel.
    cbn [get_text_of subscript result_bind]. split.
    - now intros ->.
    - intros score -> Hf. cbn [result_bind]. unfold float_. now rewrite Hf. }
  assert (exists e, forall acc, saas_card co start_d end_d acc card = Raise e)
    as Hcard.
  { destruct (saas_card_unreadable co card
                (saas_score_unusable_review co card Hbad)) as [e He].
    exists e. intros acc. apply He. }
  destruct (run_pages_app_raises (saas_cards co start_d end_d) pages cards
              (saas_cards_raise_at co start_d end_d cards card Hin Hcard) [])
    as [e He].
  exists e.
  assert (fst (scrape_saas_example requests_get fuel co start_d end_d)
          = Some (Raise e)) as Hscrape.
  { rewrite scrape_saas_paginate.
    apply (loop_raises_in_pages _ _ _ _ _ (pages ++ [cards]));
      [now apply listing_shows|assumption|].
    rewrite length_app. cbn [length]. lia. }
  split; [assumption|]. rewrite main_saas.
  pose proof (scrape_saas_no_write fuel co start_d end_d) as Hio.
  destruct (scrape_saas_example _ _ _ _ _) as [r io].
  cbn [fst snd] in *. subst r. cbn [fst snd]. split; [reflexivity|].
  intros name content. now apply no_write_not_in.
Qed.

(** X13.  The program writes at most once, behind its last request:
    the extractor of the source writes nothing; when it has returned
    records, the JSON array of exactly those records is handed to the
    output file; if the file system accepts it, the file is written and
    the count is printed, else the run ends with the exception of the
    write and nothing more; when the extractor raised or has not ended,
    nothing more happens. *)
Theorem result_is_written_once_at_the_end (co src : string)
    (start_d end_d : Datetime.date) (fuel : nat)
    (scrape : nat -> string -> Datetime.date -> Datetime.date ->
              option (result (list Review)) * trace) :
  In (src, scrape)
     [("g2", scrape_g2 requests_get);
      ("capterra", scrape_capterra requests_get);
      ("saas", scrape_saas_example requests_get)] ->
  forallb (fun ev => negb (is_write ev)) (snd (scrape fuel co start_d end_d))
  = true
  /\ main requests_get write_file fuel co start_d end_d src
     = match scrape fuel co start_d end_d with
       | (None, io) => (None, io)
       | (Some (Raise e), io) => (Some (Raise e), io)
       | (Some (Ok reviews), io) =>
           match write_file (fname co src)
                   (Json.dumps (Json.JArr (List.map asdict reviews))) with
           | Ok _ =>
               (Some (Ok tt),
                io ++ [WriteFile (fname co src)
                         (Json.dumps (Json.JArr (List.map asdict reviews)));
                       Print ("Saved " +:+ pretty (Z.of_nat (length reviews))
                                +:+ " reviews to " +:+ fname co src)])
           | Raise e => (Some (Raise e), io)
           end
       end.
Proof.
  intros [[= <- <-]|[[= <- <-]|[[= <- <-]|[]]]]; split.
  - apply scrape_g2_no_write.
  - rewrite main_g2.
    destruct (scrape_g2 _ _ _ _ _) as [[[reviews|e]|] io]; try reflexivity.
    unfold write_json. destruct (write_file _ _); [reflexivity|].
    cbn [fst snd]. now rewrite app_nil_r.
  - apply scrape_capterra_no_write.
  - rewrite main_capterra.
    destruct (scrape_capterra _ _ _ _ _) as [[[reviews|e]|] io];
      try reflexivity.
    unfold write_json. destruct (write_file _ _); [reflexivity|].
    cbn [fst snd]. now rewrite app_nil_r.
  - apply scrape_saas_no_write.
  - rewrite main_saas.
    destruct (scrape_saas_example _ _ _ _ _) as [[[reviews|e]|] io];
      try reflexivity.
    unfold write_json. destruct (write_file _ _); [reflexivity|].
    cbn [fst snd]. now rewrite app_nil_r.
Qed.

(** What the run does behind the one request of a listing that is
    empty. *)
Lemma main_of_empty_listing co src (io : trace) :
  (Some (fst (write_json write_file co src [])),
   io ++ snd (write_json write_file co src []))
  = match write_file (fname co src) "[]" with
    | Ok _ =>
        (Some (Ok tt),
         io ++ [WriteFile (fname co src) "[]";
                Print ("Saved 0 reviews to " +:+ fname co src)])
    | Raise e => (Some (Raise e), io)
    end.
Proof.
  unfold write_json.
  change (Json.dumps (Json.JArr (List.map asdict []))) with "[]".
  destruct (write_file (fname co src) "[]"); [reflexivity|].
  cbn [fst snd]. now rewrite app_nil_r.
Qed.

(** X14.  A listing whose first page already ends it gives an empty
    result, which is still handed to the output file: after its one
    request the run writes the empty array and prints the count, if the
    file system accepts the file; if not, the exception of the write
    ends the run, and no file is written. *)
Theorem empty_listing_writes_an_empty_array (co : string)
    (start_d end_d : Datetime.date) (fuel : nat) :
  (0 < fuel)%nat ->
  (forall slug,
     g2_slug_map !! PyStr.lower co = Some slug ->
     listing_ends (build_g2_url slug 1) ".paper.paper--white.paper--box" ->
     main requests_get write_file fuel co start_d end_d "g2"
     = match write_file (fname co "g2") "[]" with
       | Ok _ =>
           (Some (Ok tt),
            last_visit (g2_banner slug) (build_g2_url slug) 1
              ++ [WriteFile (fname co "g2") "[]";
                  Print ("Saved 0 reviews to " +:+ fname co "g2")])
       | Raise e =>
           (Some (Raise e),
            last_visit (g2_banner slug) (build_g2_url slug) 1)
       end)
  /\ (forall path,
        capterra_slug_map !! PyStr.lower co = Some path ->
        listing_ends (build_capterra_url path 1) "section.review-card" ->
        main requests_get write_file fuel co start_d end_d "capterra"
        = match write_file (fname co "capterra") "[]" with
          | Ok _ =>
              (Some (Ok tt),
               last_visit (capterra_banner path) (build_capterra_url path) 1
                 ++ [WriteFile (fname co "capterra") "[]";
                     Print ("Saved 0 reviews to " +:+ fname co "capterra")])
          | Raise e =>
              (Some (Raise e),
               last_visit (capterra_banner path) (build_capterra_url path) 1)
          end)
  /\ (listing_ends (saas_url co 1) ".review-card" ->
      main requests_get write_file fuel co start_d end_d "saas"
      = match write_file (fname co "saas") "[]" with
        | Ok _ =>
            (Some (Ok tt),
             last_visit (saas_banner co) (saas_url co) 1
               ++ [WriteFile (fname co "saas") "[]";
                   Print ("Saved 0 reviews to " +:+ fname co "saas")])
        | Raise e =>
            (Some (Raise e), last_visit (saas_banner co) (saas_url co) 1)
        end).
Proof.
  intros Hfuel. destruct fuel as [|fuel]; [lia|]. split; [|split].
  - intros slug Hslug Hend. rewrite main_g2.
    rewrite (scrape_g2_paginate _ _ _ _ _ Hslug). cbn [paginate].
    rewrite (listing_ends_fetch _ _ _ Hend). apply main_of_empty_listing.
  - intros path Hpath Hend. rewrite main_capterra.
    rewrite (scrape_capterra_paginate _ _ _ _ _ Hpath). cbn [paginate].
    rewrite (listing_ends_fetch _ _ _ Hend). apply main_of_empty_listing.
  - intros Hend. rewrite main_saas, scrape_saas_paginate. cbn [paginate].
    rewrite (listing_ends_fetch _ _ _ Hend). apply main_of_empty_listing.
Qed.

(** ** Runs compared *)

Lemma paginate_relabel co url_of banner selector body body' :
  (forall acc cards,
     body' (List.map (with_company co) acc) cards
     = match body acc cards with
       | Ok acc' => Ok (List.map (with_company co) acc')
       | Raise e => Raise e
       end) ->
  forall fuel page acc,
    paginate requests_get url_of banner selector body' fuel page
             (List.map (with_company co) acc)
    = relabel co (paginate requests_get url_of banner selector body fuel
                           page acc).
Proof.
  intros Hbody. induction fuel as [|fuel IH]; intros page acc; [reflexivity|].
  cbn [paginate].
  destruct (fetch_cards _ _) as [[cards|]|e]; try reflexivity.
  rewrite Hbody. destruct (body acc cards) as [acc1|e]; [|reflexivity].
  rewrite IH. now destruct (paginate _ _ _ _ _ _ _ _) as [[[rs|e]|] io'].
Qed.

Lemma foldl_relabel co (step step' : list Review -> Tag -> list Review)
    (review review' : Tag -> Review) (keep : Review -> bool) :
  (forall acc card,
     step acc card = if keep (review card) then acc ++ [review card] else acc) ->
  (forall acc card,
     step' acc card
     = if keep (review' card) then acc ++ [review' card] else acc) ->
  (forall card, review' card = with_company co (review card)) ->
  (forall r, keep (with_company co r) = keep r) ->
  forall cards acc,
    foldl step' (List.map (with_company co) acc) cards
    = List.map (with_company co) (foldl step acc cards).
Proof.
  intros Hstep Hstep' Hrev Hkeep cards.
  induction cards as [|card cards IH]; intros acc; [reflexivity|].
  cbn [foldl]. rewrite <- IH. f_equal.
  rewrite Hstep, Hstep', Hrev, Hkeep.
  destruct (keep (review card)); [|reflexivity].
  now rewrite List.map_app.
Qed.

Lemma saas_card_relabel co co' start_d end_d acc card :
  saas_card co' start_d end_d (List.map (with_company co') acc) card
  = match saas_card co start_d end_d acc card with
    | Ok acc' => Ok (List.map (with_company co') acc')
    | Raise e => Raise e
    end.
Proof.
  unfold saas_card.
  destruct (get_text_of "" (select_one card ".review-title")); [|reflexivity].
  destruct (get_text_of "" (select_one card ".review-date")); [|reflexivity].
  destruct (subscript (select_one card ".review-rating") "data-score");
    [|reflexivity].
  cbn [result_bind]. destruct (float_ _); [|reflexivity].
  destruct (get_text_of "" (select_one card ".reviewer-name")); [|reflexivity].
  destruct (get_text_of " " (select_one card ".review-body")); [|reflexivity].
  cbn [result_bind]. destruct (negb _); [reflexivity|].
  now rewrite List.map_app.
Qed.

Lemma saas_cards_relabel co co' start_d end_d cards : forall acc,
  saas_cards co' start_d end_d (List.map (with_company co') acc) cards
  = match saas_cards co start_d end_d acc cards with
    | Ok acc' => Ok (List.map (with_company co') acc')
    | Raise e => Raise e
    end.
Proof.
  induction cards as [|card cards IH]; intros acc; [reflexivity|].
  cbn [saas_cards]. rewrite (saas_card_relabel co).
  destruct (saas_card co start_d end_d acc card) as [acc1|e]; [|reflexivity].
  cbn [result_bind]. apply IH.
Qed.

(** X19.  The company is looked up, and put into the URL, lower-cased,
    so that two spellings of a company that differ in letter case give the
    same requests and the same records but for the company field, which
    holds the spelling that was given. *)
Theorem company_case_changes_only_the_company_field (co co' : string)
    (start_d end_d : Datetime.date) (fuel : nat) :
  PyStr.lower co = PyStr.lower co' ->
  (is_Some (g2_slug_map !! PyStr.lower co) ->
   scrape_g2 requests_get fuel co' start_d end_d
   = relabel co' (scrape_g2 requests_get fuel co start_d end_d))
  /\ (is_Some (capterra_slug_map !! PyStr.lower co) ->
      scrape_capterra requests_get fuel co' start_d end_d
      = relabel co' (scrape_capterra requests_get fuel co start_d end_d))
  /\ scrape_saas_example requests_get fuel co' start_d end_d
     = relabel co' (scrape_saas_example requests_get fuel co start_d end_d).
Proof.
  intros Hco. split; [|split].
  - intros [slug Hslug]. unfold scrape_g2. rewrite <- Hco, Hslug.
    rewrite !g2_loop_paginate.
    apply (paginate_relabel co' _ _ _ _ _ ) with (acc := []).
    intros acc cards. f_equal.
    apply (foldl_relabel co' _ _ (g2_review co) (g2_review co')
             (passes start_d end_d));
      [apply g2_card_review|apply g2_card_review|reflexivity|reflexivity].
  - intros [path Hpath]. unfold scrape_capterra. rewrite <- Hco, Hpath.
    rewrite !capterra_loop_paginate.
    apply (paginate_relabel co' _ _ _ _ _ ) with (acc := []).
    intros acc cards. f_equal.
    apply (foldl_relabel co' _ _ (capterra_review co) (capterra_review co')
             (passes start_d end_d));
      [apply capterra_card_review|apply capterra_card_review
      |reflexivity|reflexivity].
  - unfold scrape_saas_example, saas_base_url. rewrite <- Hco.
    rewrite !saas_loop_paginate.
    apply (paginate_relabel co' _ _ _ _ _ ) with (acc := []).
    intros acc cards. apply saas_cards_relabel.
Qed.

Lemma paginate_fewer url_of banner selector body body' :
  (forall acc acc' cards,
     sublist acc acc' ->
     match body acc cards, body' acc' cards with
     | Ok acc1, Ok acc1' => sublist acc1 acc1'
     | Raise e, Raise e' => e = e'
     | _, _ => False
     end) ->
  forall fuel page acc acc',
    sublist acc acc' ->
    same_run_fewer_records
      (paginate requests_get url_of banner selector body fuel page acc)
      (paginate requests_get url_of banner selector body' fuel page acc').
Proof.
  intros Hbody. induction fuel as [|fuel IH]; intros page acc acc' Hacc;
    [now split|].
  cbn [paginate].
  destruct (fetch_cards _ _) as [[cards|]|e]; [|now split..].
  specialize (Hbody acc acc' cards Hacc).
  destruct (body acc cards) as [acc1|e], (body' acc' cards) as [acc1'|e'];
    [|contradiction..|now split].
  destruct (IH (page + 1) acc1 acc1' Hbody) as [Hio Hr].
  destruct (paginate _ _ _ _ body _ _ _) as [r io].
  destruct (paginate _ _ _ _ body' _ _ _) as [r' io'].
  cbn [fst snd] in *. subst io'. now split.
Qed.

Lemma foldl_fewer (step step' : list Review -> Tag -> list Review)
    (review : Tag -> Review) (keep keep' : Review -> bool) :
  (forall acc card,
     step acc card = if keep (review card) then acc ++ [review card] else acc) ->
  (forall acc card,
     step' acc card
     = if keep' (review card) then acc ++ [review card] else acc) ->
  (forall r, keep r = true -> keep' r = true) ->
  forall cards acc acc',
    sublist acc acc' -> sublist (foldl step acc cards) (foldl step' acc' cards).
Proof.
  intros Hstep Hstep' Hkeep cards.
  induction cards as [|card cards IH]; intros acc acc' Hacc; [assumption|].
  cbn [foldl]. apply IH. rewrite Hstep, Hstep'.
  destruct (keep (review card)) eqn:Hk.
  - rewrite (Hkeep _ Hk). now apply sublist_app.
  - destruct (keep' (review card)); [|assumption].
    now apply sublist_inserts_r.
Qed.

Lemma saas_cards_fewer co a b a' b' cards :
  Datetime.le a' a -> Datetime.le b b' ->
  forall acc acc',
    sublist acc acc' ->
    match saas_cards co a b acc cards, saas_cards co a' b' acc' cards with
    | Ok acc1, Ok acc1' => sublist acc1 acc1'
    | Raise e, Raise e' => e = e'
    | _, _ => False
    end.
Proof.
  intros Ha Hb. induction cards as [|card cards IH]; intros acc acc' Hacc;
    [assumption|].
  cbn [saas_cards]. unfold saas_card.
  destruct (get_text_of "" (select_one card ".review-title")); [|reflexivity].
  destruct (get_text_of "" (select_one card ".review-date")) as [date_txt|];
    [|reflexivity].
  destruct (subscript (select_one card ".review-rating") "data-score");
    [|reflexivity].
  cbn [result_bind]. destruct (float_ _); [|reflexivity].
  destruct (get_text_of "" (select_one card ".reviewer-name")); [|reflexivity].
  destruct (get_text_of " " (select_one card ".review-body")); [|reflexivity].
  cbn [result_bind].
  destruct (in_range date_txt a b) eqn:Hk.
  - rewrite (FilterFacts.in_range_wider _ _ _ _ _ Ha Hb Hk). cbn [negb result_bind].
    apply IH. now apply sublist_app.
  - cbn [negb result_bind].
    destruct (in_range date_txt a' b'); cbn [negb result_bind]; apply IH;
      [now apply sublist_inserts_r|assumption].
Qed.

(** X20.  The date window does not change which pages are requested:
    nothing stops the pagination early.  With a wider window the run
    makes the same requests, ends in the same way, and returns the
    records of the narrower window among its own, in the same order. *)
Theorem window_does_not_change_the_requests (co : string)
    (a b a' b' : Datetime.date) (fuel : nat) :
  Datetime.le a' a -> Datetime.le b b' ->
  same_run_fewer_records (scrape_g2 requests_get fuel co a b)
                         (scrape_g2 requests_get fuel co a' b')
  /\ same_run_fewer_records (scrape_capterra requests_get fuel co a b)
                            (scrape_capterra requests_get fuel co a' b')
  /\ same_run_fewer_records (scrape_saas_example requests_get fuel co a b)
                            (scrape_saas_example requests_get fuel co a' b').
Proof.
  intros Ha Hb. split; [|split].
  - unfold scrape_g2.
    destruct (g2_slug_map !! PyStr.lower co) as [slug|];
      [|split; reflexivity].
    rewrite !g2_loop_paginate. apply paginate_fewer; [|reflexivity].
    intros acc acc' cards Hacc.
    apply (foldl_fewer _ _ (g2_review co) (passes a b) (passes a' b'));
      [apply g2_card_review..| |assumption].
    intros r. now apply FilterFacts.in_range_wider.
  - unfold scrape_capterra.
    destruct (capterra_slug_map !! PyStr.lower co) as [path|];
      [|split; reflexivity].
    rewrite !capterra_loop_paginate. apply paginate_fewer; [|reflexivity].
    intros acc acc' cards Hacc.
    apply (foldl_fewer _ _ (capterra_review co) (passes a b) (passes a' b'));
      [apply capterra_card_review..| |assumption].
    intros r. now apply FilterFacts.in_range_wider.
  - unfold scrape_saas_example. rewrite !saas_loop_paginate.
    apply paginate_fewer; [|reflexivity].
    intros acc acc' cards. now apply saas_cards_fewer.
Qed.

(** ** Markup the parser rejects *)

Lemma fetch_cards_rejected url selector resp e :
  requests_get url = Ok resp -> status_code resp = 200 ->
  BeautifulSoup (text resp) = Raise e ->
  fetch_cards url selector = Raise e.
Proof.
  intros Hget Hst Hsoup. unfold fetch_cards.
  now rewrite Hget, Hst, Hsoup.
Qed.

(** X21.  No extractor catches what the parser raises: when pages 1..N
    show cards and page N+1 answers with status 200 and markup that the
    parser rejects, the run ends with the exception of the parser and
    writes no file (for the generic SaaS extractor, when the cards of
    pages 1..N have what its loop reads). *)
Theorem rejected_markup_aborts_the_run (co : string)
    (start_d end_d : Datetime.date) (pages : list (list Tag)) (fuel : nat)
    (resp : response) (err : exn) :
  (length pages < fuel)%nat ->
  status_code resp = 200 ->
  BeautifulSoup (text resp) = Raise err ->
  (forall slug,
     g2_slug_map !! PyStr.lower co = Some slug ->
     listing (build_g2_url slug) ".paper.paper--white.paper--box" pages ->
     requests_get (build_g2_url slug (1 + Z.of_nat (length pages))) = Ok resp ->
     fst (main requests_get write_file fuel co start_d end_d "g2")
     = Some (Raise err)
     /\ forall name content,
          ~ In (WriteFile name content)
               (snd (main requests_get write_file fuel co start_d end_d "g2")))
  /\ (forall path,
        capterra_slug_map !! PyStr.lower co = Some path ->
        listing (build_capterra_url path) "section.review-card" pages ->
        requests_get (build_capterra_url path (1 + Z.of_nat (length pages)))
        = Ok resp ->
        fst (main requests_get write_file fuel co start_d end_d "capterra")
        = Some (Raise err)
        /\ forall name content,
             ~ In (WriteFile name content)
                  (snd (main requests_get write_file fuel co start_d end_d
                             "capterra")))
  /\ (listing (saas_url co) ".review-card" pages ->
      (forall cards card, In cards pages -> In card cards ->
         is_Some (saas_review co card)) ->
      requests_get (saas_url co (1 + Z.of_nat (length pages))) = Ok resp ->
      fst (main requests_get write_file fuel co start_d end_d "saas")
      = Some (Raise err)
      /\ forall name content,
           ~ In (WriteFile name content)
                (snd (main requests_get write_file fuel co start_d end_d
                           "saas"))).
Proof.
  intros Hfuel Hst Hsoup.
  assert (forall (out : option (result (list Review)) * trace) src,
            fst out = Some (Raise err) ->
            forallb (fun ev => negb (is_write ev)) (snd out) = true ->
            fst (match out with
                 | (None, io) => (None, io)
                 | (Some (Raise e), io) => (Some (Raise e), io)
                 | (Some (Ok reviews), io) =>
                     (Some (fst (write_json write_file co src reviews)),
                      io ++ snd (write_json write_file co src reviews))
                 end) = Some (Raise err)
            /\ forall name content,
                 ~ In (WriteFile name content)
                      (snd (match out with
                            | (None, io) => (None, io)
                            | (Some (Raise e), io) => (Some (Raise e), io)
                            | (Some (Ok reviews), io) =>
                                (Some (fst (write_json write_file co src
                                              reviews)),
                                 io ++ snd (write_json write_file co src
                                              reviews))
                            end))) as Hout.
  { intros [r io] src Hr Hio. cbn [fst snd] in *. subst r.
    split; [reflexivity|]. intros name content. now apply no_write_not_in. }
  split; [|split].
  - intros slug Hslug Hl Hget. rewrite main_g2.
    apply Hout; [|apply scrape_g2_no_write].
    rewrite (scrape_g2_paginate _ _ _ _ _ Hslug).
    eapply (loop_raises_fetch _ _ _ _ _ pages);
      [now apply listing_shows| | |assumption].
    + now rewrite (run_pages_filter_map _ _ _
                     (g2_card_review co start_d end_d)).
    + now apply (fetch_cards_rejected _ _ resp).
  - intros path Hpath Hl Hget. rewrite main_capterra.
    apply Hout; [|apply scrape_capterra_no_write].
    rewrite (scrape_capterra_paginate _ _ _ _ _ Hpath).
    eapply (loop_raises_fetch _ _ _ _ _ pages);
      [now apply listing_shows| | |assumption].
    + now rewrite (run_pages_filter_map _ _ _
                     (capterra_card_review co start_d end_d)).
    + now apply (fetch_cards_rejected _ _ resp).
  - intros Hl Hall Hget. rewrite main_saas.
    apply Hout; [|apply scrape_saas_no_write].
    rewrite scrape_saas_paginate.
    eapply (loop_raises_fetch _ _ _ _ _ pages);
      [now apply listing_shows| | |assumption].
    + now rewrite saas_pages_reviews.
    + now apply (fetch_cards_rejected _ _ resp).
Qed.

End RunFacts.

(** ** File names and URLs *)

Section Names.

Lemma append_inv_l (a b s t : string) :
  a +:+ s = b +:+ t -> (String.length b <= String.length a)%nat ->
  exists x, a = b +:+ x /\ x +:+ s = t.
Proof.
  revert a; induction b as [|c b IH]; intros a H Hlen.
  - exists a. now rewrite !append_nil in *.
  - destruct a as [|c' a]; [cbn [String.length] in Hlen; lia|].
    rewrite !append_cons in H. injection H as -> H.
    destruct (IH a H) as (x & -> & Hx); [cbn [String.length] in Hlen; lia|].
    exists x. now rewrite append_cons.
Qed.

Lemma append_empty_r (s : string) : s +:+ EmptyString = s.
Proof.
  induction s as [|c s IH]; [reflexivity|]. now rewrite append_cons, IH.
Qed.

Lemma append_cancel_r (a b s : string) : a +:+ s = b +:+ s -> a = b.
Proof.
  intros H.
  assert (String.length a = String.length b) as Hlen.
  { apply (f_equal String.length) in H. rewrite !length_append in H. lia. }
  destruct (append_inv_l a b s s H) as (x & -> & Hx); [lia|].
  rewrite length_append in Hlen.
  destruct x; [now rewrite append_empty_r|cbn [String.length] in Hlen; lia].
Qed.

Lemma append_ends_with (x s : string) : ends_with s (x +:+ s) = true.
Proof.
  induction x as [|c x IH].
  - rewrite append_nil. destruct s; cbn [ends_with]; now rewrite String.eqb_refl.
  - rewrite append_cons. cbn [ends_with]. rewrite IH. apply orb_true_r.
Qed.

(** Texts with suffixes of which neither ends with the other differ. *)
Lemma suffix_clash (a b s t : string) :
  ends_with s t = false -> ends_with t s = false -> a +:+ s <> b +:+ t.
Proof.
  intros Hst Hts H.
  destruct (Nat.le_ge_cases (String.length b) (String.length a)) as [Hl|Hl].
  - destruct (append_inv_l _ _ _ _ H Hl) as (x & _ & <-).
    now rewrite append_ends_with in Hst.
  - symmetry in H. destruct (append_inv_l _ _ _ _ H Hl) as (x & _ & <-).
    now rewrite append_ends_with in Hts.
Qed.

Lemma stem_char c :
  (if Ascii.eqb
        (PyStr.lower_char (if Ascii.eqb c " " then "_"%char else c)) " "
   then "_"%char
   else PyStr.lower_char (if Ascii.eqb c " " then "_"%char else c))
  = (if Ascii.eqb (PyStr.lower_char c) " " then "_"%char
     else PyStr.lower_char c).
Proof. destruct c as [[] [] [] [] [] [] [] []]; reflexivity. Qed.

Lemma file_stem_replace co :
  file_stem (PyStr.replace " " "_" co) = file_stem co.
Proof.
  unfold file_stem. induction co as [|c co IH]; [reflexivity|].
  cbn [PyStr.replace PyStr.lower]. now rewrite IH, stem_char.
Qed.

Lemma file_stem_lower co : file_stem (PyStr.lower co) = file_stem co.
Proof. unfold file_stem. now rewrite CaseFacts.lower_idem. Qed.

Lemma fname_stem co src :
  fname co src = file_stem co +:+ "_" +:+ src +:+ "_reviews.json".
Proof. reflexivity. Qed.

(** X15.  The output files of two runs collide exactly when the runs have
    the same source and companies that agree once lower-cased and with
    spaces replaced: runs for different sources never overwrite each
    other's file, runs for "Acme Corp" and "acme_corp" do. *)
Theorem output_files_collide_by_normalised_name (co co' src src' : string) :
  In src sources -> In src' sources ->
  (fname co src = fname co' src'
   <-> src = src' /\ file_stem co = file_stem co')
  /\ fname (PyStr.lower co) src = fname co src
  /\ fname (PyStr.replace " " "_" co) src = fname co src.
Proof.
  intros Hs Hs'. split; [|split].
  - split; [|now intros [-> H]; rewrite !fname_stem, H].
    rewrite !fname_stem. intros H.
    unfold sources in Hs, Hs'. cbn [In] in Hs, Hs'.
    destruct Hs as [<-|[<-|[<-|[]]]]; destruct Hs' as [<-|[<-|[<-|[]]]];
      try (apply append_cancel_r in H; now split);
      exfalso; revert H; now apply suffix_clash.
  - now rewrite !fname_stem, file_stem_lower.
  - now rewrite !fname_stem, file_stem_replace.
Qed.

(** X16.  Two pages of a listing never have the same URL. *)
Theorem page_urls_are_distinct (slug path co : string) (p q : Z) :
  p <> q ->
  build_g2_url slug p <> build_g2_url slug q
  /\ build_capterra_url path p <> build_capterra_url path q
  /\ saas_url co p <> saas_url co q.
Proof.
  intros Hpq. split; [|split].
  - unfold build_g2_url. intros H.
    do 3 apply String.app_inj in H. now apply pretty_Z_inj in H.
  - unfold build_capterra_url. intros H.
    assert (forall n : Z,
              "https://www.capterra.com/p/" +:+ path +:+ "/reviews/"
              <> ("https://www.capterra.com/p/" +:+ path +:+ "/reviews/")
                   +:+ "?page=" +:+ pretty n) as Hbase.
    { intros n E. apply (f_equal String.length) in E.
      rewrite !length_append in E. cbn [String.length] in E. lia. }
    destruct (Z.eqb_spec p 1) as [->|Hp]; destruct (Z.eqb_spec q 1) as [->|Hq].
    + now destruct Hpq.
    + now apply Hbase in H.
    + symmetry in H. now apply Hbase in H.
    + do 2 apply String.app_inj in H. now apply pretty_Z_inj in H.
  - unfold saas_url. intros H. apply String.app_inj in H.
    now apply pretty_Z_inj in H.
Qed.

End Names.

(** ** The command line *)

Section Program.
Context `{bs4 : BS4} `{pyfloat : PyFloat} `{isodate : IsoDate}.
Variable requests_get : string -> result response.
Variable write_file : string -> string -> result unit.

(** X17.  A command line that is not exactly four arguments, two dates
    [fromisoformat] reads and a source that is, lower-cased, one of g2,
    capterra and saas makes the program print one line and exit with
    code 1: no request is made and nothing is written.  The dates are
    checked before the source. *)
Theorem invalid_command_line_exits (fuel : nat) (argv : list string) :
  (length argv <> 5%nat ->
   program requests_get write_file fuel argv = (Some (SystemExit 1), [Print usage]))
  /\ (forall arg0 co arg2 arg3 arg4,
        argv = [arg0; co; arg2; arg3; arg4] ->
        (fromisoformat arg2 = None \/ fromisoformat arg3 = None ->
         program requests_get write_file fuel argv
         = (Some (SystemExit 1),
            [Print "Dates must be in YYYY-MM-DD format."]))
        /\ (is_Some (fromisoformat arg2) -> is_Some (fromisoformat arg3) ->
            ~ In (PyStr.lower arg4) sources ->
            program requests_get write_file fuel argv
            = (Some (SystemExit 1),
               [Print "source must be one of: g2, capterra, saas"]))).
Proof.
  split.
  - intros Hlen. unfold program, parse_cli_args.
    destruct argv as [|a0 [|a1 [|a2 [|a3 [|a4 [|a5 argv]]]]]];
      try reflexivity. now destruct Hlen.
  - intros arg0 co arg2 arg3 arg4 ->. unfold program, parse_cli_args. split.
    + intros [H|H].
      * now rewrite H.
      * rewrite H. now destruct (fromisoformat arg2).
    + intros [s ->] [e ->] Hsrc.
      destruct (existsb _ sources) eqn:E; [|reflexivity].
      apply existsb_exists in E as (x & Hin & Heq).
      apply String.eqb_eq in Heq. subst x. now destruct Hsrc.
Qed.

Lemma main_result co start_d end_d src fuel :
  In src sources ->
  fst (main requests_get write_file fuel co start_d end_d src) = Some (Ok tt) ->
  exists io reviews,
    main requests_get write_file fuel co start_d end_d src
    = (Some (Ok tt),
       io ++ [WriteFile (fname co src)
                (Json.dumps (Json.JArr (List.map asdict reviews)));
              Print ("Saved " +:+ pretty (Z.of_nat (length reviews))
                       +:+ " reviews to " +:+ fname co src)])
    /\ forallb (fun ev => negb (is_write ev)) io = true
    /\ Forall (labelled start_d end_d src co) reviews.
Proof.
  intros Hsrc. unfold sources in Hsrc. cbn [In] in Hsrc.
  destruct Hsrc as [<-|[<-|[<-|[]]]].
  - rewrite main_g2.
    pose proof (scrape_g2_no_write requests_get fuel co start_d end_d) as Hio.
    destruct (scrape_g2 _ _ _ _ _) as [[[reviews|e]|] io] eqn:Hsc;
      cbn [fst snd] in *; try discriminate.
    unfold write_json. destruct (write_file _ _); [|discriminate].
    intros _. exists io, reviews. repeat split; [assumption|].
    apply (scrape_g2_labelled requests_get _ _ _ fuel). now rewrite Hsc.
  - rewrite main_capterra.
    pose proof (scrape_capterra_no_write requests_get fuel co start_d end_d)
      as Hio.
    destruct (scrape_capterra _ _ _ _ _) as [[[reviews|e]|] io] eqn:Hsc;
      cbn [fst snd] in *; try discriminate.
    unfold write_json. destruct (write_file _ _); [|discriminate].
    intros _. exists io, reviews. repeat split; [assumption|].
    apply (scrape_capterra_labelled requests_get _ _ _ fuel). now rewrite Hsc.
  - rewrite main_saas.
    pose proof (scrape_saas_no_write requests_get fuel co start_d end_d)
      as Hio.
    destruct (scrape_saas_example _ _ _ _ _) as [[[reviews|e]|] io] eqn:Hsc;
      cbn [fst snd] in *; try discriminate.
    unfold write_json. destruct (write_file _ _); [|discriminate].
    intros _. exists io, reviews. repeat split; [assumption|].
    apply (scrape_saas_labelled requests_get _ _ _ fuel). now rewrite Hsc.
Qed.

(** X18.  A run that returns has written one file, named after the company
    and the lower-cased source argument; every record in it passes the
    date filter for the two dates of the command line, carries that
    source and the company exactly as typed. *)
Theorem written_records_match_the_command_line (fuel : nat)
    (arg0 co arg2 arg3 arg4 : string) (start_d end_d : Datetime.date) :
  fromisoformat arg2 = Some start_d ->
  fromisoformat arg3 = Some end_d ->
  In (PyStr.lower arg4) sources ->
  fst (program requests_get write_file fuel [arg0; co; arg2; arg3; arg4])
  = Some Returned ->
  exists io reviews,
    snd (program requests_get write_file fuel [arg0; co; arg2; arg3; arg4])
    = io ++ [WriteFile (fname co (PyStr.lower arg4))
               (Json.dumps (Json.JArr (List.map asdict reviews)));
             Print ("Saved " +:+ pretty (Z.of_nat (length reviews))
                      +:+ " reviews to " +:+ fname co (PyStr.lower arg4))]
    /\ forallb (fun ev => negb (is_write ev)) io = true
    /\ Forall (labelled start_d end_d (PyStr.lower arg4) co) reviews.
Proof.
  intros Hs He Hsrc. unfold program, parse_cli_args. rewrite Hs, He.
  assert (existsb (String.eqb (PyStr.lower arg4)) sources = true) as ->.
  { apply existsb_exists. exists (PyStr.lower arg4).
    split; [assumption|apply String.eqb_refl]. }
  cbn [negb app].
  pose proof (main_result co start_d end_d (PyStr.lower arg4) fuel Hsrc)
    as Hmain.
  destruct (main _ _ _ _ _ _ _) as [[[[]|e]|] io0]; cbn [fst snd] in *;
    try discriminate.
  intros _. destruct (Hmain eq_refl) as (io & reviews & [= ->] & Hio & Hlab).
  now exists io, reviews.
Qed.

End Program.

(* ================================================================== *)
(** * The properties on the example pages *)
(* ================================================================== *)

Module Examples.
Import MiniSoup Tenths Demo DemoRuns.

(** The end-to-end scenario: two G2 cards dated January 5, 2024 and
    March 3, 2023, and the window 2024: one review is written. *)
Example end_to_end_g2 :
  main web disk 2 "Pulse" jan1 dec31 "g2"
  = (Some (Ok tt),
     [Print "[G2] Fetching page 1: https://www.g2.com/products/pulse/reviews?page=1";
      Get "https://www.g2.com/products/pulse/reviews?page=1" 20;
      Sleep 1;
      Print "[G2] Fetching page 2: https://www.g2.com/products/pulse/reviews?page=2";
      Get "https://www.g2.com/products/pulse/reviews?page=2" 20]
     ++ snd (write_json disk "Pulse" "g2" [great_tool])).
Proof. vm_compute. reflexivity. Qed.

Ltac one_page resp :=
  let i := fresh "i" in let cs := fresh "cs" in let H := fresh "H" in
  intros i cs H; destruct i as [|i]; [|discriminate H];
  apply (inj Some) in H; subst cs; exists resp, (parse (text resp));
  split; [reflexivity|];
  split; [reflexivity|];
  split; [reflexivity|];
  split; [reflexivity|vm_compute; discriminate].

Ltac no_page :=
  let i := fresh "i" in let cs := fresh "cs" in let H := fresh "H" in
  intros i cs H; discriminate H.

Ltac not_ok resp :=
  exists resp; split; [reflexivity|vm_compute; discriminate].

Ltac no_cards resp :=
  exists resp, (parse (text resp)); split; [reflexivity|];
  split; [reflexivity|];
  split; [reflexivity|reflexivity].

Ltac answers resp :=
  exists resp; split; [reflexivity|];
  intros _; exists (parse (text resp)); reflexivity.

Lemma in_range_supported_format_witness :
  in_range "  January 5, 2024 " jan1 dec31 = true
  <-> Datetime.le jan1 (Datetime.Date 2024 1 5)
      /\ Datetime.le (Datetime.Date 2024 1 5) dec31.
Proof.
  apply (in_range_supported_format _ "%B %d, %Y").
  - simpl. auto.
  - vm_compute. reflexivity.
Defined.


Lemma in_range_unknown_format_witness :
  in_range "not a date" jan1 dec31 = true.
Proof.
  apply in_range_unknown_format.
  intros fmt [<-|[<-|[<-|[]]]]; vm_compute; reflexivity.
Defined.

Lemma reviews_of_pages_in_order_witness :
  fst (scrape_g2 web 2 "Pulse" jan1 dec31) = Some (Ok [great_tool])
  /\ fst (scrape_capterra web 2 "Pulse" jan1 dec31) = Some (Ok [solid])
  /\ fst (scrape_saas_example web 2 "Pulse" jan1 dec31) = Some (Ok [fine])
  /\ exists e, fst (scrape_saas_example web 2 "Acme" jan1 dec31)
               = Some (Raise e).
Proof.
  split; [|split; [|split]].
  - apply (proj1 (reviews_of_pages_in_order (bs4 := mini_bs4) web "Pulse" jan1 dec31
                    [g2_cards] 2 ltac:(simpl; lia)) "pulse").
    + vm_compute. reflexivity.
    + one_page (Response 200 g2_page1).
    + not_ok not_found.
  - apply (proj1 (proj2 (reviews_of_pages_in_order (bs4 := mini_bs4) web
                           "Pulse" jan1 dec31 [capterra_cards] 2
                           ltac:(simpl; lia))) "12345/Pulse").
    + vm_compute. reflexivity.
    + one_page (Response 200 capterra_page1).
    + not_ok not_found.
  - etransitivity.
    + apply (proj2 (proj2 (reviews_of_pages_in_order (bs4 := mini_bs4) web
                             "Pulse" jan1 dec31 [saas_cards_good] 2
                             ltac:(simpl; lia)))).
      * one_page (Response 200 saas_page_good).
      * not_ok not_found.
      * intros cards card [<-|[]] Hin.
        change saas_cards_good with [fine_card] in Hin.
        destruct Hin as [<-|[]]. eexists. reflexivity.
    + reflexivity.
  - apply (proj2 (proj2 (proj2 (reviews_of_pages_in_order (bs4 := mini_bs4)
                                  web "Acme" jan1 dec31 [saas_cards_bad] 2
                                  ltac:(simpl; lia)))
                    ltac:(one_page (Response 200 saas_page_bad))
                    ltac:(not_ok not_found))
             saas_cards_bad (hd fine_card saas_cards_bad)).
    + now left.
    + left. reflexivity.
    + reflexivity.
Defined.

(** C3 as stated fails for the generic SaaS extractor: page 1 answers
    with status 200 and one card, page 2 answers 404, and the extractor
    returns no review of page 1: the card lacks its title, and reading
    it raises. *)
Lemma saas_listing_with_an_unreadable_card :
  listing web (saas_url "Acme") ".review-card" [saas_cards_bad]
  /\ page_not_ok web (saas_url "Acme" 2)
  /\ fst (scrape_saas_example web 5 "Acme" jan1 dec31)
     = Some (Raise (AttributeError
                      "'NoneType' object has no attribute 'get_text'")).
Proof.
  split; [one_page (Response 200 saas_page_bad)|].
  split; [not_ok not_found|reflexivity].
Qed.

Lemma pagination_ends_with_the_listing_witness :
  (exists reviews,
     fst (scrape_g2 web_empty 2 "Pulse" jan1 dec31) = Some (Ok reviews))
  /\ (exists reviews,
        fst (scrape_capterra web 2 "Pulse" jan1 dec31) = Some (Ok reviews))
  /\ (exists reviews,
        fst (scrape_saas_example web 2 "Pulse" jan1 dec31)
        = Some (Ok reviews)).
Proof.
  split; [|split].
  - destruct (proj1 (pagination_ends_with_the_listing (bs4 := mini_bs4)
                       web_empty "Pulse" jan1 dec31 1) "pulse")
      as (pages & Hlen & _ & _ & Hres & _).
    + vm_compute. reflexivity.
    + intros [|[|i]] Hi;
        [answers (Response 200 g2_page1)|answers no_more|lia].
    + right. no_cards no_more.
    + eexists. apply Hres. lia.
  - destruct (proj1 (proj2 (pagination_ends_with_the_listing (bs4 := mini_bs4)
                       web "Pulse" jan1 dec31 1)) "12345/Pulse")
      as (pages & Hlen & _ & _ & Hres & _).
    + vm_compute. reflexivity.
    + intros [|[|i]] Hi;
        [answers (Response 200 capterra_page1)|answers not_found|lia].
    + left. not_ok not_found.
    + eexists. apply Hres. lia.
  - destruct (proj2 (proj2 (pagination_ends_with_the_listing (bs4 := mini_bs4)
                       web "Pulse" jan1 dec31 1)))
      as (pages & reviews & Hlen & _ & _ & _ & Hres & _).
    + intros [|[|i]] Hi;
        [answers (Response 200 saas_page_good)|answers not_found|lia].
    + intros [|[|i]] cards Hi (resp & soup & Hget & Hst & Hsoup & Hsel & _) acc;
        [| |lia].
      * assert (resp = Response 200 saas_page_good) as ->.
        { vm_compute in Hget. now injection Hget as <-. }
        assert (soup = parse saas_page_good) as ->.
        { vm_compute in Hsoup. injection Hsoup as <-.
          vm_compute. reflexivity. }
        subst cards. change (select _ _) with [fine_card].
        exists (acc ++ [fine]). reflexivity.
      * exfalso. vm_compute in Hget. injection Hget as <-.
        vm_compute in Hst. discriminate Hst.
    + left. not_ok not_found.
    + exists reviews. apply Hres. lia.
Defined.

(** C4 as stated fails for the generic SaaS extractor: page 1 answers
    with a card that lacks its title, page 2 answers 404, and the
    extractor raises instead of returning. *)
Lemma saas_loop_raises_before_the_listing_ends :
  page_not_ok web (saas_base_url "Acme" +:+ pretty 2)
  /\ fst (scrape_saas_example web 5 "Acme" jan1 dec31)
     = Some (Raise (AttributeError
                      "'NoneType' object has no attribute 'get_text'")).
Proof.
  split; [not_ok not_found|reflexivity].
Qed.


Lemma saas_missing_element_is_fatal_witness :
  (exists e, forall acc,
     saas_card "Acme" jan1 dec31 acc
       (Elem "div" [("class", "review-card")]
          [Elem "span" [("class", "review-date")] [Text "Feb 1, 2024"];
           Elem "span" [("class", "review-rating"); ("data-score", "3.5")] [];
           Elem "span" [("class", "reviewer-name")] [Text "Di"];
           Elem "p" [("class", "review-body")] [Text "It is fine"]])
     = Raise e)
  /\ exists e,
      fst (scrape_saas_example web 1 "Acme" jan1 dec31) = Some (Raise e)
      /\ fst (main web disk 1 "Acme" jan1 dec31 "saas") = Some (Raise e)
      /\ forall name content,
           ~ In (WriteFile name content)
                (snd (main web disk 1 "Acme" jan1 dec31 "saas")).
Proof.
  apply (saas_missing_element_is_fatal (bs4 := mini_bs4) web disk "Acme" jan1
           dec31 [] saas_cards_bad).
  - one_page (Response 200 saas_page_bad).
  - vm_compute. left. reflexivity.
  - left. vm_compute. reflexivity.
  - simpl. lia.
Defined.

Lemma configuration_gap_aborts_the_run_witness :
  main web disk 3 "Acme Corp" jan1 dec31 "g2"
  = (Some (Raise (ValueError
       "No G2 slug configured for 'Acme Corp'. Update slug_map in scrape_g2().")),
     [])
  /\ main web disk 3 "Acme Corp" jan1 dec31 "capterra"
     = (Some (Raise (ValueError
          "No Capterra path configured for 'Acme Corp'. Update slug_map in scrape_capterra().")),
        [])
  /\ (exists io,
        main web disk 2 "Pulse" jan1 dec31 "g2"
        = (Some (Ok tt), io ++ snd (write_json disk "Pulse" "g2" [great_tool])))
  /\ (exists io,
        main web disk 2 "Pulse" jan1 dec31 "capterra"
        = (Some (Ok tt),
           io ++ snd (write_json disk "Pulse" "capterra" [solid])))
  /\ fst (main web_down disk 2 "Pulse" jan1 dec31 "g2")
     = Some (Raise (RequestException "Read timed out. (read timeout=20)"))
  /\ fst (main web_down disk 2 "Pulse" jan1 dec31 "capterra")
     = Some (Raise (RequestException "Read timed out. (read timeout=20)")).
Proof.
  pose proof (configuration_gap_aborts_the_run (bs4 := mini_bs4) web disk
                "Acme Corp" jan1 dec31 [] 3) as [[Hg2 _] [[Hcap _] _]].
  pose proof (configuration_gap_aborts_the_run (bs4 := mini_bs4) web disk
                "Pulse" jan1 dec31 [g2_cards] 2) as [[_ Hg2_ok] _].
  pose proof (configuration_gap_aborts_the_run (bs4 := mini_bs4) web disk
                "Pulse" jan1 dec31 [capterra_cards] 2) as [_ [[_ Hcap_ok] _]].
  pose proof (configuration_gap_aborts_the_run (bs4 := mini_bs4) web_down disk
                "Pulse" jan1 dec31 [] 2) as [[_ Hg2_ex] [[_ Hcap_ex] _]].
  split; [|split; [|split; [|split; [|split]]]].
  - apply Hg2. vm_compute. reflexivity.
  - apply Hcap. vm_compute. reflexivity.
  - refine (proj1 (Hg2_ok "pulse" _ _ _) _).
    + vm_compute. reflexivity.
    + one_page (Response 200 g2_page1).
    + simpl. lia.
    + not_ok not_found.
  - refine (proj1 (Hcap_ok "12345/Pulse" _ _ _) _).
    + vm_compute. reflexivity.
    + one_page (Response 200 capterra_page1).
    + simpl. lia.
    + not_ok not_found.
  - refine (proj1 (proj2 (Hg2_ex "pulse" _ _ _) _ _)).
    + vm_compute. reflexivity.
    + no_page.
    + simpl. lia.
    + reflexivity.
  - refine (proj1 (proj2 (Hcap_ex "12345/Pulse" _ _ _) _ _)).
    + vm_compute. reflexivity.
    + no_page.
    + simpl. lia.
    + reflexivity.
Defined.

(** C7 as stated fails on network failures: when the request itself
    raises (here a time-out), the exception is not caught and the run is
    aborted after one request, with nothing written. *)
Lemma network_failure_aborts_the_run :
  main web_down disk 5 "Pulse" jan1 dec31 "g2"
  = (Some (Raise (RequestException "Read timed out. (read timeout=20)")),
     [Print "[G2] Fetching page 1: https://www.g2.com/products/pulse/reviews?page=1";
      Get "https://www.g2.com/products/pulse/reviews?page=1" 20]).
Proof. vm_compute. reflexivity. Qed.

Lemma output_file_name_witness :
  String.get 4 (fname "Acme Corp" "capterra") = Some "_"%char.
Proof.
  refine (proj1 (proj2 (output_file_name disk "Acme Corp" "capterra" [])) 4%nat
            " "%char _).
  reflexivity.
Defined.

Lemma written_json_round_trip_witness :
  exists content items,
    (exists line,
       write_json disk "Pulse" "g2" [great_tool; solid]
       = (Ok tt, [WriteFile (fname "Pulse" "g2") content; Print line]))
    /\ Json.loads content = Some (Json.JArr items)
    /\ items
       = List.map (fun r =>
           Json.JObj
             [("title", Json.JStr (title r));
              ("date", Json.JStr (date r));
              ("rating", Json.JFloat (rating r));
              ("reviewer_name", Json.JStr (reviewer_name r));
              ("review_text", Json.JStr (review_text r));
              ("source", Json.JStr (source r));
              ("company", Json.JStr (company r))]) [great_tool; solid]
    /\ Forall2 (fun v r => same_fields v r = true) items [great_tool; solid].
Proof.
  apply (written_json_round_trip (pyfloat := tenths_float) disk).
  constructor; [|constructor; [|constructor]].
  - split; [reflexivity|]. left.
    exists {| negative := false; integer := "4"; fraction := "5";
              exp_sign := ""; exp_digits := "" |}.
    repeat split; reflexivity.
  - split; [reflexivity|]. left.
    exists {| negative := false; integer := "0"; fraction := "0";
              exp_sign := ""; exp_digits := "" |}.
    repeat split; reflexivity.
Defined.

Lemma capterra_first_page_has_no_query_witness :
  build_capterra_url "12345/Pulse" 2
  = "https://www.capterra.com/p/12345/Pulse/reviews/?page=2".
Proof.
  refine (proj1 (proj2 (proj2 (capterra_first_page_has_no_query
            (bs4 := mini_bs4) web "12345/Pulse" "pulse" "Pulse" 2 0 jan1 dec31
            []))) _).
  lia.
Defined.

End Examples.

(** The round trip on a rating that is not a number. *)
Module NaNExample.
Import Demo DemoNaN.
#[local] Existing Instance TenthsNaN.nan_float.

(** C9 as stated fails for a rating that is not a number, which
    [float("nan")] gives: the file is written and parses back to one
    object with the seven keys, but its rating does not equal that of
    the review, NaN being equal to nothing. *)
Lemma nan_rating_is_not_read_back_equal :
  float_of_str "nan" = Some (rating odd)
  /\ exists content v,
       write_json disk "Nova" "saas" [odd]
       = (Ok tt, [WriteFile "nova_saas_reviews.json" content;
                  Print "Saved 1 reviews to nova_saas_reviews.json"])
       /\ Json.loads content = Some (Json.JArr [v])
       /\ same_fields v odd = false.
Proof.
  split; [reflexivity|].
  exists (Json.dumps (Json.JArr [asdict odd])), (asdict odd).
  repeat split; reflexivity.
Qed.

End NaNExample.

(* ================================================================== *)
(** * The further properties on examples *)
(* ================================================================== *)

Module MoreExamples.
Import MiniSoup Tenths Demo DemoRuns Examples.

Lemma in_range_wider_window_witness :
  in_range "Mar 5, 2024" jan1 dec31 = true.
Proof.
  apply (in_range_wider_window "Mar 5, 2024"
           (Datetime.Date 2024 3 1) (Datetime.Date 2024 3 31)).
  - unfold Datetime.le. cbn. lia.
  - unfold Datetime.le. cbn. lia.
  - reflexivity.
Defined.

Lemma in_range_empty_window_witness :
  in_range "January 5, 2024" dec31 jan1 = true
  <-> forall fmt, In fmt date_formats ->
        Strptime.strptime (PyStr.strip "January 5, 2024") fmt = None.
Proof.
  apply in_range_empty_window. unfold Datetime.le. cbn. lia.
Defined.

Lemma in_range_ignores_surrounding_space_witness :
  in_range (String "009" " " +:+ "2024-02-10" +:+ "  ") jan1 dec31
  = in_range "2024-02-10" jan1 dec31.
Proof. apply in_range_ignores_surrounding_space; reflexivity. Defined.

Lemma in_range_ignores_letter_case_witness :
  in_range "JANUARY 5, 2024" jan1 dec31
  = in_range "january 5, 2024" jan1 dec31.
Proof. apply in_range_ignores_letter_case. reflexivity. Defined.

Lemma in_range_iso_text_witness :
  in_range "2023-12-31" jan1 dec31 = false
  /\ in_range "2024-02-30" jan1 dec31 = true.
Proof.
  split.
  - apply (in_range_iso_text 2023 12 31); lia.
  - apply (in_range_iso_text 2024 2 30); lia.
Defined.

Lemma in_range_month_text_witness :
  in_range "February 30, 2024" jan1 (Datetime.Date 2024 1 2) = true
  /\ in_range "Mar 5, 2024" jan1 dec31 = true.
Proof.
  split.
  - apply (in_range_month_text FilterSpec.month_name 2 30 2024);
      [now left|lia..].
  - apply (in_range_month_text FilterSpec.month_abbr 3 5 2024);
      [now right|lia..].
Defined.

Lemma card_without_date_is_kept_witness :
  g2_card "Pulse" (Datetime.Date 1999 1 1) (Datetime.Date 1999 1 2) []
          undated_card
  = [{| title := "Undated"; date := ""; rating := 40%N;
        reviewer_name := "Eve"; review_text := "No date";
        source := "g2"; company := "Pulse" |}].
Proof.
  refine (proj1 (proj1 (card_without_date_is_kept (bs4 := mini_bs4) "Pulse"
                          (Datetime.Date 1999 1 1) (Datetime.Date 1999 1 2)
                          [] undated_card) _)).
  reflexivity.
Defined.

Lemma returned_reviews_are_filtered_and_labelled_witness :
  Forall (labelled jan1 dec31 "g2" "Pulse") [great_tool].
Proof.
  apply (proj1 (returned_reviews_are_filtered_and_labelled
                  (bs4 := mini_bs4) web "Pulse" jan1 dec31 2 [great_tool])).
  reflexivity.
Defined.

Lemma pages_are_requested_in_order_witness :
  in_page_order (g2_banner "pulse") (build_g2_url "pulse") 2
    (scrape_g2 web 2 "Pulse" jan1 dec31).
Proof.
  apply (proj1 (pages_are_requested_in_order (bs4 := mini_bs4) web "Pulse"
                  jan1 dec31 2)).
  reflexivity.
Defined.

Lemma listing_costs_one_request_per_page_witness :
  snd (scrape_g2 web 2 "Pulse" jan1 dec31)
  = [Print "[G2] Fetching page 1: https://www.g2.com/products/pulse/reviews?page=1";
     Get "https://www.g2.com/products/pulse/reviews?page=1" 20;
     Sleep 1;
     Print "[G2] Fetching page 2: https://www.g2.com/products/pulse/reviews?page=2";
     Get "https://www.g2.com/products/pulse/reviews?page=2" 20].
Proof.
  etransitivity.
  - apply (proj1 (listing_costs_one_request_per_page (bs4 := mini_bs4) web
                    "Pulse" jan1 dec31 [g2_cards] 2 ltac:(simpl; lia))
             "pulse").
    + reflexivity.
    + one_page (Response 200 g2_page1).
    + left. not_ok not_found.
  - vm_compute. reflexivity.
Defined.

Lemma saas_reviews_of_pages_in_order_witness :
  fst (scrape_saas_example web 2 "Pulse" jan1 dec31) = Some (Ok [fine]).
Proof.
  etransitivity.
  - apply (saas_reviews_of_pages_in_order (bs4 := mini_bs4) web "Pulse" jan1
             dec31 [saas_cards_good] 2).
    + simpl. lia.
    + one_page (Response 200 saas_page_good).
    + intros cards card [<-|[]] Hin.
      change saas_cards_good with [fine_card] in Hin.
      destruct Hin as [<-|[]]. eexists. reflexivity.
    + left. not_ok not_found.
  - reflexivity.
Defined.

Lemma saas_unusable_score_is_fatal_witness :
  saas_card "Nova" jan1 dec31 [] no_score_card = Raise (KeyError "data-score")
  /\ saas_card "Nova" jan1 dec31 [] odd_score_card
     = Raise (ValueError ("could not convert string to float: "
                            +:+ String "034" ("4'5" +:+ String "034" "")))
  /\ exists e,
      fst (scrape_saas_example web_nova 1 "Nova" jan1 dec31)
      = Some (Raise e)
      /\ fst (main web_nova disk 1 "Nova" jan1 dec31 "saas") = Some (Raise e)
      /\ forall name content,
           ~ In (WriteFile name content)
                (snd (main web_nova disk 1 "Nova" jan1 dec31 "saas")).
Proof.
  assert (listing web_nova (saas_url "Nova") ".review-card"
            ([] ++ [saas_cards_no_score])) as Hl
    by one_page (Response 200 saas_page_no_score).
  assert (In no_score_card saas_cards_no_score) as Hin
    by (left; reflexivity).
  assert (saas_score_unusable no_score_card) as Hbad
    by (eexists; split; [reflexivity|left; reflexivity]).
  destruct (saas_unusable_score_is_fatal (bs4 := mini_bs4) web_nova disk
              "Nova" jan1 dec31 [] saas_cards_no_score no_score_card 1
              Hl Hin Hbad ltac:(simpl; lia)) as [Hcard Hrun].
  assert (listing web_nova (saas_url "Nova") ".review-card"
            ([] ++ [[odd_score_card]]) ->
          saas_card "Nova" jan1 dec31 [] odd_score_card
          = Raise (ValueError ("could not convert string to float: "
                                 +:+ String "034" ("4'5" +:+ String "034" ""))))
    as Hodd.
  { intros Hl'.
    refine (proj2 (proj1 (saas_unusable_score_is_fatal (bs4 := mini_bs4)
                            web_nova disk "Nova" jan1 dec31 []
                            [odd_score_card] odd_score_card 1 Hl' _ _
                            ltac:(simpl; lia))
                     _ _ _ [] _ _ _) "4'5" _ _);
      try reflexivity; [now left|].
    eexists. split; [reflexivity|]. right. exists "4'5". now split. }
  split; [|split; [|exact Hrun]].
  - refine (proj1 (Hcard _ _ _ [] _ _ _) _); reflexivity.
  - reflexivity.
Defined.

Lemma result_is_written_once_at_the_end_witness :
  forallb (fun ev => negb (is_write ev))
    (snd (scrape_g2 web 2 "Pulse" jan1 dec31)) = true
  /\ main web flat_disk 2 "Pulse" jan1 dec31 "g2"
     = match scrape_g2 web 2 "Pulse" jan1 dec31 with
       | (None, io) => (None, io)
       | (Some (Raise e), io) => (Some (Raise e), io)
       | (Some (Ok reviews), io) =>
           match flat_disk (fname "Pulse" "g2")
                   (Json.dumps (Json.JArr (List.map asdict reviews))) with
           | Ok _ =>
               (Some (Ok tt),
                io ++ [WriteFile (fname "Pulse" "g2")
                         (Json.dumps (Json.JArr (List.map asdict reviews)));
                       Print ("Saved " +:+ pretty (Z.of_nat (length reviews))
                                +:+ " reviews to " +:+ fname "Pulse" "g2")])
           | Raise e => (Some (Raise e), io)
           end
       end.
Proof.
  apply (result_is_written_once_at_the_end (bs4 := mini_bs4) web flat_disk
           "Pulse" "g2" jan1 dec31 2 (scrape_g2 web)).
  left. reflexivity.
Defined.

Lemma empty_listing_writes_an_empty_array_witness :
  main web_empty disk 1 "Other" jan1 dec31 "saas"
  = (Some (Ok tt),
     [Print "[SAAS] Fetching page 1: https://example-saas-reviews.com/other/reviews?page=1";
      Get "https://example-saas-reviews.com/other/reviews?page=1" 20;
      WriteFile "other_saas_reviews.json" "[]";
      Print "Saved 0 reviews to other_saas_reviews.json"])
  /\ main web flat_disk 1 "AC/DC" jan1 dec31 "saas"
     = (Some (Raise (OSError
          "[Errno 2] No such file or directory: 'ac/dc_saas_reviews.json'")),
        [Print "[SAAS] Fetching page 1: https://example-saas-reviews.com/ac/dc/reviews?page=1";
         Get "https://example-saas-reviews.com/ac/dc/reviews?page=1" 20]).
Proof.
  split.
  - apply (proj2 (proj2 (empty_listing_writes_an_empty_array
                           (bs4 := mini_bs4) web_empty disk "Other" jan1 dec31
                           1 ltac:(lia)))).
    right. no_cards no_more.
  - apply (proj2 (proj2 (empty_listing_writes_an_empty_array
                           (bs4 := mini_bs4) web flat_disk "AC/DC" jan1 dec31
                           1 ltac:(lia)))).
    left. not_ok not_found.
Defined.

Lemma output_files_collide_by_normalised_name_witness :
  fname "Acme Corp" "g2" = fname "acme_corp" "g2"
  /\ fname "Acme Corp" "g2" <> fname "Acme Corp" "saas".
Proof.
  split.
  - apply (proj1 (output_files_collide_by_normalised_name
                    "Acme Corp" "acme_corp" "g2" "g2"
                    ltac:(now left) ltac:(now left))).
    split; reflexivity.
  - intros H.
    apply (proj1 (output_files_collide_by_normalised_name
                    "Acme Corp" "Acme Corp" "g2" "saas"
                    ltac:(now left) ltac:(now right; right; left))) in H.
    destruct H as [H _]. discriminate H.
Defined.

Lemma page_urls_are_distinct_witness :
  build_capterra_url "12345/Pulse" 1 <> build_capterra_url "12345/Pulse" 2.
Proof.
  apply (proj1 (proj2 (page_urls_are_distinct "pulse" "12345/Pulse" "Pulse"
                         1 2 ltac:(lia)))).
Defined.

Lemma invalid_command_line_exits_witness :
  program web disk 5 ["review_scraper.py"; "Pulse"]
  = (Some (SystemExit 1), [Print usage])
  /\ program web disk 5 ["review_scraper.py"; "Pulse"; "2024-01-01"; "31/12/2024";
                    "yelp"]
     = (Some (SystemExit 1), [Print "Dates must be in YYYY-MM-DD format."])
  /\ program web disk 5 ["review_scraper.py"; "Pulse"; "2024-01-01"; "2024-12-31";
                    "yelp"]
     = (Some (SystemExit 1),
        [Print "source must be one of: g2, capterra, saas"]).
Proof.
  split; [|split].
  - apply (proj1 (invalid_command_line_exits (bs4 := mini_bs4) web disk 5 _)).
    simpl. lia.
  - apply (proj1 (proj2 (invalid_command_line_exits (bs4 := mini_bs4) web disk 5 _)
                    _ _ _ _ _ eq_refl)).
    right. reflexivity.
  - apply (proj2 (proj2 (invalid_command_line_exits (bs4 := mini_bs4) web disk 5 _)
                    _ _ _ _ _ eq_refl)).
    + eexists; reflexivity.
    + eexists; reflexivity.
    + intros [H|[H|[H|[]]]]; discriminate H.
Defined.

Lemma written_records_match_the_command_line_witness :
  exists io reviews,
    snd (program web disk 2 ["review_scraper.py"; "Pulse"; "2024-01-01";
                             "2024-12-31"; "G2"])
    = io ++ [WriteFile "pulse_g2_reviews.json"
               (Json.dumps (Json.JArr (List.map asdict reviews)));
             Print ("Saved " +:+ pretty (Z.of_nat (length reviews))
                      +:+ " reviews to " +:+ "pulse_g2_reviews.json")]
    /\ forallb (fun ev => negb (is_write ev)) io = true
    /\ Forall (labelled jan1 dec31 "g2" "Pulse") reviews.
Proof.
  apply (written_records_match_the_command_line (bs4 := mini_bs4) web disk 2
           "review_scraper.py" "Pulse" "2024-01-01" "2024-12-31" "G2"
           jan1 dec31).
  - reflexivity.
  - reflexivity.
  - now left.
  - reflexivity.
Defined.

Lemma company_case_changes_only_the_company_field_witness :
  scrape_g2 web 2 "PULSE" jan1 dec31
  = relabel "PULSE" (scrape_g2 web 2 "Pulse" jan1 dec31).
Proof.
  apply (proj1 (company_case_changes_only_the_company_field
                  (bs4 := mini_bs4) web "Pulse" "PULSE" jan1 dec31 2
                  eq_refl)).
  eexists. reflexivity.
Defined.

Lemma window_does_not_change_the_requests_witness :
  same_run_fewer_records
    (scrape_g2 web 2 "Pulse" jan1 dec31)
    (scrape_g2 web 2 "Pulse" (Datetime.Date 2023 1 1) dec31).
Proof.
  apply (proj1 (window_does_not_change_the_requests (bs4 := mini_bs4) web
                  "Pulse" jan1 dec31 (Datetime.Date 2023 1 1) dec31 2
                  ltac:(unfold Datetime.le; cbn; lia)
                  ltac:(unfold Datetime.le; cbn; lia))).
Defined.

Lemma rejected_markup_aborts_the_run_witness :
  fst (main web_broken disk 1 "Pulse" jan1 dec31 "g2")
  = Some (Raise (ParserRejectedMarkup "marked section"))
  /\ forall name content,
       ~ In (WriteFile name content)
            (snd (main web_broken disk 1 "Pulse" jan1 dec31 "g2")).
Proof.
  apply (proj1 (rejected_markup_aborts_the_run (bs4 := mini_bs4) web_broken
                  disk "Pulse" jan1 dec31 [] 1 broken_page
                  (ParserRejectedMarkup "marked section")
                  ltac:(simpl; lia) eq_refl eq_refl) "pulse").
  - reflexivity.
  - no_page.
  - reflexivity.
Defined.

End MoreExamples.
